(** * FAQ retrieval glue: chunking, ingestion and retrieval

    A shallow embedding of [vector_db.py], [search_helper.py], [api_server.py],
    [api_vercel.py], [faq.py], [faq2.py] and [openai_agent.py].

    Python integers are [Z], Python lists are [list], and a [str] is the
    [string] of the bytes of its UTF-8 encoding, with [len] and slices
    counting code points.
    The tokenizer, the PDF reader, the embedding service and the vector index
    are external: they are fields of an environment record [Env], and every
    function of the repository is defined for an arbitrary environment.
    A function with effects is a computation [M E A]: from the state of the
    outside world it yields the events it caused in order (lines printed,
    calls to the services with their replies), the new state of the world and
    its outcome (a value, an exception, or no return at all). *)

From Stdlib Require Import ZArith Lia.
From stdpp Require Import base numbers list list_numbers strings pretty gmap.

#[local] Set Warnings "-clear-no-such-hyp".

Local Open Scope Z_scope.

(** ** Python values *)

(** Exceptions (all of them subclasses of [Exception]):
    an exception of class [cls] whose [str()] is [msg], and FastAPI's
    [HTTPException(status_code, detail)]. *)
Inductive exn : Type :=
| PyException (cls msg : string)
| HTTPException (status_code : Z) (detail : string).

(** What a call can do: return a value, raise, or never return. *)
Inductive outcome (A : Type) : Type :=
| Returns (a : A)
| Raises (e : exn)
| Hangs.
Arguments Returns {A} a.
Arguments Raises {A} e.
Arguments Hangs {A}.

(** What an external service answers: a value or an exception. *)
Inductive reply (A : Type) : Type :=
| Ok (a : A)
| Err (e : exn).
Arguments Ok {A} a.
Arguments Err {A} e.

Module Py.

(** [len(l)] *)
Definition len {A} (l : list A) : Z := Z.of_nat (length l).

(** Bound adjustment of [l[start:stop]] for a sequence of length [n]:
    a negative bound counts from the end, and both are clamped to [0, n]. *)
Definition adjust (n i : Z) : Z :=
  if i <? 0 then Z.max 0 (i + n) else Z.min i n.

(** [l[start:stop]] *)
Definition slice {A} (l : list A) (start stop : Z) : list A :=
  let s := adjust (len l) start in
  let e := adjust (len l) stop in
  take (Z.to_nat (e - s)) (drop (Z.to_nat s) l).

(** [-(-a // d)], the ceiling of [a / d] for a positive [d]. *)
Definition ceil_div (a d : Z) : Z := - ((- a) / d).

(** [list(range(start, stop, step))]; [None] is the [ValueError] of a zero
    step. *)
Definition range (start stop step : Z) : option (list Z) :=
  if step =? 0 then None
  else if 0 <? step then
    Some ((fun k => start + k * step) <$> seqZ 0 (ceil_div (stop - start) step))
  else
    Some ((fun k => start + k * step) <$> seqZ 0 (ceil_div (start - stop) (- step))).

(** [list(enumerate(l))] *)
Definition enumerate {A} (l : list A) : list (Z * A) :=
  zip (seqZ 0 (len l)) l.

(** Truth value of a string: [if s]. *)
Definition truthy (s : string) : bool :=
  match s with EmptyString => false | String _ _ => true end.

(** A [str] is a sequence of code points; a [string] holds the bytes of its
    UTF-8 encoding, where a code point is one byte that is not of the form
    [10xxxxxx], followed by at most three bytes that are.
    [continuation c]: the byte [c] is of the form [10xxxxxx]. *)
Definition continuation (c : Ascii.ascii) : bool :=
  match c with
  | Ascii.Ascii _ _ _ _ _ _ false true => true
  | _ => false
  end.

(** Number of code points of a string. *)
Fixpoint code_points (s : string) : nat :=
  match s with
  | EmptyString => O
  | String c s' =>
      if continuation c then code_points s' else S (code_points s')
  end.

(** [s[:n]] for [n >= 0]: the bytes of the first [n] code points. *)
Fixpoint str_take (n : nat) (s : string) : string :=
  match s with
  | EmptyString => EmptyString
  | String c s' =>
      if continuation c then String c (str_take n s')
      else match n with
           | O => EmptyString
           | S n' => String c (str_take n' s')
           end
  end.

Arguments str_take : simpl never.

(** [len(s)]: the number of code points. *)
Definition str_len (s : string) : Z := Z.of_nat (code_points s).

(** [sep.join(l)] *)
Fixpoint join (sep : string) (l : list string) : string :=
  match l with
  | [] => ""
  | [s] => s
  | s :: l' => s +:+ sep +:+ join sep l'
  end.

(** [str(e)] *)
Definition str (e : exn) : string :=
  match e with
  | PyException _ msg => msg
  | HTTPException status_code detail => pretty status_code +:+ ": " +:+ detail
  end.

(** The string ["\n"]. *)
Definition newline : string := String (Ascii.ascii_of_nat 10) EmptyString.

Definition IndexError : exn := PyException "IndexError" "list index out of range".
Definition ValueError (msg : string) : exn := PyException "ValueError" msg.

End Py.

(** ** vector_db.py: the chunker *)

Definition token := Z.

(** Defaults of the signatures: [overlap: int = 200],
    [max_chunk_tokens: int = 6000], [batch_size: int = 100]. *)
Definition default_overlap : Z := 200.
Definition default_max_chunk_tokens : Z := 6000.
Definition default_batch_size : Z := 100.

Section Chunker.

(** [tiktoken.get_encoding("cl100k_base")]: [encoding.encode] and
    [encoding.decode]. *)
Variable encode : string -> list token.
Variable decode : list token -> string.

(** The [while start < len(tokens)] loop of [chunk_text_by_tokens].
    [fuel] bounds the number of evaluations of the loop test; [None] means
    the loop was still running when the fuel ran out. *)
Fixpoint chunk_loop (fuel : nat) (tokens : list token)
    (max_tokens overlap start : Z) (chunks : list string)
    : option (list string) :=
  match fuel with
  | O => None
  | S fuel' =>
      if start <? Py.len tokens then
        let end_ := start + max_tokens in
        let chunk_tokens := Py.slice tokens start end_ in
        let chunk_text := decode chunk_tokens in
        chunk_loop fuel' tokens max_tokens overlap
          (start + (max_tokens - overlap)) (chunks ++ [chunk_text])
      else Some chunks
  end.

(** [chunk_text_by_tokens(text, max_tokens, overlap)] run with [fuel]. *)
Definition chunk_text_by_tokens_fuel (fuel : nat) (text : string)
    (max_tokens overlap : Z) : option (list string) :=
  let tokens := encode text in
  chunk_loop fuel tokens max_tokens overlap 0 [].

(** [chunk_text_by_tokens(text, max_tokens, overlap)].  One unit of fuel per
    token and one for the last test is enough whenever the loop exits at
    all ([chunk_text_by_tokens_Some], [chunk_text_by_tokens_None]), so
    [None] stands for a call that never returns. *)
Definition chunk_text_by_tokens (text : string) (max_tokens overlap : Z)
    : option (list string) :=
  chunk_text_by_tokens_fuel (S (length (encode text))) text max_tokens overlap.

(** The chunk decoded from the slice [tokens[w.1:w.2]]. *)
Definition chunk_of (tokens : list token) (w : Z * Z) : string :=
  decode (Py.slice tokens w.1 w.2).

End Chunker.

(** The bounds [(start, end)] of the slice taken at iteration [k] (from 0). *)
Definition window (max_tokens overlap k : Z) : Z * Z :=
  (k * (max_tokens - overlap), k * (max_tokens - overlap) + max_tokens).

(** Number of iterations over [T] tokens when the step is positive. *)
Definition chunk_count (T max_tokens overlap : Z) : Z :=
  Z.max 0 (Py.ceil_div T (max_tokens - overlap)).

(** The slice bounds of a whole run, in order. *)
Definition windows (T max_tokens overlap : Z) : list (Z * Z) :=
  window max_tokens overlap <$> seqZ 0 (chunk_count T max_tokens overlap).

(** Token indices selected by the slice [tokens[w.1:w.2]] of a stream of
    [T] tokens. *)
Definition in_window (T : Z) (w : Z * Z) (i : Z) : Prop :=
  Py.adjust T w.1 <= i < Py.adjust T w.2.

(** Number of token indices two slices have in common. *)
Definition common_tokens (T : Z) (w1 w2 : Z * Z) : Z :=
  Z.max 0 (Z.min (Py.adjust T w1.2) (Py.adjust T w2.2)
           - Z.max (Py.adjust T w1.1) (Py.adjust T w2.1)).

(** Every token index of the stream lies in some window of the list. *)
Definition covers (T : Z) (ws : list (Z * Z)) : Prop :=
  forall i, 0 <= i < T -> exists w, w ∈ ws /\ in_window T w i.

(** The chunk count of the specification's formula:
    [ceil((T - O) / (W - O))] when [T > O], else 1, or 0 if [T == 0]. *)
Definition formula_chunk_count (T W O : Z) : Z :=
  if T =? 0 then 0
  else if O <? T then Py.ceil_div (T - O) (W - O)
  else 1.

(** ** Data exchanged with the services *)

(** The [metadata] dictionary of an index record. *)
Record vector_metadata : Type := {
  md_source : string;
  md_chunk_index : Z;
  md_total_chunks : Z;
  md_content_preview : string;
  md_type : string;
  md_char_count : Z
}.

(** An index record [{"id": ..., "values": ..., "metadata": ...}];
    [F] is the type of floats. *)
Record vector (F : Type) : Type := {
  vec_id : string;
  vec_values : list F;
  vec_metadata : vector_metadata
}.
Arguments vec_id {F} v.
Arguments vec_values {F} v.
Arguments vec_metadata {F} v.

(** A match of an index query: [match.score] and the string fields of
    [match.metadata]. *)
Record query_match (F : Type) : Type := {
  score : F;
  metadata : gmap string string
}.
Arguments score {F} q.
Arguments metadata {F} q.

(** Values of the result dictionaries. *)
Inductive value (F : Type) : Type :=
| VFloat (x : F)
| VStr (s : string).
Arguments VFloat {F} x.
Arguments VStr {F} s.

(** Arguments of [json.dumps]: a list of dictionaries or one dictionary. *)
Inductive json (F : Type) : Type :=
| JList (l : list (gmap string (value F)))
| JDict (d : gmap string (value F)).
Arguments JList {F} l.
Arguments JDict {F} d.

(** Events of a run, in order: a printed line, or a call to a service with
    its reply. *)
Inductive event (F : Type) : Type :=
| Print (line : string)
| FitzRead (path : string) (r : reply (list string))
| CoEmbed (texts : list string) (model input_type : string)
    (r : reply (list (list F)))
| IndexUpsert (vectors : list (vector F)) (r : reply unit)
| IndexQuery (vec : list F) (top_k : Z) (include_metadata : bool)
    (r : reply (list (query_match F))).
Arguments Print {F} line.
Arguments FitzRead {F} path r.
Arguments CoEmbed {F} texts model input_type r.
Arguments IndexUpsert {F} vectors r.
Arguments IndexQuery {F} vec top_k include_metadata r.

(** ** The environment *)

Record Env : Type := {
  (** state of the file system and of the remote services *)
  world : Type;
  (** Python's [float] *)
  float : Type;
  (** [encoding.encode] and [encoding.decode] of tiktoken's [cl100k_base].
      [encoding.encode(text)] first looks for a special token in [text]
      (such as [<|endoftext|>]) and raises a [ValueError] when it finds
      one, then runs the byte-pair encoder: [encode_raises text] is that
      exception, [encode text] the tokens of the encoder *)
  encode_raises : string -> option exn;
  encode : string -> list token;
  decode : list token -> string;
  (** [str.strip] *)
  str_strip : string -> string;
  (** [os.path.basename] and [os.path.splitext(p)[0]] *)
  os_path_basename : string -> string;
  os_path_splitext_0 : string -> string;
  (** [round(x, ndigits)], [f"{x:.4f}"] and [json.dumps(obj, indent=...)] *)
  round : float -> Z -> float;
  format_4f : float -> string;
  json_dumps : json float -> option Z -> string;
  (** [glob.glob(pattern)] *)
  glob_glob : string -> world -> list string;
  (** [fitz.open(path)], [page.get_text("text")] for each page in order,
      and [doc.close()]: the page texts, or the exception of the first step
      that fails *)
  fitz_get_text : string -> world -> reply (list string) * world;
  (** [co.embed(texts=, model=, input_type=).embeddings] *)
  co_embed : list string -> string -> string -> world
             -> reply (list (list float)) * world;
  (** [index.upsert(vectors=)] *)
  index_upsert : list (vector float) -> world -> reply unit * world;
  (** [index.query(vector=, top_k=, include_metadata=).matches] *)
  index_query : list float -> Z -> bool -> world
                -> reply (list (query_match float)) * world
}.

(** ** Computations *)

(** The result of running a computation. *)
Record ran (W F A : Type) : Type := Ran {
  trace : list (event F);
  final : W;
  out : outcome A
}.
Arguments Ran {W F A} trace final out.
Arguments trace {W F A} r.
Arguments final {W F A} r.
Arguments out {W F A} r.

Definition M (E : Env) (A : Type) : Type :=
  world E -> ran (world E) (float E) A.

Section Monad.

Context {E : Env}.

(** [return a] *)
Definition ret {A} (a : A) : M E A := fun w => Ran [] w (Returns a).

(** Sequencing: an exception or a hang of the first part ends the whole. *)
Definition bind {A B} (m : M E A) (f : A -> M E B) : M E B := fun w =>
  let r := m w in
  match out r with
  | Returns a =>
      let r' := f a (final r) in
      Ran (trace r ++ trace r') (final r') (out r')
  | Raises e => Ran (trace r) (final r) (Raises e)
  | Hangs => Ran (trace r) (final r) Hangs
  end.

(** [raise e] *)
Definition raise {A} (e : exn) : M E A := fun w => Ran [] w (Raises e).

(** A call that never returns. *)
Definition hang {A} : M E A := fun w => Ran [] w Hangs.

(** [try: body  except Exception as e: handler(e)] *)
Definition try_except {A} (body : M E A) (handler : exn -> M E A) : M E A :=
  fun w =>
  let r := body w in
  match out r with
  | Raises e =>
      let r' := handler e (final r) in
      Ran (trace r ++ trace r') (final r') (out r')
  | _ => r
  end.

(** [print(line)] *)
Definition print (line : string) : M E unit :=
  fun w => Ran [Print line] w (Returns tt).

(** The outcome of a service reply. *)
Definition of_reply {A} (r : reply A) : outcome A :=
  match r with Ok a => Returns a | Err e => Raises e end.

(** A pure call that may not return. *)
Definition of_option {A} (o : option A) : M E A :=
  match o with Some a => ret a | None => hang end.

Definition call_glob (pattern : string) : M E (list string) :=
  fun w => Ran [] w (Returns (glob_glob E pattern w)).

Definition call_fitz (path : string) : M E (list string) := fun w =>
  let '(r, w') := fitz_get_text E path w in
  Ran [FitzRead path r] w' (of_reply r).

Definition call_embed (texts : list string) (model input_type : string)
    : M E (list (list (float E))) := fun w =>
  let '(r, w') := co_embed E texts model input_type w in
  Ran [CoEmbed texts model input_type r] w' (of_reply r).

Definition call_upsert (vectors : list (vector (float E))) : M E unit :=
  fun w =>
  let '(r, w') := index_upsert E vectors w in
  Ran [IndexUpsert vectors r] w' (of_reply r).

Definition call_query (vec : list (float E)) (top_k : Z)
    (include_metadata : bool) : M E (list (query_match (float E))) := fun w =>
  let '(r, w') := index_query E vec top_k include_metadata w in
  Ran [IndexQuery vec top_k include_metadata r] w' (of_reply r).

(** [l[0]] *)
Definition getitem_0 {A} (l : list A) : M E A :=
  match l with
  | x :: _ => ret x
  | [] => raise Py.IndexError
  end.

(** [for x in xs: s = body(x, s)], where [s] stands for the variables the
    body assigns. *)
Fixpoint for_ {A S} (xs : list A) (body : A -> S -> M E S) (s : S) : M E S :=
  match xs with
  | [] => ret s
  | x :: xs' => bind (body x s) (for_ xs' body)
  end.

End Monad.

Declare Scope py_scope.
Delimit Scope py_scope with py.
Notation "x ← y ; z" := (bind y (fun x => z))
  (at level 20, y at level 100, z at level 200, only parsing) : py_scope.
Notation "x ;; z" := (bind x (fun _ => z))
  (at level 100, z at level 200, only parsing, right associativity) : py_scope.

Local Open Scope py_scope.

(** ** vector_db.py *)

Module vector_db.
Section WithEnv.

Context (E : Env).

(** [embed_text(text)] *)
Definition embed_text (text : string) : M E (list (float E)) :=
  try_except
    (embeddings ← call_embed [text] "embed-english-v3.0" "search_document";
     getitem_0 embeddings)
    (fun e =>
       print ("Error generating embedding: " +:+ Py.str e);;
       raise e).

(** [embed_query(text)] *)
Definition embed_query (text : string) : M E (list (float E)) :=
  try_except
    (embeddings ← call_embed [text] "embed-english-v3.0" "search_query";
     getitem_0 embeddings)
    (fun e =>
       print ("Error generating query embedding: " +:+ Py.str e);;
       raise e).

(** The page loop of [extract_pdf_text]:
    [if page_text: text += page_text + "\n"]. *)
Definition join_pages (pages : list string) : string :=
  foldl (fun text page_text =>
           if Py.truthy page_text
           then text +:+ (page_text +:+ Py.newline)
           else text)
        "" pages.

(** [extract_pdf_text(file_path)] *)
Definition extract_pdf_text (file_path : string) : M E string :=
  try_except
    (pages ← call_fitz file_path;
     ret (str_strip E (join_pages pages)))
    (fun e =>
       print ("Error reading " +:+ file_path +:+ ": " +:+ Py.str e);;
       ret "").

(** The record appended for chunk [idx] of [filename]. *)
Definition make_vector (filename : string) (chunks : list string) (idx : Z)
    (chunk : string) (embedding : list (float E)) : vector (float E) :=
  {| vec_id := os_path_splitext_0 E filename +:+ "-chunk-" +:+ pretty idx;
     vec_values := embedding;
     vec_metadata :=
       {| md_source := filename;
          md_chunk_index := idx;
          md_total_chunks := Py.len chunks;
          md_content_preview := Py.str_take 300 chunk;
          md_type := "policy";
          md_char_count := Py.str_len chunk |} |}.

(** Body of [for idx, chunk in enumerate(chunks)] in
    [process_pdfs_to_vectors]. *)
Definition embed_chunk (filename : string) (chunks : list string)
    (ic : Z * string) (policy_vectors : list (vector (float E))) : M E (list (vector (float E))) :=
  let '(idx, chunk) := ic in
  try_except
    (embedding ← embed_text chunk;
     ret (policy_vectors ++ [make_vector filename chunks idx chunk embedding]))
    (fun e =>
       print ("  Error embedding chunk " +:+ pretty idx +:+ " of "
              +:+ filename +:+ ": " +:+ Py.str e);;
       ret policy_vectors).

(** The call [chunk_text_by_tokens(text, max_tokens, overlap)]: the
    exception of [encoding.encode(text)] ends it before the loop is entered,
    and it does not return when the loop does not end. *)
Definition chunk_text_by_tokens (text : string) (max_tokens overlap : Z)
    : M E (list string) :=
  match encode_raises E text with
  | Some e => raise e
  | None =>
      of_option (chunk_text_by_tokens (encode E) (decode E) text
                   max_tokens overlap)
  end.

(** Body of [for file_path in pdf_files] in [process_pdfs_to_vectors]. *)
Definition process_file (max_chunk_tokens : Z) (file_path : string)
    (policy_vectors : list (vector (float E))) : M E (list (vector (float E))) :=
  let filename := os_path_basename E file_path in
  print ("Processing: " +:+ filename);;
  text ← extract_pdf_text file_path;
  if negb (Py.truthy text) then
    print ("Skipping " +:+ filename +:+ " - no text extracted");;
    ret policy_vectors
  else
    chunks ← chunk_text_by_tokens text max_chunk_tokens default_overlap;
    print ("  Created " +:+ pretty (Py.len chunks) +:+ " chunks");;
    for_ (Py.enumerate chunks) (embed_chunk filename chunks) policy_vectors.

(** [process_pdfs_to_vectors(pdf_pattern, max_chunk_tokens)] *)
Definition process_pdfs_to_vectors (pdf_pattern : string)
    (max_chunk_tokens : Z) : M E (list (vector (float E))) :=
  pdf_files ← call_glob pdf_pattern;
  match pdf_files with
  | [] =>
      print ("No PDFs found matching pattern: " +:+ pdf_pattern);;
      ret []
  | _ =>
      print ("Found " +:+ pretty (Py.len pdf_files) +:+ " PDF files");;
      for_ pdf_files (process_file max_chunk_tokens) []
  end.

(** Body of [for i in range(0, len(vectors), batch_size)] in
    [upsert_to_pinecone]. *)
Definition upsert_batch (vectors : list (vector (float E))) (batch_size : Z) (i : Z)
    (_ : unit) : M E unit :=
  let batch := Py.slice vectors i (i + batch_size) in
  try_except
    (call_upsert batch;;
     print ("  Upserted batch " +:+ pretty (i / batch_size + 1) +:+ "/"
            +:+ pretty ((Py.len vectors - 1) / batch_size + 1)))
    (fun e =>
       print ("  Error upserting batch " +:+ pretty (i / batch_size + 1)
              +:+ ": " +:+ Py.str e)).

(** [upsert_to_pinecone(index, vectors, batch_size)]; it returns [None]. *)
Definition upsert_to_pinecone (vectors : list (vector (float E))) (batch_size : Z)
    : M E unit :=
  match vectors with
  | [] => print "No vectors to upsert"
  | _ =>
      print ("Upserting " +:+ pretty (Py.len vectors)
             +:+ " vectors in batches of " +:+ pretty batch_size);;
      starts ← match Py.range 0 (Py.len vectors) batch_size with
               | Some l => ret l
               | None => raise (Py.ValueError "range() arg 3 must not be zero")
               end;
      for_ starts (upsert_batch vectors batch_size) tt;;
      print ("✓ Successfully inserted " +:+ pretty (Py.len vectors)
             +:+ " policy chunks")
  end.

(** [search_policies(index, query, top_k)] *)
Definition search_policies (query : string) (top_k : Z)
    : M E (list (query_match (float E))) :=
  try_except
    (query_embedding ← embed_query query;
     matches ← call_query query_embedding top_k true;
     ret matches)
    (fun e =>
       print ("Error searching: " +:+ Py.str e);;
       ret []).

End WithEnv.
End vector_db.

(** ** search_helper.py *)

Module search_helper.
Section WithEnv.

Context (E : Env).

(** The dictionary appended for one match. *)
Definition format_match (m : query_match (float E))
    : gmap string (value (float E)) :=
  <["score" := VFloat (score m)]>
    (<["source" := VStr (default "Unknown" (metadata m !! "source"))]>
       (<["content_preview" :=
            VStr (Py.str_take 300 (default "" (metadata m !! "content_preview")))]>
          ∅)).

(** [search_faq(query, top_k)] *)
Definition search_faq (query : string) (top_k : Z)
    : M E (list (gmap string (value (float E)))) :=
  try_except
    (embeddings ← call_embed [query] "embed-english-v3.0" "search_query";
     query_embedding ← getitem_0 embeddings;
     matches ← call_query query_embedding top_k true;
     let formatted_results :=
       foldl (fun formatted_results m => formatted_results ++ [format_match m])
             [] matches in
     ret formatted_results)
    (fun e => ret [ {["error" := VStr (Py.str e)]} ]).

End WithEnv.
End search_helper.

(** ** api_server.py *)

Module api_server.

Record SearchQuery : Type := { query : string; top_k : Z }.

Record SearchResult (F : Type) : Type := {
  sr_score : F;
  sr_source : string;
  sr_content : string
}.
Arguments sr_score {F} s.
Arguments sr_source {F} s.
Arguments sr_content {F} s.

Section WithEnv.

Context (E : Env).

Definition format_match (m : query_match (float E)) : SearchResult (float E) :=
  {| sr_score := round E (score m) 4;
     sr_source := default "Unknown" (metadata m !! "source");
     sr_content := default "" (metadata m !! "content_preview") |}.

(** The handler of [POST /search]. *)
Definition search_faq (search_query : SearchQuery)
    : M E (list (SearchResult (float E))) :=
  try_except
    (embeddings ← call_embed [query search_query] "embed-english-v3.0"
                    "search_query";
     query_embedding ← getitem_0 embeddings;
     matches ← call_query query_embedding (top_k search_query) true;
     let formatted_results :=
       foldl (fun formatted_results m => formatted_results ++ [format_match m])
             [] matches in
     ret formatted_results)
    (fun e => raise (HTTPException 500 (Py.str e))).

End WithEnv.
End api_server.

(** ** api_vercel.py *)

Module api_vercel.

Record SearchQuery : Type := { query : string }.

(** The dictionary [{"success": ..., "results": ..., "message": ...}]. *)
Record Response (F : Type) : Type := {
  success : bool;
  results : list (gmap string (value F));
  message : string
}.
Arguments success {F} r.
Arguments results {F} r.
Arguments message {F} r.

Section WithEnv.

Context (E : Env).

Definition format_match (m : query_match (float E))
    : gmap string (value (float E)) :=
  <["score" := VFloat (score m)]>
    (<["source" := VStr (default "Unknown" (metadata m !! "source"))]>
       (<["preview" :=
            VStr (Py.str_take 300 (default "" (metadata m !! "content_preview")))]>
          ∅)).

(** The handler of [POST /search]. *)
Definition search_faq (query_ : SearchQuery) : M E (Response (float E)) :=
  if negb (Py.truthy (query query_)) then
    raise (HTTPException 400 "Missing 'query' parameter")
  else
    try_except
      (embeddings ← call_embed [query query_] "embed-english-v3.0"
                      "search_query";
       query_embedding ← getitem_0 embeddings;
       matches ← call_query query_embedding 3 true;
       let formatted :=
         foldl (fun formatted m => formatted ++ [format_match m]) [] matches in
       ret {| success := true;
              results := match formatted with [] => [] | _ => formatted end;
              message :=
                match formatted with
                | [] => "No results found."
                | _ => "Found " +:+ pretty (Py.len formatted) +:+ " results."
                end |})
      (fun e => raise (HTTPException 500 ("Error: " +:+ Py.str e))).

End WithEnv.
End api_vercel.

(** ** faq.py and faq2.py: the tool-calling servers *)

(** [TextContent(type=..., text=...)] *)
Record TextContent : Type := { tc_type : string; tc_text : string }.

Module faq.
Section WithEnv.

Context (E : Env).

Definition format_match (m : query_match (float E)) : string :=
  "Score: " +:+ format_4f E (score m) +:+ Py.newline
  +:+ "Source: " +:+ default "Unknown" (metadata m !! "source") +:+ Py.newline
  +:+ "Preview: "
  +:+ Py.str_take 300 (default "" (metadata m !! "content_preview"))
  +:+ Py.newline.

(** [call_tool(name, arguments)] *)
Definition call_tool (name : string) (arguments : gmap string string)
    : M E (list TextContent) :=
  if negb (String.eqb name "search_faq") then
    raise (Py.ValueError ("Unknown tool: " +:+ name))
  else
    let query := default "" (arguments !! "query") in
    if negb (Py.truthy query) then
      ret [ {| tc_type := "text"; tc_text := "Error: Missing 'query' parameter" |} ]
    else
      try_except
        (embeddings ← call_embed [query] "embed-english-v3.0" "search_query";
         query_embedding ← getitem_0 embeddings;
         matches ← call_query query_embedding 3 true;
         let formatted_results :=
           foldl (fun formatted_results m => formatted_results ++ [format_match m])
                 [] matches in
         ret [ {| tc_type := "text";
                  tc_text :=
                    match formatted_results with
                    | [] => "No results found."
                    | _ => Py.join (Py.newline +:+ "---" +:+ Py.newline)
                             formatted_results
                    end |} ])
        (fun e =>
           ret [ {| tc_type := "text"; tc_text := "Error: " +:+ Py.str e |} ]).

End WithEnv.
End faq.

Module faq2.
Section WithEnv.

Context (E : Env).

Definition format_match (m : query_match (float E)) : string :=
  "Score: " +:+ format_4f E (score m) +:+ Py.newline
  +:+ "Source: " +:+ default "Unknown" (metadata m !! "source") +:+ Py.newline
  +:+ "Preview: "
  +:+ Py.str_take 300 (default "" (metadata m !! "content_preview"))
  +:+ Py.newline.

(** [call_tool(name, arguments)] *)
Definition call_tool (name : string) (arguments : gmap string string)
    : M E (list TextContent) :=
  if negb (String.eqb name "search_faq") then
    raise (Py.ValueError ("Unknown tool: " +:+ name))
  else
    let query := default "" (arguments !! "query") in
    if negb (Py.truthy query) then
      ret [ {| tc_type := "text"; tc_text := "Error: Missing 'query' parameter" |} ]
    else
      try_except
        (embeddings ← call_embed [query] "embed-english-v3.0" "search_query";
         query_embedding ← getitem_0 embeddings;
         matches ← call_query query_embedding 3 true;
         let formatted :=
           foldl (fun formatted m => formatted ++ [format_match m]) [] matches in
         ret [ {| tc_type := "text";
                  tc_text :=
                    match formatted with
                    | [] => "No results found."
                    | _ => Py.join (Py.newline +:+ "---" +:+ Py.newline) formatted
                    end |} ])
        (fun e =>
           ret [ {| tc_type := "text"; tc_text := "Error: " +:+ Py.str e |} ]).

End WithEnv.
End faq2.

(** ** openai_agent.py *)

Module openai_agent.
Section WithEnv.

Context (E : Env).

Definition format_match (m : query_match (float E))
    : gmap string (value (float E)) :=
  <["score" := VFloat (round E (score m) 4)]>
    (<["source" := VStr (default "Unknown" (metadata m !! "source"))]>
       (<["content" := VStr (default "" (metadata m !! "content_preview"))]> ∅)).

(** [search_faq(query, top_k)] *)
Definition search_faq (query : string) (top_k : Z) : M E string :=
  try_except
    (embeddings ← call_embed [query] "embed-english-v3.0" "search_query";
     query_embedding ← getitem_0 embeddings;
     matches ← call_query query_embedding top_k true;
     let formatted_results :=
       foldl (fun formatted_results m => formatted_results ++ [format_match m])
             [] matches in
     ret (json_dumps E (JList formatted_results) (Some 2)))
    (fun e =>
       ret (json_dumps E (JDict {["error" := VStr (Py.str e)]}) None)).

End WithEnv.
End openai_agent.

(** ** The usage examples under [if __name__ == "__main__"] *)

(** [list(enumerate(l, start))] *)
Definition enumerate_from {A} (start : Z) (l : list A) : list (Z * A) :=
  zip (seqZ start (Py.len l)) l.

Module vector_db_main.
Section WithEnv.

Context (E : Env).

(** [d[key]] on the metadata of a match; a missing key is a [KeyError]. *)
Definition getitem (d : gmap string string) (key : string) : M E string :=
  match d !! key with
  | Some v => ret v
  | None => raise (PyException "KeyError" ("'" +:+ key +:+ "'"))
  end.

(** Body of [for i, match in enumerate(results, 1)]. *)
Definition print_match (im : Z * query_match (float E)) (_ : unit)
    : M E unit :=
  let '(i, m) := im in
  print (Py.newline +:+ pretty i +:+ ". Score: " +:+ format_4f E (score m));;
  source ← getitem (metadata m) "source";
  print ("   Source: " +:+ source);;
  content_preview ← getitem (metadata m) "content_preview";
  print ("   Preview: " +:+ Py.str_take 150 content_preview +:+ "...").

(** The block under [if __name__ == "__main__"] of [vector_db.py]. *)
Definition main : M E unit :=
  print "=== Processing PDFs ===";;
  policy_vectors ← vector_db.process_pdfs_to_vectors E "policies/*.pdf"
                     default_max_chunk_tokens;
  match policy_vectors with
  | _ :: _ =>
      print (Py.newline +:+ "=== Uploading to Pinecone ===");;
      vector_db.upsert_to_pinecone E policy_vectors default_batch_size;;
      print (Py.newline +:+ "=== Testing Search ===");;
      let test_query := "What is the refund policy?" in
      results ← vector_db.search_policies E test_query 3;
      print (Py.newline +:+ "Top results for: '" +:+ test_query +:+ "'");;
      for_ (enumerate_from 1 results) print_match tt
  | [] => print "No vectors created. Check your PDF files."
  end.

End WithEnv.
End vector_db_main.

Module search_helper_main.
Section WithEnv.

Context (E : Env).

(** [str(x)] for a float, as an f-string without format code prints it. *)
Variable str_float : float E -> string.

(** [result[key]] on a result dictionary. *)
Definition getitem (d : gmap string (value (float E))) (key : string)
    : M E (value (float E)) :=
  match d !! key with
  | Some v => ret v
  | None => raise (PyException "KeyError" ("'" +:+ key +:+ "'"))
  end.

(** [f"{v}"] *)
Definition format_value (v : value (float E)) : M E string :=
  match v with
  | VStr s => ret s
  | VFloat x => ret (str_float x)
  end.

(** [f"{v:.4f}"]; the format code is an error for a string. *)
Definition format_value_4f (v : value (float E)) : M E string :=
  match v with
  | VFloat x => ret (format_4f E x)
  | VStr _ =>
      raise (PyException "ValueError"
               "Unknown format code 'f' for object of type 'str'")
  end.

(** Body of [for i, result in enumerate(results, 1)]. *)
Definition print_result (ir : Z * gmap string (value (float E))) (_ : unit)
    : M E unit :=
  let '(i, result) := ir in
  match result !! "error" with
  | Some _ =>
      error ← getitem result "error";
      error_text ← format_value error;
      print ("Error: " +:+ error_text)
  | None =>
      print (Py.newline +:+ "Result " +:+ pretty i +:+ ":");;
      score_ ← getitem result "score";
      score_text ← format_value_4f score_;
      print ("Score: " +:+ score_text);;
      source ← getitem result "source";
      source_text ← format_value source;
      print ("Source: " +:+ source_text);;
      content_preview ← getitem result "content_preview";
      preview_text ← format_value content_preview;
      print ("Preview: " +:+ preview_text)
  end.

(** The block under [if __name__ == "__main__"] of [search_helper.py];
    [top_k] takes its default 3. *)
Definition main : M E unit :=
  results ← search_helper.search_faq E "What is the refund policy?" 3;
  for_ (enumerate_from 1 results) print_result tt.

End WithEnv.
End search_helper_main.

(** ** Notions used in the statements *)

(** The slice bounds of iteration [k] of a chunking loop entered at
    [start]. *)
Definition window_from (W O start k : Z) : Z * Z :=
  (start + k * (W - O), start + k * (W - O) + W).

(** The event is a call to the embedding service. *)
Definition is_embed {F} (ev : event F) : bool :=
  match ev with CoEmbed _ _ _ _ => true | _ => false end.

(** The event is a call to the embedding service answered with at least
    one embedding. *)
Definition embed_ok {F} (ev : event F) : bool :=
  match ev with CoEmbed _ _ _ (Ok (_ :: _)) => true | _ => false end.

(** The event is anything but an embedding call with another intent. *)
Definition intent_is {F} (intent : string) (ev : event F) : Prop :=
  match ev with CoEmbed _ _ input_type _ => input_type = intent | _ => True end.

(** The event is a call to the embedding service or to the index. *)
Definition is_network_call {F} (ev : event F) : bool :=
  match ev with
  | CoEmbed _ _ _ _ | IndexUpsert _ _ | IndexQuery _ _ _ _ => true
  | Print _ | FitzRead _ _ => false
  end.

(** The upsert calls of a trace, in order: each batch with its reply. *)
Definition upserts {F} (t : list (event F))
    : list (list (vector F) * reply unit) :=
  omap (fun ev => match ev with
                  | IndexUpsert vectors r => Some (vectors, r)
                  | _ => None
                  end) t.

(** Number of records in the batches the index accepted. *)
Definition records_written {F} (t : list (event F)) : Z :=
  foldr (fun br n => match br.2 with Ok _ => Py.len br.1 + n | Err _ => n end)
        0 (upserts t).

(** The record id of chunk [idx] of the document named [filename]. *)
Definition record_id (E : Env) (filename : string) (idx : Z) : string :=
  os_path_splitext_0 E filename +:+ "-chunk-" +:+ pretty idx.

(** The id and the metadata of the record of an enumerated chunk. *)
Definition record_key (E : Env) (filename : string) (chunks : list string)
    (ic : Z * string) : string * vector_metadata :=
  let v := vector_db.make_vector E filename chunks ic.1 ic.2 [] in
  (vec_id v, vec_metadata v).

(** The record [v] was made, in a run with trace [t], from a chunk of the
    text read from [path]. *)
Definition record_from (E : Env) (max_chunk_tokens : Z)
    (t : list (event (float E))) (path : string) (v : vector (float E))
    : Prop :=
  exists pages chunks ic,
    FitzRead path (Ok pages) ∈ t
    /\ chunk_text_by_tokens (encode E) (decode E)
         (str_strip E (vector_db.join_pages pages))
         max_chunk_tokens default_overlap = Some chunks
    /\ ic ∈ Py.enumerate chunks
    /\ (vec_id v, vec_metadata v)
       = record_key E (os_path_basename E path) chunks ic.

(** The batches of [upsert_to_pinecone], one for each start index. *)
Definition batches {A} (vectors : list A) (batch_size : Z) (starts : list Z)
    : list (list A) :=
  (fun i => Py.slice vectors i (i + batch_size)) <$> starts.

(** The line [upsert_to_pinecone] prints for the batch that starts at
    index [i], after the reply [r] of the index. *)
Definition batch_report {F} (vectors : list (vector F)) (batch_size i : Z)
    (r : reply unit) : string :=
  match r with
  | Ok _ =>
      "  Upserted batch " +:+ pretty (i / batch_size + 1) +:+ "/"
      +:+ pretty ((Py.len vectors - 1) / batch_size + 1)
  | Err e =>
      "  Error upserting batch " +:+ pretty (i / batch_size + 1)
      +:+ ": " +:+ Py.str e
  end.

(** The events of the iteration for the batch that starts at index [i]. *)
Definition batch_events {F} (vectors : list (vector F)) (batch_size i : Z)
    (r : reply unit) : list (event F) :=
  [IndexUpsert (Py.slice vectors i (i + batch_size)) r;
   Print (batch_report vectors batch_size i r)].

(** The start indices [range(0, len(vectors), batch_size)] for a positive
    batch size. *)
Definition batch_starts {A} (vectors : list A) (batch_size : Z) : list Z :=
  (fun k => k * batch_size)
  <$> seqZ 0 (Py.ceil_div (Py.len vectors) batch_size).

(** The calls to the embedding service and to the index of a trace. *)
Definition network_calls {F} (t : list (event F)) : list (event F) :=
  List.filter is_network_call t.

(** What ingestion does with the outside: it prints, reads files and calls
    the embedding service with one text and the model of the repository. *)
Definition ingestion_event {F} (ev : event F) : Prop :=
  match ev with
  | Print _ | FitzRead _ _ => True
  | CoEmbed texts model input_type _ =>
      (exists text, texts = [text]) /\ model = "embed-english-v3.0"
  | IndexUpsert _ _ | IndexQuery _ _ _ _ => False
  end.

(** The reply of an upsert call is an acceptance. *)
Definition accepted {A} (r : reply A) : Prop :=
  match r with Ok _ => True | Err _ => False end.

(** The exception a service call ends in for its caller: the exception of
    the reply, or the [IndexError] of [embeddings[0]] when the embedding
    service answers with no embedding. *)
Definition call_failure {F} (ev : event F) : option exn :=
  match ev with
  | CoEmbed _ _ _ (Err e) => Some e
  | CoEmbed _ _ _ (Ok []) => Some Py.IndexError
  | IndexQuery _ _ _ (Err e) => Some e
  | IndexUpsert _ (Err e) => Some e
  | FitzRead _ (Err e) => Some e
  | _ => None
  end.

(** The failures of the service calls of a trace, in order. *)
Definition failures {F} (t : list (event F)) : list exn :=
  omap call_failure t.

(** The tokenizer accepts the text of [path], in whatever state of the
    world the file is read. *)
Definition tokenizer_accepts (E : Env) (path : string) : Prop :=
  forall w,
    match fitz_get_text E path w with
    | (Ok pages, _) =>
        encode_raises E (str_strip E (vector_db.join_pages pages)) = None
    | (Err _, _) => True
    end.

(** The events of the iteration for the enumerated chunk [ic] of
    [filename], after the reply [r] of the embedding service: the call and,
    when it fails, the line of [embed_text] and the line of the loop. *)
Definition embed_events {F} (filename : string) (ic : Z * string)
    (r : reply (list (list F))) : list (event F) :=
  let call := CoEmbed [ic.2] "embed-english-v3.0" "search_document" r in
  call ::
  match call_failure call with
  | Some e =>
      [Print ("Error generating embedding: " +:+ Py.str e);
       Print ("  Error embedding chunk " +:+ pretty ic.1 +:+ " of "
              +:+ filename +:+ ": " +:+ Py.str e)]
  | None => []
  end.

(** The record appended for the enumerated chunk [ic] after the reply [r]
    of the embedding service, if any. *)
Definition embed_record (E : Env) (filename : string) (chunks : list string)
    (ic : Z * string) (r : reply (list (list (float E))))
    : option (vector (float E)) :=
  match r with
  | Ok (embedding :: _) =>
      Some (vector_db.make_vector E filename chunks ic.1 ic.2 embedding)
  | _ => None
  end.

(** The chunks of a document after the reply [r] of the reader: none
    when it cannot be read or has no text. *)
Definition document_chunks (E : Env) (max_chunk_tokens : Z)
    (r : reply (list string)) : list string :=
  match r with
  | Ok pages =>
      let text := str_strip E (vector_db.join_pages pages) in
      if Py.truthy text
      then default [] (chunk_text_by_tokens (encode E) (decode E) text
                         max_chunk_tokens default_overlap)
      else []
  | Err _ => []
  end.

(** What happened to a document: the reply of the reader, and the replies
    of the embedding service for its chunks in order. *)
Definition document (E : Env) : Type :=
  reply (list string) * list (reply (list (list (float E)))).

(** The events of the iteration for the file [path]. *)
Definition document_events (E : Env) (max_chunk_tokens : Z) (path : string)
    (d : document E) : list (event (float E)) :=
  let filename := os_path_basename E path in
  let chunks := document_chunks E max_chunk_tokens d.1 in
  Print ("Processing: " +:+ filename) :: FitzRead path d.1 ::
  match d.1 with
  | Err e =>
      [Print ("Error reading " +:+ path +:+ ": " +:+ Py.str e);
       Print ("Skipping " +:+ filename +:+ " - no text extracted")]
  | Ok pages =>
      if Py.truthy (str_strip E (vector_db.join_pages pages)) then
        Print ("  Created " +:+ pretty (Py.len chunks) +:+ " chunks")
        :: concat (zip_with (embed_events filename) (Py.enumerate chunks) d.2)
      else [Print ("Skipping " +:+ filename +:+ " - no text extracted")]
  end.

(** The records the iteration for the file [path] appends. *)
Definition document_records (E : Env) (max_chunk_tokens : Z) (path : string)
    (d : document E) : list (vector (float E)) :=
  let filename := os_path_basename E path in
  let chunks := document_chunks E max_chunk_tokens d.1 in
  omap id (zip_with (embed_record E filename chunks) (Py.enumerate chunks) d.2).

(** The reader has one reply for a document and the embedding service one
    for each of its chunks. *)
Definition document_complete (E : Env) (max_chunk_tokens : Z)
    (d : document E) : Prop :=
  length d.2 = length (document_chunks E max_chunk_tokens d.1).

(** The match has the two metadata fields the usage example of
    [vector_db.py] prints. *)
Definition printable {F} (m : query_match F) : Prop :=
  is_Some (metadata m !! "source")
  /\ is_Some (metadata m !! "content_preview").

(** ** A small concrete environment

    Used to evaluate the definitions on concrete inputs: one token per
    character, integers for floats, a list of files for the file system,
    and services that reject listed inputs.  The state of the world is the
    number of service calls answered so far. *)

Module Fixture.

Definition char_encode (s : string) : list token :=
  (fun c => Z.of_nat (Ascii.nat_of_ascii c)) <$> String.list_ascii_of_string s.

Definition char_decode (l : list token) : string :=
  String.string_of_list_ascii
    ((fun t => Ascii.ascii_of_nat (Z.to_nat t)) <$> l).

(** The tokenizer refuses a text that contains [<|endoftext|>]. *)
Definition special_token (s : string) : option exn :=
  match String.index 0 "<|endoftext|>" s with
  | Some _ =>
      Some (Py.ValueError
              "Encountered text corresponding to disallowed special token '<|endoftext|>'.")
  | None => None
  end.

Definition is_char (c : Ascii.ascii) (n : nat) : bool :=
  Nat.eqb (Ascii.nat_of_ascii c) n.

(** Characters after the last ["/"]. *)
Fixpoint basename_go (s acc : string) : string :=
  match s with
  | EmptyString => String.rev acc
  | String c s' =>
      if is_char c 47 then basename_go s' "" else basename_go s' (String c acc)
  end.
Definition basename (s : string) : string := basename_go s "".

(** Characters before the last ["."], or all of them without one. *)
Fixpoint splitext_go (s : string) : option string :=
  match s with
  | EmptyString => None
  | String c s' =>
      match splitext_go s' with
      | Some r => Some (String c r)
      | None => if is_char c 46 then Some EmptyString else None
      end
  end.
Definition splitext_0 (s : string) : string := default s (splitext_go s).

Fixpoint lstrip (s : string) : string :=
  match s with
  | String c s' => if Ascii.is_space c then lstrip s' else s
  | EmptyString => EmptyString
  end.
Definition strip (s : string) : string :=
  String.rev (lstrip (String.rev (lstrip s))).

Definition mem (s : string) (l : list string) : bool :=
  bool_decide (s ∈ l).

Definition lookup_file (files : list (string * reply (list string)))
    (path : string) : reply (list string) :=
  match list_find (fun f => f.1 = path) files with
  | Some (_, (_, r)) => r
  | None => Err (PyException "FileNotFoundError" ("no such file: " +:+ path))
  end.

(** [files]: the paths [glob] finds, each with its page texts or the
    exception of reading it.  [bad_texts]: texts the embedding service
    rejects.  [bad_ids]: record ids the index rejects in an upsert.
    A query with a non-positive [top_k] is rejected by the index; any other
    query is answered by [matches]. *)
Definition env (files : list (string * reply (list string)))
    (bad_texts bad_ids : list string) (matches : list (query_match Z)) : Env :=
  {| world := nat;
     float := Z;
     encode_raises := special_token;
     encode := char_encode;
     decode := char_decode;
     str_strip := strip;
     os_path_basename := basename;
     os_path_splitext_0 := splitext_0;
     round := fun x _ => x;
     format_4f := pretty;
     json_dumps := fun j _ =>
       match j with
       | JList l => "[" +:+ pretty (Py.len l) +:+ " results]"
       | JDict _ => "{error}"
       end;
     glob_glob := fun _ _ => files.*1;
     fitz_get_text := fun path w => (lookup_file files path, S w);
     co_embed := fun texts _ _ w =>
       (if existsb (fun t => mem t bad_texts) texts
        then Err (PyException "TooManyRequestsError" "rate limit exceeded")
        else Ok ((fun t => [Py.str_len t]) <$> texts),
        S w);
     index_upsert := fun vectors w =>
       (if existsb (fun v => mem (vec_id v) bad_ids) vectors
        then Err (PyException "PineconeApiException" "request failed")
        else Ok tt,
        S w);
     index_query := fun _ top_k _ w =>
       (if top_k <=? 0
        then Err (PyException "PineconeApiException" "top_k must be positive")
        else Ok matches,
        S w) |}.

(** Three documents, the second unreadable. *)
Definition three_files : list (string * reply (list string)) :=
  [("policies/refunds.pdf", Ok ["Refunds are processed within 14 days."]);
   ("policies/broken.pdf",
    Err (PyException "FileDataError" "cannot open broken document"));
   ("policies/delivery.pdf", Ok ["Delivery takes 3 days."; ""; "Free above 50."])].

(** The environment of the three documents, with services that accept
    everything. *)
Definition three_files_env : Env := env three_files [] [] [].

Definition refunds_record : vector Z :=
  {| vec_id := "refunds-chunk-0";
     vec_values := [37];
     vec_metadata :=
       {| md_source := "refunds.pdf";
          md_chunk_index := 0;
          md_total_chunks := 1;
          md_content_preview := "Refunds are processed within 14 days.";
          md_type := "policy";
          md_char_count := 37 |} |}.

Definition delivery_record : vector Z :=
  {| vec_id := "delivery-chunk-0";
     vec_values := [37];
     vec_metadata :=
       {| md_source := "delivery.pdf";
          md_chunk_index := 0;
          md_total_chunks := 1;
          md_content_preview :=
            "Delivery takes 3 days." +:+ Py.newline +:+ "Free above 50.";
          md_type := "policy";
          md_char_count := 37 |} |}.

(** A record with the given id. *)
Definition small_vector (id : string) : vector Z :=
  {| vec_id := id;
     vec_values := [0];
     vec_metadata :=
       {| md_source := "a.pdf";
          md_chunk_index := 0;
          md_total_chunks := 1;
          md_content_preview := "";
          md_type := "policy";
          md_char_count := 0 |} |}.

Definition three_vectors : list (vector Z) :=
  [small_vector "a-chunk-0"; small_vector "a-chunk-1";
   small_vector "b-chunk-0"].

(** An index that accepts every record, and one that rejects the batches
    holding the record ["b-chunk-0"]. *)
Definition accepting_env : Env := env [] [] [] [].
Definition rejecting_env : Env := env [] [] ["b-chunk-0"] [].

(** Two documents without text: one cannot be opened, the pages of the
    other hold white space only. *)
Definition no_text_files : list (string * reply (list string)) :=
  [("scans/broken.pdf",
    Err (PyException "FileDataError" "cannot open broken document"));
   ("scans/blank.pdf", Ok [""; "  "])].

Definition no_text_env : Env := env no_text_files [] [] [].

(** Three documents: the text of the first holds a special token of the
    tokenizer, the second cannot be opened. *)
Definition special_token_files : list (string * reply (list string)) :=
  [("policies/prompts.pdf", Ok ["Stop at <|endoftext|> always."]);
   ("policies/broken.pdf",
    Err (PyException "FileDataError" "cannot open broken document"));
   ("policies/delivery.pdf", Ok ["Delivery takes 3 days."])].

Definition special_token_env : Env := env special_token_files [] [] [].

(** One document of three characters. *)
Definition abc_file : list (string * reply (list string)) :=
  [("policies/abc.pdf", Ok ["abc"])].

(** The environment of that document, where the embedding service rejects
    its second chunk (with a window of 201 tokens the chunks are ["abc"],
    ["bc"] and ["c"]). *)
Definition abc_env : Env := env abc_file ["bc"] [] [].

End Fixture.

(** * Properties *)

(** ** Python built-ins *)

Lemma ceil_div_bounds a d :
  0 < d -> (Py.ceil_div a d - 1) * d < a <= Py.ceil_div a d * d.
Proof.
  intros Hd. unfold Py.ceil_div.
  pose proof (Z.div_mod (- a) d ltac:(lia)) as Hdm.
  pose proof (Z.mod_pos_bound (- a) d Hd) as Hm.
  nia.
Qed.

Lemma ceil_div_unique a d q :
  0 < d -> (q - 1) * d < a <= q * d -> Py.ceil_div a d = q.
Proof.
  intros Hd Hq. pose proof (ceil_div_bounds a d Hd) as Hc. nia.
Qed.

Lemma ceil_div_step a d :
  0 < d -> Py.ceil_div (a - d) d = Py.ceil_div a d - 1.
Proof.
  intros Hd. apply ceil_div_unique; [done|].
  pose proof (ceil_div_bounds a d Hd). nia.
Qed.

Lemma ceil_div_pos a d : 0 < d -> 0 < a -> 0 < Py.ceil_div a d.
Proof. intros Hd Ha. pose proof (ceil_div_bounds a d Hd). nia. Qed.

Lemma ceil_div_nonpos a d : 0 < d -> a <= 0 -> Py.ceil_div a d <= 0.
Proof. intros Hd Ha. pose proof (ceil_div_bounds a d Hd). nia. Qed.

Lemma len_nonneg {A} (l : list A) : 0 <= Py.len l.
Proof. unfold Py.len. lia. Qed.

Lemma adjust_range n i : 0 <= n -> 0 <= Py.adjust n i <= n.
Proof. unfold Py.adjust. destruct (i <? 0) eqn:Hi; lia. Qed.

Lemma adjust_nonneg n i : 0 <= i -> Py.adjust n i = Z.min i n.
Proof. unfold Py.adjust. intros Hi. destruct (Z.ltb_spec i 0); lia. Qed.

(** The slice holds exactly the elements at the indices it selects. *)
Lemma slice_lookup {A} (l : list A) start stop (j : nat) :
  Py.slice l start stop !! j =
    if decide (Z.of_nat j < Py.adjust (Py.len l) stop - Py.adjust (Py.len l) start)
    then l !! (Z.to_nat (Py.adjust (Py.len l) start) + j)%nat
    else None.
Proof.
  unfold Py.slice.
  pose proof (adjust_range (Py.len l) start (len_nonneg l)).
  pose proof (adjust_range (Py.len l) stop (len_nonneg l)).
  case_decide.
  - rewrite lookup_take_lt by lia. by rewrite lookup_drop.
  - rewrite lookup_take_ge; [done | lia].
Qed.

Lemma slice_len {A} (l : list A) start stop :
  Py.len (Py.slice l start stop)
  = Z.max 0 (Py.adjust (Py.len l) stop - Py.adjust (Py.len l) start).
Proof.
  unfold Py.slice, Py.len at 1.
  pose proof (adjust_range (Py.len l) start (len_nonneg l)).
  pose proof (adjust_range (Py.len l) stop (len_nonneg l)).
  rewrite length_take, length_drop. unfold Py.len in *. lia.
Qed.

(** An index lies in a window exactly when the slice holds its element. *)
Lemma in_window_slice {A} (l : list A) (w : Z * Z) (i : Z) :
  in_window (Py.len l) w i <->
  exists j : nat, i = Py.adjust (Py.len l) w.1 + Z.of_nat j
    /\ is_Some (Py.slice l w.1 w.2 !! j)
    /\ Py.slice l w.1 w.2 !! j = l !! Z.to_nat i.
Proof.
  unfold in_window.
  pose proof (adjust_range (Py.len l) w.1 (len_nonneg l)) as H1.
  pose proof (adjust_range (Py.len l) w.2 (len_nonneg l)) as H2.
  split.
  - intros Hi. exists (Z.to_nat (i - Py.adjust (Py.len l) w.1)).
    rewrite slice_lookup. rewrite decide_True by lia.
    replace (Z.to_nat (Py.adjust (Py.len l) w.1)
             + Z.to_nat (i - Py.adjust (Py.len l) w.1))%nat
      with (Z.to_nat i) by lia.
    split_and!; [lia | | done].
    apply lookup_lt_is_Some. unfold Py.len in *. lia.
  - intros (j & -> & Hs & _). rewrite slice_lookup in Hs.
    case_decide; [lia | by destruct Hs].
Qed.

(** The common indices of two windows are the [common_tokens] indices
    that start at the later of the two starts. *)
Lemma common_tokens_spec T w1 w2 i :
  in_window T w1 i /\ in_window T w2 i <->
  Z.max (Py.adjust T w1.1) (Py.adjust T w2.1) <= i
    < Z.max (Py.adjust T w1.1) (Py.adjust T w2.1) + common_tokens T w1 w2.
Proof. unfold in_window, common_tokens. lia. Qed.

(** ** The chunker *)

Section ChunkerFacts.

Variable encode : string -> list token.
Variable decode : list token -> string.

Lemma window_from_0 W O k : window_from W O 0 k = window W O k.
Proof. unfold window_from, window. f_equal; lia. Qed.

Lemma window_from_step W O start k :
  window_from W O (start + (W - O)) k = window_from W O start (Z.succ k).
Proof. unfold window_from. f_equal; lia. Qed.

(** With a positive step the loop exits, and it has appended the chunks of
    [ceil((T - start) / step)] windows. *)
Lemma chunk_loop_closed_form fuel tokens W O start chunks :
  O < W ->
  (Z.to_nat (Py.len tokens - start) < fuel)%nat ->
  chunk_loop decode fuel tokens W O start chunks
  = Some (chunks ++ (chunk_of decode tokens ∘ window_from W O start
                     <$> seqZ 0 (Z.max 0 (Py.ceil_div (Py.len tokens - start)
                                                     (W - O))))).
Proof.
  intros Hstep. revert start chunks.
  induction fuel as [|fuel IH]; intros start chunks Hfuel; [lia|].
  simpl. destruct (Z.ltb_spec start (Py.len tokens)) as [Hlt|Hge].
  - rewrite IH by lia.
    f_equal. rewrite <- (assoc_L (++)). f_equal.
    pose proof (ceil_div_pos (Py.len tokens - start) (W - O)
                  ltac:(lia) ltac:(lia)) as Hpos.
    replace (Py.len tokens - (start + (W - O)))
      with (Py.len tokens - start - (W - O)) by lia.
    rewrite ceil_div_step by lia.
    rewrite (seqZ_cons 0 (Z.max 0 (Py.ceil_div _ _))) by lia.
    rewrite fmap_cons. simpl. f_equal.
    + unfold chunk_of, window_from. simpl. do 2 f_equal; lia.
    + replace (Z.pred (Z.max 0 (Py.ceil_div (Py.len tokens - start) (W - O))))
        with (Z.max 0 (Py.ceil_div (Py.len tokens - start) (W - O) - 1)) by lia.
      rewrite <- (fmap_add_seqZ 1 0). rewrite <- list_fmap_compose.
      apply list_fmap_ext. intros _ k _. simpl.
      rewrite window_from_step. do 2 f_equal. lia.
  - rewrite seqZ_nil, app_nil_r; [done|].
    pose proof (ceil_div_nonpos (Py.len tokens - start) (W - O)
                  ltac:(lia) ltac:(lia)). lia.
Qed.

(** With a non-positive step, a loop entered at or before index 0 of a
    non-empty stream never exits. *)
Lemma chunk_loop_hangs fuel tokens W O start chunks :
  W <= O -> start <= 0 -> tokens <> [] ->
  chunk_loop decode fuel tokens W O start chunks = None.
Proof.
  intros Hstep Hstart Hne. revert start chunks Hstart.
  induction fuel as [|fuel IH]; intros start chunks Hstart; [done|].
  simpl. destruct (Z.ltb_spec start (Py.len tokens)) as [Hlt|Hge].
  - apply IH. lia.
  - destruct tokens; [done|]. unfold Py.len in Hge. simpl in Hge. lia.
Qed.

(** More fuel does not change a result. *)
Lemma chunk_loop_fuel_mono fuel fuel' tokens W O start chunks r :
  chunk_loop decode fuel tokens W O start chunks = Some r ->
  (fuel <= fuel')%nat ->
  chunk_loop decode fuel' tokens W O start chunks = Some r.
Proof.
  revert fuel' start chunks.
  induction fuel as [|fuel IH]; intros fuel' start chunks Hr Hle; [done|].
  destruct fuel' as [|fuel']; [lia|].
  simpl in *. destruct (start <? Py.len tokens); [|done].
  apply IH; [done | lia].
Qed.

(** With [overlap < max_tokens] the chunker returns the chunks of
    [windows], with any fuel above the number of tokens. *)
Lemma chunk_text_by_tokens_fuel_windows fuel text W O :
  O < W ->
  (length (encode text) < fuel)%nat ->
  chunk_text_by_tokens_fuel encode decode fuel text W O
  = Some (chunk_of decode (encode text)
          <$> windows (Py.len (encode text)) W O).
Proof.
  intros Hstep Hfuel. unfold chunk_text_by_tokens_fuel.
  rewrite chunk_loop_closed_form by (unfold Py.len; lia).
  unfold windows, chunk_count. rewrite Z.sub_0_r, <- list_fmap_compose.
  by f_equal.
Qed.

Lemma chunk_text_by_tokens_windows text W O :
  O < W ->
  chunk_text_by_tokens encode decode text W O
  = Some (chunk_of decode (encode text)
          <$> windows (Py.len (encode text)) W O).
Proof.
  intros Hstep. unfold chunk_text_by_tokens.
  apply chunk_text_by_tokens_fuel_windows; [done | lia].
Qed.

(** [chunk_text_by_tokens] is [Some] exactly when some fuel is enough. *)
Lemma chunk_text_by_tokens_Some text W O r :
  chunk_text_by_tokens encode decode text W O = Some r <->
  exists fuel, chunk_text_by_tokens_fuel encode decode fuel text W O = Some r.
Proof.
  split; [intros Hr; by eexists|]. intros [fuel Hr].
  destruct (Z.lt_ge_cases O W) as [Hstep|Hstep].
  - rewrite chunk_text_by_tokens_windows by done.
    unfold chunk_text_by_tokens_fuel in Hr.
    apply (chunk_loop_fuel_mono _ (fuel + S (length (encode text)))) in Hr;
      [|lia].
    fold (chunk_text_by_tokens_fuel encode decode
            (fuel + S (length (encode text))) text W O) in Hr.
    rewrite chunk_text_by_tokens_fuel_windows in Hr by (done || lia).
    done.
  - unfold chunk_text_by_tokens, chunk_text_by_tokens_fuel in *.
    destruct (encode text) as [|t ts] eqn:Htok.
    + destruct fuel; [done|]. simpl in *. done.
    + rewrite chunk_loop_hangs in Hr; done.
Qed.

(** [chunk_text_by_tokens] is [None] exactly when no fuel is enough. *)
Lemma chunk_text_by_tokens_None text W O :
  chunk_text_by_tokens encode decode text W O = None <->
  forall fuel, chunk_text_by_tokens_fuel encode decode fuel text W O = None.
Proof.
  split.
  - intros Hnone fuel.
    destruct (chunk_text_by_tokens_fuel encode decode fuel text W O)
      as [r|] eqn:Hr; [|done].
    assert (chunk_text_by_tokens encode decode text W O = Some r) as Hs
      by (apply chunk_text_by_tokens_Some; by eexists).
    congruence.
  - intros Hnone. apply Hnone.
Qed.

Lemma windows_length T W O :
  Py.len (windows T W O) = chunk_count T W O.
Proof.
  unfold windows, Py.len. rewrite length_fmap, length_seqZ.
  unfold chunk_count. lia.
Qed.

Lemma chunk_count_ceil T W O :
  O < W -> 0 <= T ->
  chunk_count T W O = if T =? 0 then 0 else Py.ceil_div T (W - O).
Proof.
  intros Hstep HT. unfold chunk_count.
  destruct (Z.eqb_spec T 0) as [->|Hne].
  - pose proof (ceil_div_nonpos 0 (W - O) ltac:(lia) ltac:(lia)). lia.
  - pose proof (ceil_div_pos T (W - O) ltac:(lia) ltac:(lia)). lia.
Qed.

Lemma elem_of_windows T W O w :
  w ∈ windows T W O <->
  exists k, 0 <= k < chunk_count T W O /\ w = window W O k.
Proof.
  unfold windows. rewrite list_elem_of_fmap.
  setoid_rewrite elem_of_seqZ. split.
  - intros (k & -> & Hk). exists k. split; [lia | done].
  - intros (k & Hk & ->). exists k. split; [done | lia].
Qed.

(** Without a negative overlap, consecutive windows leave no gap. *)
Lemma windows_cover T W O :
  0 <= O < W -> covers T (windows T W O).
Proof.
  intros [HO Hstep] i Hi.
  exists (window W O (i / (W - O))). split.
  - apply elem_of_windows. exists (i / (W - O)). split; [|done].
    pose proof (Z.div_mod i (W - O) ltac:(lia)) as Hdm.
    pose proof (Z.mod_pos_bound i (W - O) ltac:(lia)) as Hm.
    pose proof (ceil_div_bounds T (W - O) ltac:(lia)) as Hc.
    unfold chunk_count. split; [apply Z.div_pos; lia | nia].
  - unfold in_window, window. simpl.
    pose proof (Z.div_mod i (W - O) ltac:(lia)) as Hdm.
    pose proof (Z.mod_pos_bound i (W - O) ltac:(lia)) as Hm.
    assert (0 <= i / (W - O)) by (apply Z.div_pos; lia).
    rewrite !adjust_nonneg by nia. nia.
Qed.

(** The overlap of windows [k] and [k + 1] when the later one starts
    inside the stream. *)
Lemma consecutive_common_tokens T W O k :
  0 <= O < W -> 0 <= k -> (k + 1) * (W - O) < T ->
  common_tokens T (window W O k) (window W O (k + 1))
  = Z.min O (T - (k + 1) * (W - O)).
Proof.
  intros [HO Hstep] Hk Hin. unfold common_tokens, window. simpl.
  rewrite !adjust_nonneg by nia. nia.
Qed.

End ChunkerFacts.

(** C1 (as amended).  For every text, with W = max_tokens, O = overlap
    satisfying O < W, and T the number of tokens of the text,
    [chunk_text_by_tokens] returns (with any fuel above T) exactly
    ceil(T / (W - O)) chunks when T > 0, and no chunk when T = 0. *)
Theorem chunk_text_by_tokens_count
    (encode : string -> list token) (decode : list token -> string)
    (text : string) (W O : Z) :
  O < W ->
  exists chunks,
    chunk_text_by_tokens encode decode text W O = Some chunks
    /\ (forall fuel, (length (encode text) < fuel)%nat ->
          chunk_text_by_tokens_fuel encode decode fuel text W O = Some chunks)
    /\ Py.len chunks
       = if Py.len (encode text) =? 0 then 0
         else Py.ceil_div (Py.len (encode text)) (W - O).
Proof.
  intros Hstep. eexists. split_and!.
  - by apply chunk_text_by_tokens_windows.
  - intros fuel Hfuel. by apply chunk_text_by_tokens_fuel_windows.
  - unfold Py.len at 1. rewrite length_fmap. fold (Py.len (windows (Py.len (encode text)) W O)).
    rewrite windows_length. apply chunk_count_ceil; [done | apply len_nonneg].
Qed.

Lemma chunk_text_by_tokens_count_witness :
  1 < 3 /\
  exists chunks,
    chunk_text_by_tokens Fixture.char_encode Fixture.char_decode "abc" 3 1
    = Some chunks
    /\ (forall fuel, (length (Fixture.char_encode "abc") < fuel)%nat ->
          chunk_text_by_tokens_fuel Fixture.char_encode Fixture.char_decode
            fuel "abc" 3 1 = Some chunks)
    /\ Py.len chunks
       = if Py.len (Fixture.char_encode "abc") =? 0 then 0
         else Py.ceil_div (Py.len (Fixture.char_encode "abc")) (3 - 1).
Proof.
  split; [lia|].
  apply (chunk_text_by_tokens_count Fixture.char_encode Fixture.char_decode
           "abc" 3 1).
  lia.
Defined.

(** C1 as stated fails: a text of T = 3 tokens chunked with W = 3 and O = 1
    gives the 2 chunks of the windows starting at 0 and 2, where the formula
    ceil((T - O) / (W - O)) gives 1. *)
Lemma chunk_count_formula_counterexample :
  chunk_text_by_tokens Fixture.char_encode Fixture.char_decode "abc" 3 1
  = Some ["abc"; "c"]
  /\ Py.len (Fixture.char_encode "abc") = 3
  /\ formula_chunk_count 3 3 1 = 1
  /\ Py.len ["abc"; "c"] <> formula_chunk_count 3 3 1.
Proof. split_and!; [reflexivity | reflexivity | reflexivity | discriminate]. Qed.

(** C3.  Where the claim asks for a configuration error, the chunker never
    returns: with overlap >= max_tokens and a text of at least one token,
    the loop is still running after any number of steps. *)
Theorem chunk_text_by_tokens_hangs
    (encode : string -> list token) (decode : list token -> string)
    (text : string) (W O : Z) :
  W <= O -> encode text <> [] ->
  chunk_text_by_tokens encode decode text W O = None
  /\ forall fuel,
       chunk_text_by_tokens_fuel encode decode fuel text W O = None.
Proof.
  intros Hstep Hne.
  assert (forall fuel,
            chunk_text_by_tokens_fuel encode decode fuel text W O = None) as H.
  { intros fuel. unfold chunk_text_by_tokens_fuel.
    by apply chunk_loop_hangs. }
  split; [apply H | done].
Qed.

Lemma chunk_text_by_tokens_hangs_witness :
  (1 <= 1 /\ Fixture.char_encode "a" <> []) /\
  chunk_text_by_tokens Fixture.char_encode Fixture.char_decode "a" 1 1 = None
  /\ forall fuel,
       chunk_text_by_tokens_fuel Fixture.char_encode Fixture.char_decode
         fuel "a" 1 1 = None.
Proof.
  split; [split; [lia | discriminate]|].
  apply (chunk_text_by_tokens_hangs Fixture.char_encode Fixture.char_decode
           "a" 1 1); [lia | discriminate].
Defined.

(** The chunker has no guard on its parameters: for a text without tokens
    it returns the empty list whatever the overlap. *)
Lemma chunk_text_by_tokens_no_tokens
    (encode : string -> list token) (decode : list token -> string)
    (text : string) (W O : Z) :
  encode text = [] -> chunk_text_by_tokens encode decode text W O = Some [].
Proof.
  intros Hnil. unfold chunk_text_by_tokens, chunk_text_by_tokens_fuel.
  by rewrite Hnil.
Qed.

(** C4 (as amended).  For every text and 0 <= overlap < max_tokens, the
    chunks are the decoded slices of [windows], these cover every token
    index in [0, T), and two consecutive chunks share
    min(overlap, T - start of the later chunk) tokens: exactly [overlap]
    whenever the earlier slice ends inside the stream. *)
Theorem chunk_windows_cover_and_overlap
    (encode : string -> list token) (decode : list token -> string)
    (text : string) (W O : Z) :
  0 <= O < W ->
  chunk_text_by_tokens encode decode text W O
  = Some (chunk_of decode (encode text) <$> windows (Py.len (encode text)) W O)
  /\ covers (Py.len (encode text)) (windows (Py.len (encode text)) W O)
  /\ forall k, 0 <= k -> k + 1 < chunk_count (Py.len (encode text)) W O ->
       common_tokens (Py.len (encode text)) (window W O k) (window W O (k + 1))
       = Z.min O (Py.len (encode text) - (k + 1) * (W - O))
       /\ (k * (W - O) + W <= Py.len (encode text) ->
           common_tokens (Py.len (encode text))
             (window W O k) (window W O (k + 1)) = O).
Proof.
  intros HO. split_and!.
  - apply chunk_text_by_tokens_windows. lia.
  - by apply windows_cover.
  - intros k Hk Hnext.
    assert ((k + 1) * (W - O) < Py.len (encode text)) as Hin.
    { unfold chunk_count in Hnext.
      pose proof (ceil_div_bounds (Py.len (encode text)) (W - O) ltac:(lia)).
      nia. }
    rewrite consecutive_common_tokens by done. split; [done | lia].
Qed.

Lemma chunk_windows_cover_and_overlap_witness :
  0 <= 1 < 3 /\
  chunk_text_by_tokens Fixture.char_encode Fixture.char_decode "abcde" 3 1
  = Some (chunk_of Fixture.char_decode (Fixture.char_encode "abcde")
          <$> windows (Py.len (Fixture.char_encode "abcde")) 3 1)
  /\ covers (Py.len (Fixture.char_encode "abcde"))
       (windows (Py.len (Fixture.char_encode "abcde")) 3 1)
  /\ forall k, 0 <= k ->
       k + 1 < chunk_count (Py.len (Fixture.char_encode "abcde")) 3 1 ->
       common_tokens (Py.len (Fixture.char_encode "abcde"))
         (window 3 1 k) (window 3 1 (k + 1))
       = Z.min 1 (Py.len (Fixture.char_encode "abcde") - (k + 1) * (3 - 1))
       /\ (k * (3 - 1) + 3 <= Py.len (Fixture.char_encode "abcde") ->
           common_tokens (Py.len (Fixture.char_encode "abcde"))
             (window 3 1 k) (window 3 1 (k + 1)) = 1).
Proof.
  split; [lia|].
  apply (chunk_windows_cover_and_overlap Fixture.char_encode
           Fixture.char_decode "abcde" 3 1).
  lia.
Defined.

(** C4 as stated fails twice.  With a negative overlap (W = 2, O = -1 < W,
    T = 3) the only window is [0, 2) and token 2 is in no chunk.  With
    W = 4, O = 3 and T = 3 there are three chunks, and the first two, neither
    of them the last, share 2 tokens and not 3. *)
Lemma chunk_windows_counterexample :
  (chunk_text_by_tokens Fixture.char_encode Fixture.char_decode "abc" 2 (-1)
   = Some ["ab"]
   /\ windows 3 2 (-1) = [(0, 2)]
   /\ ~ covers 3 (windows 3 2 (-1)))
  /\ (chunk_text_by_tokens Fixture.char_encode Fixture.char_decode "abc" 4 3
      = Some ["abc"; "bc"; "c"]
      /\ windows 3 4 3 = [(0, 4); (1, 5); (2, 6)]
      /\ common_tokens 3 (window 4 3 0) (window 4 3 1) = 2).
Proof.
  split_and!; try reflexivity.
  intros Hcov. destruct (Hcov 2 ltac:(lia)) as (w & Hw & Hin).
  change (windows 3 2 (-1)) with [(0, 2)] in Hw.
  apply list_elem_of_singleton in Hw. subst w.
  unfold in_window in Hin. vm_compute in Hin. destruct Hin as [_ Hlt].
  discriminate Hlt.
Qed.

(** ** Computations *)

(** Unfolds the operations of a straight-line computation. *)
Ltac unfold_run :=
  unfold try_except, bind, call_embed, call_query, call_upsert, call_fitz,
    call_glob, getitem_0, of_option, print, ret, raise, hang.

(** Case analysis on the reply of the embedding call, on the list of
    embeddings, and on the reply of the index query of a retrieval. *)
Ltac retrieval_cases E query top_k w :=
  unfold_run;
  let embs := fresh "embs" in
  let e := fresh "e" in
  let w1 := fresh "w1" in
  let Hembed := fresh "Hembed" in
  destruct (co_embed E [query] "embed-english-v3.0" "search_query" w)
    as [[embs|e] w1] eqn:Hembed; simpl;
  [ let emb := fresh "emb" in
    destruct embs as [|emb embs]; simpl;
    [ | let ms := fresh "ms" in
        let e' := fresh "e" in
        let w2 := fresh "w2" in
        let Hquery := fresh "Hquery" in
        destruct (index_query E emb top_k true w1)
          as [[ms|e'] w2] eqn:Hquery; simpl ]
  | ].

Lemma foldl_snoc_fmap {A B} (f : A -> B) (l : list A) (acc : list B) :
  foldl (fun acc x => acc ++ [f x]) acc l = acc ++ (f <$> l).
Proof.
  revert acc. induction l as [|x l IH]; intros acc; simpl.
  - by rewrite app_nil_r.
  - rewrite IH. by rewrite <- (assoc_L (++)).
Qed.

(** ** search_helper.py *)

Section SearchHelperFacts.

Context (E : Env).

Lemma search_helper_format_match_keys (m : query_match (float E)) :
  dom (search_helper.format_match E m)
  = ({["score"; "source"; "content_preview"]} : gset string).
Proof.
  unfold search_helper.format_match. rewrite !dom_insert_L, dom_empty_L.
  set_solver.
Qed.

Lemma search_helper_format_match_no_error (m : query_match (float E)) :
  search_helper.format_match E m !! "error" = None.
Proof.
  apply not_elem_of_dom. rewrite search_helper_format_match_keys.
  set_solver.
Qed.

End SearchHelperFacts.

(** C9.  [search_helper.search_faq] always returns a list of dictionaries:
    it neither raises nor hangs.  When the embedding call or the index
    query raises [e] (or the embedding list is empty), the list is exactly
    [[{"error": str(e)}]]; otherwise it is the list of the formatted
    matches, none of which has an ["error"] key. *)
Theorem search_helper_search_faq_total (E : Env) (query : string) (top_k : Z)
    (w : world E) :
  let r := search_helper.search_faq E query top_k w in
  (exists l, out r = Returns l)
  /\ (forall e w1,
        co_embed E [query] "embed-english-v3.0" "search_query" w = (Err e, w1) ->
        out r = Returns [ {["error" := VStr (Py.str e)]} ])
  /\ (forall w1,
        co_embed E [query] "embed-english-v3.0" "search_query" w = (Ok [], w1) ->
        out r = Returns [ {["error" := VStr (Py.str Py.IndexError)]} ])
  /\ (forall emb embs w1 e w2,
        co_embed E [query] "embed-english-v3.0" "search_query" w
        = (Ok (emb :: embs), w1) ->
        index_query E emb top_k true w1 = (Err e, w2) ->
        out r = Returns [ {["error" := VStr (Py.str e)]} ])
  /\ (forall emb embs w1 ms w2,
        co_embed E [query] "embed-english-v3.0" "search_query" w
        = (Ok (emb :: embs), w1) ->
        index_query E emb top_k true w1 = (Ok ms, w2) ->
        out r = Returns (search_helper.format_match E <$> ms)
        /\ Forall (fun d => d !! "error" = None
                            /\ dom d = ({["score"; "source"; "content_preview"]}
                                        : gset string))
             (search_helper.format_match E <$> ms))
  /\ (forall e : exn,
        ({["error" := VStr (Py.str e)]} : gmap string (value (float E)))
          !! "error" = Some (VStr (Py.str e))).
Proof.
  unfold search_helper.search_faq.
  split_and!.
  - retrieval_cases E query top_k w; by eexists.
  - intros e0 w0 H. retrieval_cases E query top_k w; congruence.
  - intros w0 H. retrieval_cases E query top_k w; congruence.
  - intros emb0 embs0 w0 e0 w3 H Hq.
    retrieval_cases E query top_k w; congruence.
  - intros emb0 embs0 w0 ms0 w3 H Hq.
    retrieval_cases E query top_k w; try congruence.
    assert (ms = ms0) as -> by congruence.
    rewrite foldl_snoc_fmap. simpl. split; [done|].
    apply Forall_fmap, Forall_forall. intros m _. simpl. split.
    + apply search_helper_format_match_no_error.
    + apply search_helper_format_match_keys.
  - intros e. apply lookup_singleton_eq.
Qed.

(** ** Loops *)

Section LoopFacts.

Context {E : Env}.

Lemma for_cons_returns {A S} (x : A) (xs : list A) (body : A -> S -> M E S)
    (s s1 : S) (w : world E) :
  out (body x s w) = Returns s1 ->
  for_ (x :: xs) body s w
  = Ran (trace (body x s w) ++ trace (for_ xs body s1 (final (body x s w))))
        (final (for_ xs body s1 (final (body x s w))))
        (out (for_ xs body s1 (final (body x s w)))).
Proof. intros Hout. simpl. unfold bind. by rewrite Hout. Qed.

Lemma for_cons_run {A S} (x : A) (xs : list A) (body : A -> S -> M E S)
    (s : S) (w : world E) :
  for_ (x :: xs) body s w
  = match out (body x s w) with
    | Returns s1 =>
        Ran (trace (body x s w)
             ++ trace (for_ xs body s1 (final (body x s w))))
            (final (for_ xs body s1 (final (body x s w))))
            (out (for_ xs body s1 (final (body x s w))))
    | Raises e => Ran (trace (body x s w)) (final (body x s w)) (Raises e)
    | Hangs => Ran (trace (body x s w)) (final (body x s w)) Hangs
    end.
Proof. done. Qed.

(** A loop whose body always returns, returns. *)
Lemma for_returns {A S} (xs : list A) (body : A -> S -> M E S) :
  (forall x s w, x ∈ xs -> exists s', out (body x s w) = Returns s') ->
  forall s w, exists s', out (for_ xs body s w) = Returns s'.
Proof.
  induction xs as [|x xs IH]; intros Hbody s w.
  - by eexists.
  - destruct (Hbody x s w ltac:(left)) as [s1 Hs1].
    rewrite (for_cons_returns _ _ _ _ _ _ Hs1). simpl.
    apply IH. intros y s' w' Hy. apply Hbody. by right.
Qed.

(** A loop whose body never raises, never raises. *)
Lemma for_no_raise {A S} (xs : list A) (body : A -> S -> M E S) :
  (forall x s w e, out (body x s w) <> Raises e) ->
  forall s w e, out (for_ xs body s w) <> Raises e.
Proof.
  intros Hbody. induction xs as [|x xs IH]; intros s w e; [done|].
  rewrite for_cons_run. pose proof (Hbody x s w) as Hx.
  destruct (out (body x s w)) as [s1|e1|]; cbn [out]; [apply IH | | done].
  by destruct (Hx e1).
Qed.

(** A property of traces that holds of the empty trace and of
    concatenations holds of a loop when it holds of each iteration. *)
Lemma for_trace {A S} (P : list (event (float E)) -> Prop) (xs : list A)
    (body : A -> S -> M E S) :
  P [] -> (forall t1 t2, P t1 -> P t2 -> P (t1 ++ t2)) ->
  (forall x s w, x ∈ xs -> P (trace (body x s w))) ->
  forall s w, P (trace (for_ xs body s w)).
Proof.
  intros Hnil Happ. induction xs as [|x xs IH]; intros Hbody s w; [done|].
  simpl. unfold bind.
  pose proof (Hbody x s w ltac:(left)) as Hx.
  destruct (out (body x s w)) as [s1| |]; simpl; [|done..].
  apply Happ; [done|]. apply IH. intros y s' w' Hy. apply Hbody. by right.
Qed.

(** An invariant of the loop variables and of the trace so far. *)
Lemma for_invariant {A S} (Inv : S -> list (event (float E)) -> Prop)
    (xs : list A) (body : A -> S -> M E S) :
  (forall x s w t s', x ∈ xs -> Inv s t -> out (body x s w) = Returns s' ->
     Inv s' (t ++ trace (body x s w))) ->
  forall s w t s', Inv s t -> out (for_ xs body s w) = Returns s' ->
    Inv s' (t ++ trace (for_ xs body s w)).
Proof.
  induction xs as [|x xs IH]; intros Hbody s w t s' Hinv Hout.
  - simpl in *. unfold ret in *. simpl in *. rewrite app_nil_r. congruence.
  - simpl in *. unfold bind in *.
    destruct (out (body x s w)) as [s1| |] eqn:Hs1; simpl in *; [|done..].
    rewrite (assoc_L (++)). apply IH; [|by eapply Hbody; [left|..]|done].
    intros y s0 w0 t0 s0' Hy. apply Hbody. by right.
Qed.

(** When the body always returns, the loop runs it on every element. *)
Lemma for_visits {A S} (Q : A -> event (float E) -> Prop) (xs : list A)
    (body : A -> S -> M E S) :
  (forall x s w, exists s', out (body x s w) = Returns s') ->
  (forall x s w, Exists (Q x) (trace (body x s w))) ->
  forall x s w, x ∈ xs -> Exists (Q x) (trace (for_ xs body s w)).
Proof.
  intros Hret Hev x. induction xs as [|y xs IH]; intros s w Hx.
  - by apply elem_of_nil in Hx.
  - destruct (Hret y s w) as [s1 Hs1].
    rewrite (for_cons_returns _ _ _ _ _ _ Hs1). simpl.
    apply Exists_app. apply elem_of_cons in Hx as [->|Hx].
    + left. apply Hev.
    + right. by apply IH.
Qed.

Lemma sublist_fmap {A B} (f : A -> B) (l1 l2 : list A) :
  sublist l1 l2 -> sublist (f <$> l1) (f <$> l2).
Proof. induction 1; simpl; by constructor. Qed.

Lemma sublist_same_length {A} (l1 l2 : list A) :
  sublist l1 l2 -> length l1 = length l2 -> l1 = l2.
Proof.
  induction 1 as [|x l1 l2 Hsub IH|x l1 l2 Hsub IH]; simpl; intros Hlen.
  - done.
  - f_equal. apply IH. lia.
  - apply sublist_length in Hsub. lia.
Qed.

End LoopFacts.

(** ** vector_db.py: ingestion *)

Lemma elem_of_enumerate {A} (l : list A) (ic : Z * A) :
  ic ∈ Py.enumerate l <->
  0 <= ic.1 < Py.len l /\ l !! Z.to_nat ic.1 = Some ic.2.
Proof.
  unfold Py.enumerate. rewrite elem_of_lookup_zip_with. split.
  - intros (i & idx & x & -> & Hidx & Hx). simpl.
    apply lookup_seqZ in Hidx as [-> Hi]. rewrite Z.add_0_l, Nat2Z.id.
    split; [lia | done].
  - intros [Hidx Hx]. exists (Z.to_nat ic.1), ic.1, ic.2.
    split_and!; [by destruct ic | | done].
    apply lookup_seqZ. lia.
Qed.

Lemma enumerate_length {A} (l : list A) :
  length (Py.enumerate l) = length l.
Proof.
  unfold Py.enumerate. rewrite length_zip_with, length_seqZ.
  unfold Py.len. lia.
Qed.

Lemma enumerate_fst {A} (l : list A) :
  (Py.enumerate l).*1 = seqZ 0 (Py.len l).
Proof.
  unfold Py.enumerate. apply fst_zip. rewrite length_seqZ. unfold Py.len. lia.
Qed.

Section IngestFacts.

Context (E : Env).

Lemma embed_text_run text w :
  vector_db.embed_text E text w
  = match co_embed E [text] "embed-english-v3.0" "search_document" w with
    | (Ok (emb :: embs), w1) =>
        Ran [CoEmbed [text] "embed-english-v3.0" "search_document"
               (Ok (emb :: embs))]
            w1 (Returns emb)
    | (Ok [], w1) =>
        Ran [CoEmbed [text] "embed-english-v3.0" "search_document" (Ok []);
             Print ("Error generating embedding: " +:+ Py.str Py.IndexError)]
            w1 (Raises Py.IndexError)
    | (Err e, w1) =>
        Ran [CoEmbed [text] "embed-english-v3.0" "search_document" (Err e);
             Print ("Error generating embedding: " +:+ Py.str e)]
            w1 (Raises e)
    end.
Proof.
  unfold vector_db.embed_text. unfold_run.
  by destruct (co_embed E [text] "embed-english-v3.0" "search_document" w)
    as [[[|emb embs]|e] w1].
Qed.

Lemma embed_query_run text w :
  vector_db.embed_query E text w
  = match co_embed E [text] "embed-english-v3.0" "search_query" w with
    | (Ok (emb :: embs), w1) =>
        Ran [CoEmbed [text] "embed-english-v3.0" "search_query"
               (Ok (emb :: embs))]
            w1 (Returns emb)
    | (Ok [], w1) =>
        Ran [CoEmbed [text] "embed-english-v3.0" "search_query" (Ok []);
             Print ("Error generating query embedding: "
                    +:+ Py.str Py.IndexError)]
            w1 (Raises Py.IndexError)
    | (Err e, w1) =>
        Ran [CoEmbed [text] "embed-english-v3.0" "search_query" (Err e);
             Print ("Error generating query embedding: " +:+ Py.str e)]
            w1 (Raises e)
    end.
Proof.
  unfold vector_db.embed_query. unfold_run.
  by destruct (co_embed E [text] "embed-english-v3.0" "search_query" w)
    as [[[|emb embs]|e] w1].
Qed.

Lemma embed_chunk_run filename chunks idx chunk acc w :
  vector_db.embed_chunk E filename chunks (idx, chunk) acc w
  = match co_embed E [chunk] "embed-english-v3.0" "search_document" w with
    | (Ok (emb :: embs), w1) =>
        Ran [CoEmbed [chunk] "embed-english-v3.0" "search_document"
               (Ok (emb :: embs))]
            w1
            (Returns (acc ++ [vector_db.make_vector E filename chunks idx
                                chunk emb]))
    | (Ok [], w1) =>
        Ran [CoEmbed [chunk] "embed-english-v3.0" "search_document" (Ok []);
             Print ("Error generating embedding: " +:+ Py.str Py.IndexError);
             Print ("  Error embedding chunk " +:+ pretty idx +:+ " of "
                    +:+ filename +:+ ": " +:+ Py.str Py.IndexError)]
            w1 (Returns acc)
    | (Err e, w1) =>
        Ran [CoEmbed [chunk] "embed-english-v3.0" "search_document" (Err e);
             Print ("Error generating embedding: " +:+ Py.str e);
             Print ("  Error embedding chunk " +:+ pretty idx +:+ " of "
                    +:+ filename +:+ ": " +:+ Py.str e)]
            w1 (Returns acc)
    end.
Proof.
  unfold vector_db.embed_chunk, try_except, bind.
  rewrite embed_text_run.
  by destruct (co_embed E [chunk] "embed-english-v3.0" "search_document" w)
    as [[[|emb embs]|e] w1].
Qed.

(** The loop over the chunks of one document: it returns, each record it
    appends is the record of a chunk (in order, none twice), it calls the
    embedding service once for each chunk, and it appends one record for
    each call answered with an embedding. *)
Lemma embed_chunks_run filename chunks ics acc w :
  exists new,
    out (for_ ics (vector_db.embed_chunk E filename chunks) acc w)
    = Returns (acc ++ new)
    /\ sublist ((fun v => (vec_id v, vec_metadata v)) <$> new)
         (record_key E filename chunks <$> ics)
    /\ length new
       = length (List.filter embed_ok
                   (trace (for_ ics (vector_db.embed_chunk E filename chunks)
                             acc w)))
    /\ length ics
       = length (List.filter is_embed
                   (trace (for_ ics (vector_db.embed_chunk E filename chunks)
                             acc w))).
Proof.
  revert acc w. induction ics as [|[idx chunk] ics IH]; intros acc w.
  - exists []. simpl. by rewrite app_nil_r.
  - rewrite for_cons_run, embed_chunk_run.
    destruct (co_embed E [chunk] "embed-english-v3.0" "search_document" w)
      as [[[|emb embs]|e] w1]; simpl.
    + destruct (IH acc w1) as (new & -> & Hsub & Hok & Hall).
      exists new. split_and!; [done | by apply sublist_cons | done | by f_equal].
    + destruct (IH (acc ++ [vector_db.make_vector E filename chunks idx chunk
                              emb]) w1) as (new & -> & Hsub & Hok & Hall).
      exists (vector_db.make_vector E filename chunks idx chunk emb :: new).
      split_and!.
      * by rewrite <- (assoc_L (++)).
      * simpl. by apply sublist_skip.
      * simpl. by f_equal.
      * by f_equal.
    + destruct (IH acc w1) as (new & -> & Hsub & Hok & Hall).
      exists new. split_and!; [done | by apply sublist_cons | done | by f_equal].
Qed.

Lemma embed_chunk_intent filename chunks ic acc w :
  Forall (intent_is "search_document")
    (trace (vector_db.embed_chunk E filename chunks ic acc w)).
Proof.
  destruct ic as [idx chunk]. rewrite embed_chunk_run.
  destruct (co_embed E [chunk] "embed-english-v3.0" "search_document" w)
    as [[[|emb embs]|e] w1]; simpl; repeat constructor.
Qed.

Lemma extract_pdf_text_run path w :
  vector_db.extract_pdf_text E path w
  = match fitz_get_text E path w with
    | (Ok pages, w1) =>
        Ran [FitzRead path (Ok pages)] w1
            (Returns (str_strip E (vector_db.join_pages pages)))
    | (Err e, w1) =>
        Ran [FitzRead path (Err e);
             Print ("Error reading " +:+ path +:+ ": " +:+ Py.str e)]
            w1 (Returns "")
    end.
Proof.
  unfold vector_db.extract_pdf_text. unfold_run.
  by destruct (fitz_get_text E path w) as [[pages|e] w1].
Qed.

(** One iteration of the loop over the files. *)
Lemma process_file_run max_chunk_tokens path acc w :
  vector_db.process_file E max_chunk_tokens path acc w
  = let filename := os_path_basename E path in
    match fitz_get_text E path w with
    | (Err e, w1) =>
        Ran [Print ("Processing: " +:+ filename);
             FitzRead path (Err e);
             Print ("Error reading " +:+ path +:+ ": " +:+ Py.str e);
             Print ("Skipping " +:+ filename +:+ " - no text extracted")]
            w1 (Returns acc)
    | (Ok pages, w1) =>
        let text := str_strip E (vector_db.join_pages pages) in
        if Py.truthy text then
          match encode_raises E text with
          | Some e =>
              Ran [Print ("Processing: " +:+ filename);
                   FitzRead path (Ok pages)]
                  w1 (Raises e)
          | None =>
              match chunk_text_by_tokens (encode E) (decode E) text
                      max_chunk_tokens default_overlap with
              | Some chunks =>
                  let r := for_ (Py.enumerate chunks)
                             (vector_db.embed_chunk E filename chunks) acc w1 in
                  Ran ([Print ("Processing: " +:+ filename);
                        FitzRead path (Ok pages);
                        Print ("  Created " +:+ pretty (Py.len chunks)
                               +:+ " chunks")] ++ trace r)
                      (final r) (out r)
              | None =>
                  Ran [Print ("Processing: " +:+ filename);
                       FitzRead path (Ok pages)]
                      w1 Hangs
              end
          end
        else
          Ran [Print ("Processing: " +:+ filename);
               FitzRead path (Ok pages);
               Print ("Skipping " +:+ filename +:+ " - no text extracted")]
              w1 (Returns acc)
    end.
Proof.
  unfold vector_db.process_file, vector_db.chunk_text_by_tokens, bind. simpl.
  rewrite extract_pdf_text_run.
  destruct (fitz_get_text E path w) as [[pages|e] w1]; simpl; [|done].
  destruct (Py.truthy (str_strip E (vector_db.join_pages pages))); simpl;
    [|done].
  destruct (encode_raises E (str_strip E (vector_db.join_pages pages)));
    simpl; [done|].
  destruct (chunk_text_by_tokens (encode E) (decode E)
              (str_strip E (vector_db.join_pages pages)) max_chunk_tokens
              default_overlap) as [chunks|]; simpl; [|done].
  by destruct (out (for_ (Py.enumerate chunks) _ acc w1)).
Qed.

End IngestFacts.

Section IngestRunFacts.

Context (E : Env).

Lemma record_from_mono max t t' path v :
  t ⊆ t' -> record_from E max t path v -> record_from E max t' path v.
Proof.
  intros Hsub (pages & chunks & ic & Hread & Hchunks & Hic & Hkey).
  exists pages, chunks, ic. split_and!; [by apply Hsub | done..].
Qed.

(** The records an iteration over the files appends come from chunks of
    the text read from its file. *)
Lemma process_file_records max path acc w acc' :
  out (vector_db.process_file E max path acc w) = Returns acc' ->
  exists new,
    acc' = acc ++ new
    /\ Forall (record_from E max
                 (trace (vector_db.process_file E max path acc w)) path) new.
Proof.
  rewrite process_file_run. simpl.
  destruct (fitz_get_text E path w) as [[pages|e] w1]; simpl.
  - destruct (Py.truthy (str_strip E (vector_db.join_pages pages))); simpl.
    + destruct (encode_raises E (str_strip E (vector_db.join_pages pages)));
        simpl; [done|].
      destruct (chunk_text_by_tokens (encode E) (decode E)
                  (str_strip E (vector_db.join_pages pages)) max
                  default_overlap) as [chunks|] eqn:Hchunks; simpl; [|done].
      destruct (embed_chunks_run E (os_path_basename E path) chunks
                  (Py.enumerate chunks) acc w1) as (new & Hout & Hsub & _).
      rewrite Hout. intros [= <-]. exists new. split; [done|].
      apply Forall_forall. intros v Hv.
      assert ((vec_id v, vec_metadata v)
              ∈ record_key E (os_path_basename E path) chunks
                <$> Py.enumerate chunks) as Hkey.
      { eapply elem_of_sublist; [|done].
        apply list_elem_of_fmap. by exists v. }
      apply list_elem_of_fmap in Hkey as (ic & Hkey & Hic).
      exists pages, chunks, ic. split_and!; [|done..].
      apply elem_of_cons. right. apply elem_of_cons. by left.
    + intros [= <-]. exists []. by rewrite app_nil_r.
  - intros [= <-]. exists []. by rewrite app_nil_r.
Qed.

(** With a window above the default overlap, an iteration over the files
    returns when the tokenizer accepts the text of the file, whatever the
    file and the services do. *)
Lemma process_file_returns max path acc w :
  default_overlap < max -> tokenizer_accepts E path ->
  exists acc', out (vector_db.process_file E max path acc w) = Returns acc'.
Proof.
  intros Hmax Htok. rewrite process_file_run. simpl.
  specialize (Htok w).
  destruct (fitz_get_text E path w) as [[pages|e] w1]; simpl; [|by eexists].
  destruct (Py.truthy (str_strip E (vector_db.join_pages pages))); simpl;
    [|by eexists].
  rewrite Htok.
  rewrite chunk_text_by_tokens_windows by done. simpl.
  destruct (embed_chunks_run E (os_path_basename E path)
              (chunk_of (decode E)
                 (encode E (str_strip E (vector_db.join_pages pages)))
               <$> windows
                     (Py.len (encode E (str_strip E (vector_db.join_pages pages))))
                     max default_overlap)
              (Py.enumerate
                 (chunk_of (decode E)
                    (encode E (str_strip E (vector_db.join_pages pages)))
                  <$> windows
                        (Py.len (encode E (str_strip E (vector_db.join_pages pages))))
                        max default_overlap))
              acc w1) as (new & Hout & _).
  by eexists.
Qed.

(** The only exception that escapes an iteration over the files is the
    one the tokenizer raises for the text read from the file. *)
Lemma process_file_raises max path acc w e :
  out (vector_db.process_file E max path acc w) = Raises e ->
  exists pages,
    FitzRead path (Ok pages) ∈ trace (vector_db.process_file E max path acc w)
    /\ encode_raises E (str_strip E (vector_db.join_pages pages)) = Some e.
Proof.
  rewrite process_file_run. simpl.
  destruct (fitz_get_text E path w) as [[pages|e0] w1]; simpl; [|done].
  destruct (Py.truthy (str_strip E (vector_db.join_pages pages))); simpl;
    [|done].
  destruct (encode_raises E (str_strip E (vector_db.join_pages pages)))
    as [e1|] eqn:Htok; simpl.
  { intros [= ->]. exists pages. split; [right; by left | done]. }
  destruct (chunk_text_by_tokens (encode E) (decode E)
              (str_strip E (vector_db.join_pages pages)) max
              default_overlap) as [chunks|]; simpl; [|done].
  destruct (embed_chunks_run E (os_path_basename E path) chunks
              (Py.enumerate chunks) acc w1) as (new & -> & _).
  done.
Qed.

(** The loop over the chunks reads no file. *)
Lemma embed_chunks_no_read filename chunks ics acc w path r :
  FitzRead path r
  ∉ trace (for_ ics (vector_db.embed_chunk E filename chunks) acc w).
Proof.
  revert acc w.
  apply (for_trace (fun t => FitzRead path r ∉ t)).
  - apply not_elem_of_nil.
  - intros t1 t2 H1 H2. by apply not_elem_of_app.
  - intros [idx chunk] acc w _. rewrite embed_chunk_run.
    destruct (co_embed E [chunk] "embed-english-v3.0" "search_document" w)
      as [[[|emb embs]|e] w1]; simpl;
      rewrite ?not_elem_of_cons; split_and?; (done || apply not_elem_of_nil).
Qed.

(** A failed read is followed by its two log lines. *)
Lemma process_file_logs_failure max path acc w path' e :
  FitzRead path' (Err e) ∈ trace (vector_db.process_file E max path acc w) ->
  Print ("Error reading " +:+ path' +:+ ": " +:+ Py.str e)
    ∈ trace (vector_db.process_file E max path acc w)
  /\ Print ("Skipping " +:+ os_path_basename E path'
            +:+ " - no text extracted")
    ∈ trace (vector_db.process_file E max path acc w).
Proof.
  rewrite process_file_run. simpl.
  destruct (fitz_get_text E path w) as [[pages|e0] w1]; simpl.
  - destruct (Py.truthy (str_strip E (vector_db.join_pages pages))); simpl.
    + destruct (encode_raises E (str_strip E (vector_db.join_pages pages)));
        simpl; [rewrite !elem_of_cons, elem_of_nil; naive_solver|].
      destruct (chunk_text_by_tokens (encode E) (decode E)
                  (str_strip E (vector_db.join_pages pages)) max
                  default_overlap) as [chunks|]; simpl.
      * rewrite !elem_of_cons. intros [H|[H|[H|H]]]; try done.
        by apply embed_chunks_no_read in H.
      * rewrite !elem_of_cons, elem_of_nil. naive_solver.
    + rewrite !elem_of_cons, elem_of_nil. naive_solver.
  - rewrite !elem_of_cons, elem_of_nil. intros [H|[H|[H|[H|H]]]]; try done.
    injection H as -> ->. split.
    + do 2 right. by left.
    + do 3 right. by left.
Qed.

Lemma process_file_intent max path acc w :
  Forall (intent_is "search_document")
    (trace (vector_db.process_file E max path acc w)).
Proof.
  rewrite process_file_run. simpl.
  destruct (fitz_get_text E path w) as [[pages|e0] w1]; simpl;
    [|repeat constructor].
  destruct (Py.truthy (str_strip E (vector_db.join_pages pages))); simpl;
    [|repeat constructor].
  destruct (encode_raises E (str_strip E (vector_db.join_pages pages)));
    simpl; [repeat constructor|].
  destruct (chunk_text_by_tokens (encode E) (decode E)
              (str_strip E (vector_db.join_pages pages)) max
              default_overlap) as [chunks|]; simpl; [|repeat constructor].
  repeat (apply Forall_cons; split; [done|]).
  apply (for_trace (Forall (intent_is "search_document")));
    [done | intros t1 t2 H1 H2; by apply Forall_app | ].
  intros ic acc' w' _. apply embed_chunk_intent.
Qed.

(** The whole ingestion run. *)
Lemma process_pdfs_to_vectors_run pattern max w :
  vector_db.process_pdfs_to_vectors E pattern max w
  = match glob_glob E pattern w with
    | [] =>
        Ran [Print ("No PDFs found matching pattern: " +:+ pattern)] w
            (Returns [])
    | _ :: _ =>
        let pdf_files := glob_glob E pattern w in
        let r := for_ pdf_files (vector_db.process_file E max) [] w in
        Ran (Print ("Found " +:+ pretty (Py.len pdf_files) +:+ " PDF files")
             :: trace r)
            (final r) (out r)
    end.
Proof.
  unfold vector_db.process_pdfs_to_vectors, bind, call_glob. simpl.
  destruct (glob_glob E pattern w) as [|path paths]; [done|]. simpl.
  by destruct (out (for_ (path :: paths) (vector_db.process_file E max) [] w)).
Qed.

(** Every record of an ingestion run comes from a chunk of the text read
    from one of the files found. *)
Lemma process_pdfs_to_vectors_records pattern max w vs v :
  out (vector_db.process_pdfs_to_vectors E pattern max w) = Returns vs ->
  v ∈ vs ->
  exists path,
    path ∈ glob_glob E pattern w
    /\ record_from E max
         (trace (vector_db.process_pdfs_to_vectors E pattern max w)) path v.
Proof.
  rewrite process_pdfs_to_vectors_run.
  destruct (glob_glob E pattern w) as [|p ps] eqn:Hglob; simpl.
  { intros [= <-] Hv. by apply elem_of_nil in Hv. }
  intros Hout Hv.
  pose proof (for_invariant
    (fun acc t => forall v, v ∈ acc ->
       exists path, path ∈ p :: ps /\ record_from E max t path v)
    (p :: ps) (vector_db.process_file E max)) as Hinv.
  destruct (Hinv) with (s := @nil (vector (float E))) (w := w)
    (t := @nil (event (float E))) (s' := vs) (v := v) as (path & Hpath & Hrec);
    [ | | done | done | ].
  - intros path acc w0 t acc' Hpath Hacc Hret v0 Hv0.
    apply process_file_records in Hret as (new & -> & Hnew).
    apply elem_of_app in Hv0 as [Hv0|Hv0].
    + destruct (Hacc v0 Hv0) as (path0 & Hpath0 & Hrec0).
      exists path0. split; [done|].
      eapply record_from_mono; [|done]. set_solver.
    + exists path. split; [done|].
      eapply record_from_mono; [|by eapply Forall_forall in Hnew].
      set_solver.
  - intros v0 Hv0. by apply elem_of_nil in Hv0.
  - exists path. split; [done|].
    eapply record_from_mono; [|done]. set_solver.
Qed.

(** The loop over the chunks of one document, reply by reply. *)
Lemma embed_chunks_replies filename chunks ics acc w :
  exists replies,
    length replies = length ics
    /\ trace (for_ ics (vector_db.embed_chunk E filename chunks) acc w)
       = concat (zip_with (embed_events filename) ics replies)
    /\ out (for_ ics (vector_db.embed_chunk E filename chunks) acc w)
       = Returns (acc ++ omap id (zip_with (embed_record E filename chunks)
                                    ics replies)).
Proof.
  revert acc w. induction ics as [|[idx chunk] ics IH]; intros acc w.
  - exists []. simpl. by rewrite app_nil_r.
  - rewrite for_cons_run, embed_chunk_run.
    destruct (co_embed E [chunk] "embed-english-v3.0" "search_document" w)
      as [[[|emb embs]|e] w1]; cbn [out trace final].
    + destruct (IH acc w1) as (replies & Hlen & Htrace & Hout).
      exists (Ok [] :: replies). rewrite Htrace, Hout.
      split_and!; [simpl; by f_equal | done | done].
    + destruct (IH (acc ++ [vector_db.make_vector E filename chunks idx chunk
                              emb]) w1) as (replies & Hlen & Htrace & Hout).
      exists (Ok (emb :: embs) :: replies). rewrite Htrace, Hout.
      split_and!; [simpl; by f_equal | done |].
      simpl. by rewrite <- (assoc_L (++)).
    + destruct (IH acc w1) as (replies & Hlen & Htrace & Hout).
      exists (Err e :: replies). rewrite Htrace, Hout.
      split_and!; [simpl; by f_equal | done | done].
Qed.

(** One iteration of the loop over the files, as the run of a document. *)
Lemma process_file_document max path acc w :
  default_overlap < max -> tokenizer_accepts E path ->
  exists d : document E,
    document_complete E max d
    /\ trace (vector_db.process_file E max path acc w)
       = document_events E max path d
    /\ out (vector_db.process_file E max path acc w)
       = Returns (acc ++ document_records E max path d).
Proof.
  intros Hmax Htok. specialize (Htok w). rewrite process_file_run. cbv zeta.
  unfold document_complete, document_events, document_records,
    document_chunks.
  destruct (fitz_get_text E path w) as [[pages|e] w1].
  - destruct (Py.truthy (str_strip E (vector_db.join_pages pages))) eqn:Htext.
    + rewrite Htok.
      destruct (chunk_text_by_tokens (encode E) (decode E)
                  (str_strip E (vector_db.join_pages pages)) max
                  default_overlap) as [chunks|] eqn:Hchunks;
        [|by rewrite chunk_text_by_tokens_windows in Hchunks].
      destruct (embed_chunks_replies (os_path_basename E path) chunks
                  (Py.enumerate chunks) acc w1)
        as (replies & Hlen & Htrace & Hout).
      exists (Ok pages, replies). cbn [fst snd out trace].
      rewrite Htext, Hchunks. cbn [default from_option id].
      split_and!; [by rewrite Hlen, enumerate_length | by rewrite Htrace | done].
    + exists (Ok pages, []). cbn [fst snd out trace]. rewrite Htext.
      split_and!; [done | done | by rewrite app_nil_r].
  - exists (Err e, []). cbn [fst snd out trace].
    split_and!; [done | done | by rewrite app_nil_r].
Qed.

(** The loop over the files, document by document. *)
Lemma process_files_documents max files acc w :
  default_overlap < max -> Forall (tokenizer_accepts E) files ->
  exists ds : list (document E),
    length ds = length files
    /\ Forall (document_complete E max) ds
    /\ trace (for_ files (vector_db.process_file E max) acc w)
       = concat (zip_with (document_events E max) files ds)
    /\ out (for_ files (vector_db.process_file E max) acc w)
       = Returns (acc ++ concat (zip_with (document_records E max) files ds)).
Proof.
  intros Hmax Htok. revert acc w.
  induction Htok as [|path files Hpath Hfiles IH]; intros acc w.
  - exists []. simpl. by rewrite app_nil_r.
  - destruct (process_file_document max path acc w Hmax Hpath)
      as (d & Hd & Htrace & Hout).
    rewrite for_cons_run, Hout. cbn [out trace final].
    destruct (IH (acc ++ document_records E max path d)
                (final (vector_db.process_file E max path acc w)))
      as (ds & Hlen & Hds & Htrace' & Hout').
    exists (d :: ds). rewrite Htrace, Htrace', Hout'.
    split_and!; [simpl; by f_equal | by constructor | done |].
    simpl. by rewrite <- (assoc_L (++)).
Qed.

(** The events of the documents name every file. *)
Lemma document_events_visit max files (ds : list (document E)) path :
  length ds = length files -> path ∈ files ->
  Print ("Processing: " +:+ os_path_basename E path)
    ∈ concat (zip_with (document_events E max) files ds)
  /\ exists r,
       FitzRead path r ∈ concat (zip_with (document_events E max) files ds).
Proof.
  revert ds. induction files as [|p files IH]; intros ds Hlen Hpath.
  - by apply elem_of_nil in Hpath.
  - destruct ds as [|d ds]; [done|]. cbn [zip_with concat].
    apply elem_of_cons in Hpath as [->|Hpath].
    + split; [apply elem_of_app; left; by left|].
      exists d.1. apply elem_of_app. left. right. by left.
    + destruct (IH ds) as (Hproc & r & Hread); [simpl in Hlen; lia | done |].
      split.
      * apply elem_of_app. by right.
      * exists r. apply elem_of_app. by right.
Qed.

(** The exception that escapes the loop over the files. *)
Lemma process_files_raises max files acc w e :
  out (for_ files (vector_db.process_file E max) acc w) = Raises e ->
  exists path pages,
    path ∈ files
    /\ FitzRead path (Ok pages)
         ∈ trace (for_ files (vector_db.process_file E max) acc w)
    /\ encode_raises E (str_strip E (vector_db.join_pages pages)) = Some e.
Proof.
  revert acc w. induction files as [|p files IH]; intros acc w; [done|].
  rewrite for_cons_run.
  destruct (out (vector_db.process_file E max p acc w)) as [acc'|e'|]
    eqn:Hp; cbn [out trace]; [| |done].
  - intros Hout.
    destruct (IH _ _ Hout) as (path & pages & Hpath & Hread & Htok).
    exists path, pages. split_and!; [by right | | done].
    apply elem_of_app. by right.
  - intros [= ->].
    destruct (process_file_raises max p acc w e Hp) as (pages & Hread & Htok).
    exists p, pages. split_and!; [by left | done | done].
Qed.

(** With a window above the default overlap, the loop over the files does
    not hang. *)
Lemma process_files_no_hang max files acc w :
  default_overlap < max ->
  out (for_ files (vector_db.process_file E max) acc w) <> Hangs.
Proof.
  intros Hmax. revert acc w.
  induction files as [|p files IH]; intros acc w; [done|].
  rewrite for_cons_run.
  destruct (out (vector_db.process_file E max p acc w)) as [acc'|e'|]
    eqn:Hp; cbn [out]; [apply IH | done |].
  revert Hp. rewrite process_file_run. cbv zeta.
  destruct (fitz_get_text E p w) as [[pages|e0] w1]; [|done].
  destruct (Py.truthy (str_strip E (vector_db.join_pages pages))); [|done].
  destruct (encode_raises E (str_strip E (vector_db.join_pages pages)));
    [done|].
  rewrite chunk_text_by_tokens_windows by done. cbn [out].
  destruct (embed_chunks_replies (os_path_basename E p)
              (chunk_of (decode E)
                 (encode E (str_strip E (vector_db.join_pages pages)))
               <$> windows
                     (Py.len (encode E (str_strip E (vector_db.join_pages pages))))
                     max default_overlap)
              (Py.enumerate
                 (chunk_of (decode E)
                    (encode E (str_strip E (vector_db.join_pages pages)))
                  <$> windows
                        (Py.len (encode E (str_strip E (vector_db.join_pages pages))))
                        max default_overlap))
              acc w1) as (replies & _ & _ & ->).
  done.
Qed.

End IngestRunFacts.

(** C8.  For every pattern, every window and every state of the world:
    the only exception that escapes the ingestion run is one the tokenizer
    raises for the text of a file that was read; every failed read is logged
    with its path and its exception and the file is logged as skipped; the
    iteration of a file that cannot be read prints exactly these lines,
    appends no record and hands the records collected so far to the next
    iteration.  With a window above the default overlap of the chunker (the
    default window is) and a tokenizer that accepts the text of the files
    found, the run returns; it processes and reads every file found, in
    order; the reader has one reply for each file and the embedding service
    one for each chunk of each file that has text; the events of the run
    are those of the files in order, and the records returned are, file by
    file and chunk by chunk, the records of the chunks whose embedding call
    was answered with an embedding, where the chunks of a file with text
    are those the chunker returns for it.  A file that cannot be read
    contributes its four lines and no record. *)
Theorem ingestion_isolates_extraction_failures (E : Env) (pattern : string)
    (max : Z) (w : world E) :
  let files := glob_glob E pattern w in
  let r := vector_db.process_pdfs_to_vectors E pattern max w in
  (forall e,
     out r = Raises e ->
     exists path pages,
       path ∈ files /\ FitzRead path (Ok pages) ∈ trace r
       /\ encode_raises E (str_strip E (vector_db.join_pages pages)) = Some e)
  /\ (forall path e,
        FitzRead path (Err e) ∈ trace r ->
        Print ("Error reading " +:+ path +:+ ": " +:+ Py.str e) ∈ trace r
        /\ Print ("Skipping " +:+ os_path_basename E path
                  +:+ " - no text extracted") ∈ trace r)
  /\ (forall path policy_vectors w0 e w1,
        fitz_get_text E path w0 = (Err e, w1) ->
        vector_db.process_file E max path policy_vectors w0
        = Ran [Print ("Processing: " +:+ os_path_basename E path);
               FitzRead path (Err e);
               Print ("Error reading " +:+ path +:+ ": " +:+ Py.str e);
               Print ("Skipping " +:+ os_path_basename E path
                      +:+ " - no text extracted")]
              w1 (Returns policy_vectors))
  /\ (forall path e replies,
        document_events E max path (Err e, replies)
        = [Print ("Processing: " +:+ os_path_basename E path);
           FitzRead path (Err e);
           Print ("Error reading " +:+ path +:+ ": " +:+ Py.str e);
           Print ("Skipping " +:+ os_path_basename E path
                  +:+ " - no text extracted")]
        /\ document_records E max path (Err e, replies) = [])
  /\ (default_overlap < max ->
      Forall (tokenizer_accepts E) files ->
      exists ds : list (document E),
        length ds = length files
        /\ Forall (document_complete E max) ds
        /\ out r
           = Returns (concat (zip_with (document_records E max) files ds))
        /\ trace r
           = match files with
             | [] => [Print ("No PDFs found matching pattern: " +:+ pattern)]
             | _ :: _ =>
                 Print ("Found " +:+ pretty (Py.len files) +:+ " PDF files")
                 :: concat (zip_with (document_events E max) files ds)
             end
        /\ (forall path,
              path ∈ files ->
              Print ("Processing: " +:+ os_path_basename E path) ∈ trace r
              /\ exists r0, FitzRead path r0 ∈ trace r)
        /\ (forall pages,
              Py.truthy (str_strip E (vector_db.join_pages pages)) = true ->
              chunk_text_by_tokens (encode E) (decode E)
                (str_strip E (vector_db.join_pages pages)) max default_overlap
              = Some (document_chunks E max (Ok pages)))).
Proof.
  cbv zeta. split_and!.
  - intros e. rewrite process_pdfs_to_vectors_run.
    destruct (glob_glob E pattern w) as [|p ps]; [done|].
    cbv zeta. cbn [out trace]. intros Hout.
    destruct (process_files_raises E max (p :: ps) [] w e Hout)
      as (path & pages & Hpath & Hread & Htok).
    exists path, pages. split_and!; [done | by right | done].
  - intros path e. rewrite process_pdfs_to_vectors_run.
    destruct (glob_glob E pattern w) as [|p ps]; cbv zeta; cbn [trace].
    { rewrite elem_of_cons, elem_of_nil. naive_solver. }
    rewrite !elem_of_cons. intros [H|H]; [done|].
    enough (Print ("Error reading " +:+ path +:+ ": " +:+ Py.str e)
              ∈ trace (for_ (p :: ps) (vector_db.process_file E max) [] w)
            /\ Print ("Skipping " +:+ os_path_basename E path
                      +:+ " - no text extracted")
              ∈ trace (for_ (p :: ps) (vector_db.process_file E max) [] w))
      by naive_solver.
    revert H.
    apply (for_trace (fun t =>
      FitzRead path (Err e) ∈ t ->
      Print ("Error reading " +:+ path +:+ ": " +:+ Py.str e) ∈ t
      /\ Print ("Skipping " +:+ os_path_basename E path
                +:+ " - no text extracted") ∈ t)).
    + intros H. by apply elem_of_nil in H.
    + intros t1 t2 H1 H2. rewrite !elem_of_app. naive_solver.
    + intros x s w' _. apply process_file_logs_failure.
  - intros path acc w0 e w1 Hread. rewrite process_file_run. simpl.
    by rewrite Hread.
  - intros path e replies. done.
  - intros Hmax Htok.
    assert (forall pages,
              Py.truthy (str_strip E (vector_db.join_pages pages)) = true ->
              chunk_text_by_tokens (encode E) (decode E)
                (str_strip E (vector_db.join_pages pages)) max default_overlap
              = Some (document_chunks E max (Ok pages))) as Hchunks.
    { intros pages Htext. unfold document_chunks. cbv zeta. rewrite Htext.
      by rewrite chunk_text_by_tokens_windows. }
    rewrite process_pdfs_to_vectors_run.
    destruct (glob_glob E pattern w) as [|p ps] eqn:Hglob.
    { exists []. split_and!; [done | done | done | done | | done].
      intros path Hpath. by apply elem_of_nil in Hpath. }
    cbv zeta. cbn [out trace].
    destruct (process_files_documents E max (p :: ps) [] w Hmax Htok)
      as (ds & Hlen & Hcomplete & Htrace & Hout).
    exists ds. split_and!; [done | done | done | by rewrite Htrace | | done].
    intros path Hpath. rewrite Htrace.
    destruct (document_events_visit E max (p :: ps) ds path Hlen Hpath)
      as (Hproc & r0 & Hread).
    split; [by right | exists r0; by right].
Qed.

(** The example of the specification: of three documents the second cannot
    be opened; the run returns the records of the other two and logs the
    failure. *)
Lemma ingestion_isolates_extraction_failures_witness :
  (default_overlap < 6000
   /\ Forall (tokenizer_accepts Fixture.three_files_env)
        (glob_glob Fixture.three_files_env "policies/*.pdf" 0%nat))
  /\ exists ds : list (document Fixture.three_files_env),
       length ds = 3%nat
       /\ out (vector_db.process_pdfs_to_vectors Fixture.three_files_env
                 "policies/*.pdf" 6000 0%nat)
          = Returns (concat (zip_with
                               (document_records Fixture.three_files_env 6000)
                               (glob_glob Fixture.three_files_env
                                  "policies/*.pdf" 0%nat) ds)).
Proof.
  assert (Forall (tokenizer_accepts Fixture.three_files_env)
            (glob_glob Fixture.three_files_env "policies/*.pdf" 0%nat))
    as Htok by (repeat constructor; intros w; reflexivity).
  split; [split; [reflexivity | exact Htok]|].
  destruct (proj2 (proj2 (proj2 (proj2
              (ingestion_isolates_extraction_failures Fixture.three_files_env
                 "policies/*.pdf" 6000 0%nat)))) eq_refl Htok)
    as (ds & Hlen & _ & Hout & _).
  exists ds. split; [exact Hlen | exact Hout].
Defined.

(** Two runs over three documents of which the second cannot be opened.
    With a window of 200 tokens the chunker does not return for the first
    document: the run hangs and the second document is never read.  And
    when the text of the first document holds a special token, the
    exception of the tokenizer escapes the run. *)
Lemma ingestion_isolation_counterexample :
  vector_db.process_pdfs_to_vectors Fixture.three_files_env "policies/*.pdf"
    200 0%nat
  = Ran [Print "Found 3 PDF files";
         Print "Processing: refunds.pdf";
         FitzRead "policies/refunds.pdf"
           (Ok ["Refunds are processed within 14 days."])]
        1%nat Hangs
  /\ vector_db.process_pdfs_to_vectors Fixture.special_token_env
       "policies/*.pdf" default_max_chunk_tokens 0%nat
     = Ran [Print "Found 3 PDF files";
            Print "Processing: prompts.pdf";
            FitzRead "policies/prompts.pdf"
              (Ok ["Stop at <|endoftext|> always."])]
           1%nat
           (Raises (Py.ValueError
                      "Encountered text corresponding to disallowed special token '<|endoftext|>'.")).
Proof. split; vm_compute; reflexivity. Qed.

(** The run of the example of the specification, event by event. *)
Example ingest_three_files :
  vector_db.process_pdfs_to_vectors Fixture.three_files_env "policies/*.pdf"
    6000 0%nat
  = Ran [Print "Found 3 PDF files";
         Print "Processing: refunds.pdf";
         FitzRead "policies/refunds.pdf"
           (Ok ["Refunds are processed within 14 days."]);
         Print "  Created 1 chunks";
         CoEmbed ["Refunds are processed within 14 days."]
           "embed-english-v3.0" "search_document" (Ok [[37]]);
         Print "Processing: broken.pdf";
         FitzRead "policies/broken.pdf"
           (Err (PyException "FileDataError" "cannot open broken document"));
         Print "Error reading policies/broken.pdf: cannot open broken document";
         Print "Skipping broken.pdf - no text extracted";
         Print "Processing: delivery.pdf";
         FitzRead "policies/delivery.pdf"
           (Ok ["Delivery takes 3 days."; ""; "Free above 50."]);
         Print "  Created 1 chunks";
         CoEmbed ["Delivery takes 3 days." +:+ Py.newline +:+ "Free above 50."]
           "embed-english-v3.0" "search_document" (Ok [[37]])]
        5%nat
        (Returns [Fixture.refunds_record; Fixture.delivery_record]).
Proof. vm_compute. reflexivity. Qed.

(** ** Retrieval: the intent of the embedding calls *)

Section RetrievalFacts.

Context (E : Env).

Lemma search_policies_intent query top_k w :
  Forall (intent_is "search_query")
    (trace (vector_db.search_policies E query top_k w)).
Proof.
  unfold vector_db.search_policies, try_except, bind.
  rewrite embed_query_run. unfold call_query, ret, print.
  destruct (co_embed E [query] "embed-english-v3.0" "search_query" w)
    as [[[|emb embs]|e] w1]; simpl; [repeat constructor | | repeat constructor].
  destruct (index_query E emb top_k true w1) as [[ms|e] w2]; simpl;
    repeat constructor.
Qed.

Lemma search_helper_intent query top_k w :
  Forall (intent_is "search_query")
    (trace (search_helper.search_faq E query top_k w)).
Proof.
  unfold search_helper.search_faq.
  retrieval_cases E query top_k w; repeat constructor.
Qed.

Lemma api_server_intent search_query w :
  Forall (intent_is "search_query")
    (trace (api_server.search_faq E search_query w)).
Proof.
  unfold api_server.search_faq.
  retrieval_cases E (api_server.query search_query)
    (api_server.top_k search_query) w; repeat constructor.
Qed.

Lemma api_vercel_intent query w :
  Forall (intent_is "search_query")
    (trace (api_vercel.search_faq E query w)).
Proof.
  unfold api_vercel.search_faq.
  destruct (Py.truthy (api_vercel.query query)); simpl; [|constructor].
  retrieval_cases E (api_vercel.query query) 3 w; repeat constructor.
Qed.

Lemma faq_intent name arguments w :
  Forall (intent_is "search_query") (trace (faq.call_tool E name arguments w)).
Proof.
  unfold faq.call_tool.
  destruct (name =? "search_faq")%string; simpl; [|constructor].
  destruct (Py.truthy (default "" (arguments !! "query"))); simpl;
    [|constructor].
  retrieval_cases E (default "" (arguments !! "query")) 3 w;
    repeat constructor.
Qed.

Lemma faq2_intent name arguments w :
  Forall (intent_is "search_query") (trace (faq2.call_tool E name arguments w)).
Proof.
  unfold faq2.call_tool.
  destruct (name =? "search_faq")%string; simpl; [|constructor].
  destruct (Py.truthy (default "" (arguments !! "query"))); simpl;
    [|constructor].
  retrieval_cases E (default "" (arguments !! "query")) 3 w;
    repeat constructor.
Qed.

Lemma openai_agent_intent query top_k w :
  Forall (intent_is "search_query")
    (trace (openai_agent.search_faq E query top_k w)).
Proof.
  unfold openai_agent.search_faq.
  retrieval_cases E query top_k w; repeat constructor.
Qed.

End RetrievalFacts.

(** C7.  [embed_text] calls the embedding service with intent
    [search_document] and [embed_query] with [search_query]; every
    embedding call of an ingestion run has intent [search_document]; and
    every embedding call of a retrieval, in each of the seven entry points,
    has intent [search_query]. *)
Theorem embedding_intents_never_swapped (E : Env) :
  (forall text w,
     exists r t,
       trace (vector_db.embed_text E text w)
       = CoEmbed [text] "embed-english-v3.0" "search_document" r :: t
       /\ Forall (intent_is "search_document")
            (trace (vector_db.embed_text E text w)))
  /\ (forall text w,
        exists r t,
          trace (vector_db.embed_query E text w)
          = CoEmbed [text] "embed-english-v3.0" "search_query" r :: t
          /\ Forall (intent_is "search_query")
               (trace (vector_db.embed_query E text w)))
  /\ (forall pattern max w,
        Forall (intent_is "search_document")
          (trace (vector_db.process_pdfs_to_vectors E pattern max w)))
  /\ (forall query top_k w,
        Forall (intent_is "search_query")
          (trace (vector_db.search_policies E query top_k w)))
  /\ (forall query top_k w,
        (exists r t,
           trace (search_helper.search_faq E query top_k w)
           = CoEmbed [query] "embed-english-v3.0" "search_query" r :: t)
        /\ Forall (intent_is "search_query")
             (trace (search_helper.search_faq E query top_k w)))
  /\ (forall search_query w,
        Forall (intent_is "search_query")
          (trace (api_server.search_faq E search_query w)))
  /\ (forall query w,
        Forall (intent_is "search_query")
          (trace (api_vercel.search_faq E query w)))
  /\ (forall name arguments w,
        Forall (intent_is "search_query")
          (trace (faq.call_tool E name arguments w)))
  /\ (forall name arguments w,
        Forall (intent_is "search_query")
          (trace (faq2.call_tool E name arguments w)))
  /\ (forall query top_k w,
        Forall (intent_is "search_query")
          (trace (openai_agent.search_faq E query top_k w))).
Proof.
  split_and!.
  - intros text w. rewrite embed_text_run.
    destruct (co_embed E [text] "embed-english-v3.0" "search_document" w)
      as [[[|emb embs]|e] w1]; simpl; do 2 eexists;
      (split; [done | repeat constructor]).
  - intros text w. rewrite embed_query_run.
    destruct (co_embed E [text] "embed-english-v3.0" "search_query" w)
      as [[[|emb embs]|e] w1]; simpl; do 2 eexists;
      (split; [done | repeat constructor]).
  - intros pattern max w. rewrite process_pdfs_to_vectors_run.
    destruct (glob_glob E pattern w) as [|p ps]; cbv zeta; cbn [trace];
      [repeat constructor|].
    apply Forall_cons. split; [done|].
    apply (for_trace (Forall (intent_is "search_document")));
      [done | intros t1 t2 H1 H2; by apply Forall_app | ].
    intros path acc w' _. apply process_file_intent.
  - apply search_policies_intent.
  - intros query top_k w. split; [|apply search_helper_intent].
    unfold search_helper.search_faq.
    retrieval_cases E query top_k w; by do 2 eexists.
  - apply api_server_intent.
  - apply api_vercel_intent.
  - apply faq_intent.
  - apply faq2_intent.
  - apply openai_agent_intent.
Qed.

(** ** Record ids and chunk counts *)

Lemma record_id_inj (E : Env) (filename : string) (i j : Z) :
  record_id E filename i = record_id E filename j -> i = j.
Proof.
  unfold record_id. intros H.
  apply (inj (String.append _)) in H.
  apply (inj (String.append _)) in H.
  by apply (inj pretty) in H.
Qed.

Lemma record_key_fst (E : Env) (filename : string) (chunks : list string)
    (ics : list (Z * string)) :
  (record_key E filename chunks <$> ics).*1 = record_id E filename <$> ics.*1.
Proof.
  rewrite <- !list_fmap_compose. apply list_fmap_ext. by intros _ [idx chunk] _.
Qed.

(** The fields of a record made from a chunk of the text of [path]. *)
Lemma record_from_fields (E : Env) (max : Z) (t : list (event (float E)))
    (path : string) (v : vector (float E)) :
  record_from E max t path v ->
  exists pages chunks,
    FitzRead path (Ok pages) ∈ t
    /\ chunk_text_by_tokens (encode E) (decode E)
         (str_strip E (vector_db.join_pages pages)) max default_overlap
       = Some chunks
    /\ md_source (vec_metadata v) = os_path_basename E path
    /\ md_total_chunks (vec_metadata v) = Py.len chunks
    /\ 0 <= md_chunk_index (vec_metadata v) < Py.len chunks
    /\ vec_id v
       = record_id E (md_source (vec_metadata v))
           (md_chunk_index (vec_metadata v)).
Proof.
  intros (pages & chunks & ic & Hread & Hchunks & Hic & Hkey).
  apply elem_of_enumerate in Hic as [Hidx _].
  unfold record_key, vector_db.make_vector in Hkey.
  cbv zeta in Hkey. cbn [vec_id vec_metadata] in Hkey.
  injection Hkey as Hid Hmd.
  exists pages, chunks. rewrite Hmd, Hid.
  cbn [md_source md_chunk_index md_total_chunks]. split_and!; (done || lia).
Qed.

(** C6.  Every record of an ingestion run has the id
    [record_id (source, chunk_index)], a function of the file name without
    extension and of the zero-based chunk index alone, where [source] is the
    base name of one of the files found; for one file name, distinct indices
    give distinct ids.  Hence two runs, in any two states of the world,
    give the same id to the same chunk of the same document; and for one
    document chunked the same way, the ids of either run are drawn in order,
    none twice, from the ids of its chunks, and are the same list when no
    embedding fails. *)
Theorem record_ids_deterministic (E : Env) :
  (forall pattern max w vs v,
     out (vector_db.process_pdfs_to_vectors E pattern max w) = Returns vs ->
     v ∈ vs ->
     vec_id v
     = record_id E (md_source (vec_metadata v)) (md_chunk_index (vec_metadata v))
     /\ 0 <= md_chunk_index (vec_metadata v) < md_total_chunks (vec_metadata v)
     /\ exists path,
          path ∈ glob_glob E pattern w
          /\ md_source (vec_metadata v) = os_path_basename E path)
  /\ (forall filename i j,
        record_id E filename i = record_id E filename j -> i = j)
  /\ (forall pattern1 pattern2 max1 max2 w1 w2 vs1 vs2 v1 v2,
        out (vector_db.process_pdfs_to_vectors E pattern1 max1 w1)
        = Returns vs1 ->
        out (vector_db.process_pdfs_to_vectors E pattern2 max2 w2)
        = Returns vs2 ->
        v1 ∈ vs1 -> v2 ∈ vs2 ->
        md_source (vec_metadata v1) = md_source (vec_metadata v2) ->
        md_chunk_index (vec_metadata v1) = md_chunk_index (vec_metadata v2) ->
        vec_id v1 = vec_id v2)
  /\ (forall filename chunks acc1 acc2 w1 w2,
        let ids := record_id E filename <$> seqZ 0 (Py.len chunks) in
        exists new1 new2,
          out (for_ (Py.enumerate chunks)
                 (vector_db.embed_chunk E filename chunks) acc1 w1)
          = Returns (acc1 ++ new1)
          /\ out (for_ (Py.enumerate chunks)
                    (vector_db.embed_chunk E filename chunks) acc2 w2)
             = Returns (acc2 ++ new2)
          /\ sublist (vec_id <$> new1) ids
          /\ sublist (vec_id <$> new2) ids
          /\ NoDup ids
          /\ (length new1 = length chunks -> length new2 = length chunks ->
              vec_id <$> new1 = vec_id <$> new2)).
Proof.
  assert (forall pattern max w vs v,
            out (vector_db.process_pdfs_to_vectors E pattern max w)
            = Returns vs ->
            v ∈ vs ->
            vec_id v
            = record_id E (md_source (vec_metadata v))
                (md_chunk_index (vec_metadata v))
            /\ 0 <= md_chunk_index (vec_metadata v)
               < md_total_chunks (vec_metadata v)
            /\ exists path,
                 path ∈ glob_glob E pattern w
                 /\ md_source (vec_metadata v) = os_path_basename E path)
    as Hrun.
  { intros pattern max w vs v Hout Hv.
    destruct (process_pdfs_to_vectors_records E pattern max w vs v Hout Hv)
      as (path & Hpath & Hrec).
    apply record_from_fields in Hrec
      as (pages & chunks & _ & _ & Hsrc & Htotal & Hidx & Hid).
    split_and!; [done | lia | lia | by exists path]. }
  split_and!.
  - done.
  - intros filename i j. apply record_id_inj.
  - intros pattern1 pattern2 max1 max2 w1 w2 vs1 vs2 v1 v2
      Hout1 Hout2 Hv1 Hv2 Hsrc Hidx.
    destruct (Hrun _ _ _ _ _ Hout1 Hv1) as (-> & _).
    destruct (Hrun _ _ _ _ _ Hout2 Hv2) as (-> & _).
    by rewrite Hsrc, Hidx.
  - intros filename chunks acc1 acc2 w1 w2 ids.
    destruct (embed_chunks_run E filename chunks (Py.enumerate chunks) acc1 w1)
      as (new1 & Hout1 & Hsub1 & _).
    destruct (embed_chunks_run E filename chunks (Py.enumerate chunks) acc2 w2)
      as (new2 & Hout2 & Hsub2 & _).
    assert (forall new : list (vector (float E)),
              sublist ((fun v => (vec_id v, vec_metadata v)) <$> new)
                (record_key E filename chunks <$> Py.enumerate chunks) ->
              sublist (vec_id <$> new) ids) as Hids.
    { intros new Hsub. apply (sublist_fmap fst) in Hsub.
      rewrite <- list_fmap_compose in Hsub.
      unfold ids.
      by rewrite <- enumerate_fst, <- (record_key_fst E filename chunks). }
    exists new1, new2. split_and!; [done | done | by apply Hids..| | ].
    + apply NoDup_fmap_2_strong; [|apply NoDup_seqZ].
      intros i j _ _. apply record_id_inj.
    + intros Hlen1 Hlen2.
      assert (length ids = length chunks) as Hlen.
      { unfold ids. rewrite length_fmap, length_seqZ. unfold Py.len. lia. }
      rewrite (sublist_same_length _ _ (Hids new1 Hsub1))
        by (rewrite length_fmap; lia).
      rewrite (sublist_same_length _ _ (Hids new2 Hsub2))
        by (rewrite length_fmap; lia).
      done.
Qed.

Lemma record_ids_deterministic_witness :
  (out (vector_db.process_pdfs_to_vectors Fixture.three_files_env
          "policies/*.pdf" 6000 0%nat)
   = Returns [Fixture.refunds_record; Fixture.delivery_record]
   /\ Fixture.delivery_record
      ∈ [Fixture.refunds_record; Fixture.delivery_record])
  /\ vec_id Fixture.delivery_record
     = record_id Fixture.three_files_env
         (md_source (vec_metadata Fixture.delivery_record))
         (md_chunk_index (vec_metadata Fixture.delivery_record)).
Proof.
  assert (out (vector_db.process_pdfs_to_vectors Fixture.three_files_env
                 "policies/*.pdf" 6000 0%nat)
          = Returns [Fixture.refunds_record; Fixture.delivery_record]) as Hout
    by (vm_compute; reflexivity).
  assert (Fixture.delivery_record
          ∈ [Fixture.refunds_record; Fixture.delivery_record]) as Hin
    by (right; left).
  split; [by split|].
  apply (proj1 (proj1 (record_ids_deterministic Fixture.three_files_env)
                  "policies/*.pdf" 6000 0%nat _ _ Hout Hin)).
Defined.

(** C10.  The loop over the chunks of a document returns; every record it
    appends carries the number of chunks of the document as [total_chunks];
    it appends one record for each embedding call answered with an
    embedding, out of one call for each chunk, so at most as many records
    as chunks.  In a whole run, [total_chunks] of every record is the number
    of chunks the chunker produced for the text read from its file.  And
    there is a run in which a document of three chunks yields two records,
    each with [total_chunks] 3. *)
Theorem total_chunks_counts_all_chunks :
  (forall (E : Env) filename chunks acc w,
     let r := for_ (Py.enumerate chunks)
                (vector_db.embed_chunk E filename chunks) acc w in
     exists new,
       out r = Returns (acc ++ new)
       /\ Forall (fun v => md_total_chunks (vec_metadata v) = Py.len chunks) new
       /\ length new = length (List.filter embed_ok (trace r))
       /\ length chunks = length (List.filter is_embed (trace r))
       /\ (length new <= length chunks)%nat)
  /\ (forall (E : Env) pattern max w vs v,
        out (vector_db.process_pdfs_to_vectors E pattern max w) = Returns vs ->
        v ∈ vs ->
        exists path pages chunks,
          path ∈ glob_glob E pattern w
          /\ FitzRead path (Ok pages)
               ∈ trace (vector_db.process_pdfs_to_vectors E pattern max w)
          /\ chunk_text_by_tokens (encode E) (decode E)
               (str_strip E (vector_db.join_pages pages)) max default_overlap
             = Some chunks
          /\ md_source (vec_metadata v) = os_path_basename E path
          /\ md_total_chunks (vec_metadata v) = Py.len chunks)
  /\ (exists vs,
        out (vector_db.process_pdfs_to_vectors Fixture.abc_env
               "policies/*.pdf" 201 0%nat) = Returns vs
        /\ Py.len vs = 2
        /\ Forall (fun v => md_source (vec_metadata v) = "abc.pdf"
                            /\ md_total_chunks (vec_metadata v) = 3) vs).
Proof.
  split_and!.
  - intros E filename chunks acc w r.
    destruct (embed_chunks_run E filename chunks (Py.enumerate chunks) acc w)
      as (new & Hout & Hsub & Hok & Hall).
    exists new. split_and!; [done | | done | by rewrite enumerate_length in Hall | ].
    + apply Forall_forall. intros v Hv.
      assert ((vec_id v, vec_metadata v)
              ∈ record_key E filename chunks <$> Py.enumerate chunks) as Hkey.
      { eapply elem_of_sublist; [|done]. apply list_elem_of_fmap. by exists v. }
      apply list_elem_of_fmap in Hkey as (ic & Hkey & _).
      unfold record_key, vector_db.make_vector in Hkey.
      cbv zeta in Hkey. cbn [vec_id vec_metadata] in Hkey.
      by injection Hkey as _ ->.
    + apply sublist_length in Hsub.
      rewrite !length_fmap, enumerate_length in Hsub. done.
  - intros E pattern max w vs v Hout Hv.
    destruct (process_pdfs_to_vectors_records E pattern max w vs v Hout Hv)
      as (path & Hpath & Hrec).
    apply record_from_fields in Hrec
      as (pages & chunks & Hread & Hchunks & Hsrc & Htotal & _).
    by exists path, pages, chunks.
  - eexists. split; [vm_compute; reflexivity|].
    split; [reflexivity|]. repeat constructor.
Qed.

Lemma total_chunks_counts_all_chunks_witness :
  (out (vector_db.process_pdfs_to_vectors Fixture.three_files_env
          "policies/*.pdf" 6000 0%nat)
   = Returns [Fixture.refunds_record; Fixture.delivery_record]
   /\ Fixture.refunds_record
      ∈ [Fixture.refunds_record; Fixture.delivery_record])
  /\ exists path pages chunks,
       path ∈ glob_glob Fixture.three_files_env "policies/*.pdf" 0%nat
       /\ FitzRead path (Ok pages)
            ∈ trace (vector_db.process_pdfs_to_vectors Fixture.three_files_env
                       "policies/*.pdf" 6000 0%nat)
       /\ chunk_text_by_tokens (encode Fixture.three_files_env)
            (decode Fixture.three_files_env)
            (str_strip Fixture.three_files_env (vector_db.join_pages pages))
            6000 default_overlap
          = Some chunks
       /\ md_source (vec_metadata Fixture.refunds_record)
          = os_path_basename Fixture.three_files_env path
       /\ md_total_chunks (vec_metadata Fixture.refunds_record) = Py.len chunks.
Proof.
  assert (out (vector_db.process_pdfs_to_vectors Fixture.three_files_env
                 "policies/*.pdf" 6000 0%nat)
          = Returns [Fixture.refunds_record; Fixture.delivery_record]) as Hout
    by (vm_compute; reflexivity).
  assert (Fixture.refunds_record
          ∈ [Fixture.refunds_record; Fixture.delivery_record]) as Hin
    by left.
  split; [by split|].
  apply (proj1 (proj2 total_chunks_counts_all_chunks)
           Fixture.three_files_env "policies/*.pdf" 6000 0%nat _ _ Hout Hin).
Defined.

(** ** vector_db.py: upsert *)

Lemma slice_nonneg {A} (l : list A) (s e : Z) :
  0 <= s -> 0 <= e ->
  Py.slice l s e = take (Z.to_nat (e - s)) (drop (Z.to_nat s) l).
Proof.
  intros Hs He. unfold Py.slice. rewrite !adjust_nonneg by done.
  pose proof (len_nonneg l) as Hl. unfold Py.len in *.
  destruct (Z.le_gt_cases s (Z.of_nat (length l))) as [Hle|Hgt].
  - rewrite (Z.min_l s) by done.
    destruct (Z.le_gt_cases e (Z.of_nat (length l))) as [Hle'|Hgt'].
    + by rewrite (Z.min_l e) by done.
    + rewrite (Z.min_r e) by lia.
      rewrite !take_ge; [done | rewrite length_drop; lia..].
  - rewrite !drop_ge by lia. by rewrite !take_nil.
Qed.

Lemma range_positive_step (n step : Z) :
  0 < step ->
  Py.range 0 n step
  = Some ((fun k => k * step) <$> seqZ 0 (Py.ceil_div n step)).
Proof.
  intros Hstep. unfold Py.range.
  destruct (Z.eqb_spec step 0) as [?|_]; [lia|].
  destruct (Z.ltb_spec 0 step) as [_|?]; [|lia].
  by rewrite Z.sub_0_r.
Qed.

(** The batches are consecutive pieces of the list. *)
Lemma batches_concat {A} (l : list A) (batch_size : Z) :
  0 < batch_size ->
  concat (batches l batch_size (batch_starts l batch_size)) = l.
Proof.
  intros Hbs. unfold batches, batch_starts.
  remember (Z.to_nat (Py.ceil_div (Py.len l) batch_size)) as c eqn:Hc.
  revert l Hc. induction c as [|c IH]; intros l Hc.
  - rewrite seqZ_nil by lia. simpl.
    destruct l as [|x l]; [done|].
    pose proof (ceil_div_pos (Py.len (x :: l)) batch_size Hbs
                  ltac:(unfold Py.len; simpl; lia)). lia.
  - rewrite seqZ_cons by lia. rewrite !fmap_cons. simpl.
    rewrite slice_nonneg by lia.
    rewrite Z.sub_0_r. simpl. rewrite <- (take_drop (Z.to_nat batch_size) l) at 3.
    f_equal.
    rewrite <- (IH (drop (Z.to_nat batch_size) l)).
    + f_equal. rewrite <- (fmap_add_seqZ 1 0), <- !list_fmap_compose.
      assert (Py.len (drop (Z.to_nat batch_size) l) <= Py.len l - batch_size
              \/ Py.len l <= batch_size) as Hlen.
      { unfold Py.len. rewrite length_drop. lia. }
      assert (Z.pred (Py.ceil_div (Py.len l) batch_size)
              = Py.ceil_div (Py.len (drop (Z.to_nat batch_size) l)) batch_size
              \/ (Z.pred (Py.ceil_div (Py.len l) batch_size) <= 0
                  /\ Py.ceil_div (Py.len (drop (Z.to_nat batch_size) l))
                       batch_size <= 0)) as [->|[Hz1 Hz2]].
      { destruct (Z.le_gt_cases (Py.len l) batch_size) as [Hsmall|Hbig].
        - right. split.
          + pose proof (ceil_div_bounds (Py.len l) batch_size Hbs). nia.
          + apply ceil_div_nonpos; [done|].
            unfold Py.len in *. rewrite length_drop. lia.
        - left. rewrite <- Z.sub_1_r, <- ceil_div_step by done. f_equal.
          unfold Py.len in *. rewrite length_drop. lia. }
      * apply list_fmap_ext. intros n k Hk. simpl.
        apply list_elem_of_lookup_2, elem_of_seqZ in Hk.
        rewrite !slice_nonneg by nia. rewrite drop_drop. f_equal; [lia|].
        f_equal. nia.
      * by rewrite !seqZ_nil by done.
    + pose proof (ceil_div_pos (Py.len l) batch_size Hbs) as Hpos.
      destruct (Z.le_gt_cases (Py.len l) batch_size) as [Hsmall|Hbig].
      * assert (Py.ceil_div (Py.len (drop (Z.to_nat batch_size) l)) batch_size
                <= 0) as Hz.
        { apply ceil_div_nonpos; [done|].
          unfold Py.len in *. rewrite length_drop. lia. }
        pose proof (ceil_div_bounds (Py.len l) batch_size Hbs). nia.
      * replace (Py.len (drop (Z.to_nat batch_size) l))
          with (Py.len l - batch_size)
          by (unfold Py.len in *; rewrite length_drop; lia).
        rewrite ceil_div_step by done. lia.
Qed.

(** No batch is empty and none is larger than the batch size. *)
Lemma batches_size {A} (l : list A) (batch_size : Z) :
  0 < batch_size ->
  Forall (fun b => 0 < Py.len b <= batch_size)
    (batches l batch_size (batch_starts l batch_size)).
Proof.
  intros Hbs. unfold batches, batch_starts.
  rewrite <- list_fmap_compose. apply Forall_fmap, Forall_seqZ.
  intros k Hk. simpl. rewrite slice_len.
  pose proof (ceil_div_bounds (Py.len l) batch_size Hbs).
  rewrite !adjust_nonneg by nia. nia.
Qed.

Section UpsertFacts.

Context (E : Env).

Lemma upsert_batch_run vectors batch_size i w :
  vector_db.upsert_batch E vectors batch_size i tt w
  = let '(r, w1) :=
      index_upsert E (Py.slice vectors i (i + batch_size)) w in
    Ran (batch_events vectors batch_size i r) w1 (Returns tt).
Proof.
  unfold vector_db.upsert_batch. unfold_run.
  by destruct (index_upsert E (Py.slice vectors i (i + batch_size)) w)
    as [[[]|e] w1].
Qed.

(** The loop over the batches calls the index once for each start index,
    in order, whatever the replies, and returns. *)
Lemma upsert_loop_run vectors batch_size starts w :
  exists replies w',
    length replies = length starts
    /\ for_ starts (vector_db.upsert_batch E vectors batch_size) tt w
       = Ran (concat (zip_with (batch_events vectors batch_size) starts replies))
             w' (Returns tt).
Proof.
  revert w. induction starts as [|i starts IH]; intros w.
  - by exists [], w.
  - rewrite for_cons_run, upsert_batch_run.
    destruct (index_upsert E (Py.slice vectors i (i + batch_size)) w)
      as [r w1]. cbn [out trace final].
    destruct (IH w1) as (replies & w' & Hlen & ->).
    exists (r :: replies), w'. split; [simpl; by f_equal | done].
Qed.

Lemma upserts_app (t1 t2 : list (event (float E))) :
  upserts (t1 ++ t2) = upserts t1 ++ upserts t2.
Proof. apply omap_app. Qed.

Lemma upserts_batch_events (vectors : list (vector (float E))) batch_size
    starts replies :
  length replies = length starts ->
  upserts (concat (zip_with (batch_events vectors batch_size) starts replies))
  = zip (batches vectors batch_size starts) replies.
Proof.
  revert replies. induction starts as [|i starts IH];
    intros [|r replies] Hlen; try done.
  simpl. f_equal. apply IH. simpl in Hlen. lia.
Qed.

Lemma batch_events_report (vectors : list (vector (float E))) batch_size
    starts replies (k : nat) i r :
  starts !! k = Some i -> replies !! k = Some r ->
  Print (batch_report vectors batch_size i r)
  ∈ concat (zip_with (batch_events vectors batch_size) starts replies).
Proof.
  revert replies k. induction starts as [|j starts IH];
    intros [|r' replies] [|k] Hi Hr; try done; simpl in *.
  - injection Hi as ->. injection Hr as ->. right. by left.
  - do 2 right. by eapply IH.
Qed.

(** The whole upsert for a positive batch size. *)
Lemma upsert_to_pinecone_run (vectors : list (vector (float E))) batch_size w :
  0 < batch_size -> vectors <> [] ->
  exists replies w',
    length replies = length (batch_starts vectors batch_size)
    /\ vector_db.upsert_to_pinecone E vectors batch_size w
       = Ran ([Print ("Upserting " +:+ pretty (Py.len vectors)
                      +:+ " vectors in batches of " +:+ pretty batch_size)]
              ++ concat (zip_with (batch_events vectors batch_size)
                           (batch_starts vectors batch_size) replies)
              ++ [Print ("✓ Successfully inserted "
                         +:+ pretty (Py.len vectors) +:+ " policy chunks")])
             w' (Returns tt).
Proof.
  intros Hbs Hne.
  destruct (upsert_loop_run vectors batch_size
              (batch_starts vectors batch_size) w)
    as (replies & w' & Hlen & Hrun).
  exists replies, w'. split; [done|].
  unfold vector_db.upsert_to_pinecone.
  destruct vectors as [|v vs] eqn:Hvs; [done|]. rewrite <- Hvs in *.
  rewrite range_positive_step by done.
  fold (batch_starts vectors batch_size).
  unfold bind, print, ret. cbn [out trace final].
  rewrite Hrun. cbn [out trace final]. by rewrite app_nil_l.
Qed.

End UpsertFacts.

(** C5 (as amended).  For every non-empty list of records and every
    positive batch size, [upsert_to_pinecone] sends the records in
    consecutive non-empty batches of at most the batch size, one call for
    each batch in order whatever the replies of the earlier calls; for each
    failed call it prints the line of the error with the 1-based number of
    the batch; and it returns [None]: the value returned carries no result
    of any batch. *)
Theorem upsert_batches_best_effort (E : Env)
    (vectors : list (vector (float E))) (batch_size : Z) (w : world E) :
  0 < batch_size -> vectors <> [] ->
  let r := vector_db.upsert_to_pinecone E vectors batch_size w in
  let bs := batches vectors batch_size (batch_starts vectors batch_size) in
  out r = Returns tt
  /\ concat bs = vectors
  /\ Forall (fun b => 0 < Py.len b <= batch_size) bs
  /\ exists replies,
       length replies = length bs
       /\ upserts (trace r) = zip bs replies
       /\ forall (k : nat) e,
            replies !! k = Some (Err e) ->
            Print ("  Error upserting batch " +:+ pretty (Z.of_nat k + 1)
                   +:+ ": " +:+ Py.str e) ∈ trace r.
Proof.
  intros Hbs Hne r bs.
  destruct (upsert_to_pinecone_run E vectors batch_size w Hbs Hne)
    as (replies & w' & Hlen & Hr).
  fold r in Hr.
  split_and!.
  - by rewrite Hr.
  - by apply batches_concat.
  - by apply batches_size.
  - exists replies. split_and!.
    + unfold bs, batches. by rewrite length_fmap.
    + rewrite Hr. cbn [trace]. rewrite !upserts_app.
      rewrite upserts_batch_events by done. simpl. by rewrite app_nil_r.
    + intros k e Hk.
      assert (is_Some (batch_starts vectors batch_size !! k)) as [i Hi].
      { apply lookup_lt_is_Some. rewrite <- Hlen.
        by eapply lookup_lt_Some. }
      pose proof (batch_events_report E vectors batch_size _ _ _ _ _ Hi Hk)
        as Hin.
      unfold batch_starts in Hi. apply list_lookup_fmap_Some in Hi
        as (k' & -> & Hk'). apply lookup_seqZ in Hk' as [-> _].
      unfold batch_report in Hin. rewrite Z.add_0_l, Z.div_mul in Hin by lia.
      rewrite Hr. cbn [trace]. rewrite !elem_of_app. right. by left.
Qed.

Lemma upsert_batches_best_effort_witness :
  (0 < 2 /\ Fixture.three_vectors <> []) /\
  out (vector_db.upsert_to_pinecone Fixture.rejecting_env
         Fixture.three_vectors 2 0%nat) = Returns tt.
Proof.
  split; [split; [lia | discriminate]|].
  apply (proj1 (upsert_batches_best_effort Fixture.rejecting_env
                  Fixture.three_vectors 2 0%nat eq_refl
                  ltac:(discriminate))).
Defined.

(** C5 as stated fails: nothing of the result of the batches reaches the
    caller.  Three records in batches of 2, sent to an index that accepts
    both batches and to an index that rejects the second: 3 records are
    written in the first run and 2 in the second, the second run prints the
    error of batch 2, and both return the same [None]. *)
Lemma upsert_result_not_surfaced_counterexample :
  let r1 := vector_db.upsert_to_pinecone Fixture.accepting_env
              Fixture.three_vectors 2 0%nat in
  let r2 := vector_db.upsert_to_pinecone Fixture.rejecting_env
              Fixture.three_vectors 2 0%nat in
  records_written (trace r1) = 3
  /\ records_written (trace r2) = 2
  /\ Print "  Error upserting batch 2: request failed" ∈ trace r2
  /\ out r1 = Returns tt
  /\ out r2 = Returns tt.
Proof.
  split_and!; try (vm_compute; reflexivity).
  vm_compute trace. do 4 right. by left.
Qed.

(** Without records there is no call to the index. *)
Lemma upsert_nothing (E : Env) (batch_size : Z) (w : world E) :
  vector_db.upsert_to_pinecone E [] batch_size w
  = Ran [Print "No vectors to upsert"] w (Returns tt).
Proof. done. Qed.

(** A batch size of zero is the [ValueError] of [range]. *)
Lemma upsert_zero_batch_size (E : Env) (v : vector (float E))
    (vs : list (vector (float E))) (w : world E) :
  out (vector_db.upsert_to_pinecone E (v :: vs) 0 w)
  = Raises (Py.ValueError "range() arg 3 must not be zero").
Proof. done. Qed.

(** ** Retrieval: validation *)

(** C2 (as amended).  The handler of [api_vercel] fails an empty query with
    the HTTP 400 error [Missing 'query' parameter] before any call to the
    embedding service or to the index, and its index queries always ask for
    3 results.  No handler validates [top_k]: for a non-empty query the
    handler of [api_server] calls the embedding service first, whatever
    [top_k] is, and when an embedding comes back it queries the index with
    the caller's [top_k] unchanged. *)
Theorem retrieval_validation (E : Env) :
  (forall w,
     api_vercel.search_faq E {| api_vercel.query := "" |} w
     = Ran [] w (Raises (HTTPException 400 "Missing 'query' parameter")))
  /\ (forall query w vec top_k include_metadata r,
        IndexQuery vec top_k include_metadata r
          ∈ trace (api_vercel.search_faq E query w) ->
        top_k = 3)
  /\ (forall search_query w,
        api_server.query search_query <> "" ->
        exists r t,
          trace (api_server.search_faq E search_query w)
          = CoEmbed [api_server.query search_query] "embed-english-v3.0"
              "search_query" r :: t
          /\ forall emb embs,
               r = Ok (emb :: embs) ->
               exists r',
                 t = [IndexQuery emb (api_server.top_k search_query) true r']).
Proof.
  split_and!.
  - done.
  - intros query w vec top_k include_metadata r.
    unfold api_vercel.search_faq.
    destruct (Py.truthy (api_vercel.query query)); simpl;
      [|by rewrite elem_of_nil].
    retrieval_cases E (api_vercel.query query) 3 w;
      rewrite ?elem_of_cons, elem_of_nil; naive_solver.
  - intros search_query w _. unfold api_server.search_faq.
    retrieval_cases E (api_server.query search_query)
      (api_server.top_k search_query) w;
      do 2 eexists; (split; [done|]); intros emb' embs' Hr;
      try discriminate Hr; injection Hr as <- <-; by eexists.
Qed.

Lemma retrieval_validation_witness :
  "refund policy" <> "" /\
  exists r t,
    trace (api_server.search_faq Fixture.accepting_env
             {| api_server.query := "refund policy"; api_server.top_k := 5 |}
             0%nat)
    = CoEmbed ["refund policy"] "embed-english-v3.0" "search_query" r :: t
    /\ forall emb embs,
         r = Ok (emb :: embs) -> exists r', t = [IndexQuery emb 5 true r'].
Proof.
  split; [discriminate|].
  apply (proj2 (proj2 (retrieval_validation Fixture.accepting_env))
           {| api_server.query := "refund policy"; api_server.top_k := 5 |}
           0%nat).
  discriminate.
Defined.

(** C2 as stated fails: for the query ["valid question"] with [top_k = 0]
    the handler of [api_server] calls the embedding service and then the
    index, with [top_k = 0], before anything fails; the failure is the
    rejection by the index, reported as HTTP 500. *)
Lemma retrieval_validation_counterexample :
  let r := api_server.search_faq Fixture.accepting_env
             {| api_server.query := "valid question"; api_server.top_k := 0 |}
             0%nat in
  trace r
  = [CoEmbed ["valid question"] "embed-english-v3.0" "search_query"
       (Ok [[14]]);
     IndexQuery [14] 0 true
       (Err (PyException "PineconeApiException" "top_k must be positive"))]
  /\ existsb is_network_call (trace r) = true
  /\ out r = Raises (HTTPException 500 "top_k must be positive").
Proof. split_and!; vm_compute; reflexivity. Qed.

(** The tool-calling servers answer an empty or missing query with an error
    text, without any call to the services. *)
Lemma faq_call_tool_missing_query (E : Env) (arguments : gmap string string)
    (w : world E) :
  default "" (arguments !! "query") = "" ->
  faq.call_tool E "search_faq" arguments w
  = Ran [] w (Returns [ {| tc_type := "text";
                           tc_text := "Error: Missing 'query' parameter" |} ])
  /\ faq2.call_tool E "search_faq" arguments w
     = Ran [] w (Returns [ {| tc_type := "text";
                              tc_text := "Error: Missing 'query' parameter" |} ]).
Proof.
  intros Hq. unfold faq.call_tool, faq2.call_tool. simpl. by rewrite Hq.
Qed.

Lemma search_helper_search_faq_total_witness :
  co_embed (Fixture.env [] ["refund?"] [] []) ["refund?"]
    "embed-english-v3.0" "search_query" 0%nat
  = (Err (PyException "TooManyRequestsError" "rate limit exceeded"), 1%nat)
  /\ out (search_helper.search_faq (Fixture.env [] ["refund?"] [] [])
            "refund?" 3 0%nat)
     = Returns [ {["error" := VStr "rate limit exceeded"]} ].
Proof.
  split; [reflexivity|].
  apply (proj1 (proj2 (search_helper_search_faq_total
                         (Fixture.env [] ["refund?"] [] []) "refund?" 3 0%nat))
           (PyException "TooManyRequestsError" "rate limit exceeded") 1%nat).
  reflexivity.
Defined.

(** * Further properties *)

(** ** The chunker: sizes, losslessness and overlap *)

Lemma seqZ_max_0 (m n : Z) : seqZ m (Z.max 0 n) = seqZ m n.
Proof.
  destruct (Z.le_gt_cases n 0) as [Hn|Hn].
  - rewrite Z.max_l by done. by rewrite !seqZ_nil by lia.
  - by rewrite Z.max_r by lia.
Qed.

(** A slice of a slice is a slice of the list. *)
Lemma slice_slice {A} (l : list A) (s e a b : Z) :
  0 <= s -> 0 <= a <= b -> s + a <= e ->
  Py.slice (Py.slice l s e) a b = Py.slice l (s + a) (Z.min (s + b) e).
Proof.
  intros Hs Hab He.
  rewrite !slice_nonneg by lia.
  rewrite skipn_firstn_comm, take_take, drop_drop.
  f_equal; [lia | f_equal; lia].
Qed.

Lemma windows_in_range T W O w :
  O < W -> 0 <= T -> w ∈ windows T W O ->
  exists k, w = window W O k /\ 0 <= k /\ k * (W - O) < T.
Proof.
  intros Hstep HT Hw. apply elem_of_windows in Hw as (k & [Hk0 Hk] & ->).
  exists k. split_and!; [done | done |].
  unfold chunk_count in Hk.
  pose proof (ceil_div_bounds T (W - O) ltac:(lia)). nia.
Qed.

(** X1.  With 0 < max_tokens and overlap < max_tokens, every chunk is
    decoded from at least one and at most max_tokens tokens, and there are
    at most as many chunks as tokens. *)
Theorem chunk_sizes
    (encode : string -> list token) (decode : list token -> string)
    (text : string) (W O : Z) :
  0 < W -> O < W ->
  chunk_text_by_tokens encode decode text W O
  = Some (chunk_of decode (encode text) <$> windows (Py.len (encode text)) W O)
  /\ Forall (fun w => 0 < Py.len (Py.slice (encode text) w.1 w.2) <= W)
       (windows (Py.len (encode text)) W O)
  /\ Py.len (windows (Py.len (encode text)) W O) <= Py.len (encode text).
Proof.
  intros HW Hstep. pose proof (len_nonneg (encode text)) as HT.
  split_and!.
  - by apply chunk_text_by_tokens_windows.
  - apply Forall_forall. intros w Hw.
    apply windows_in_range in Hw as (k & -> & Hk & Hin); [|done..].
    rewrite slice_len. unfold window. cbn [fst snd].
    rewrite !adjust_nonneg by nia. nia.
  - rewrite windows_length. unfold chunk_count.
    pose proof (ceil_div_bounds (Py.len (encode text)) (W - O) ltac:(lia)).
    nia.
Qed.

Lemma chunk_sizes_witness :
  (0 < 3 /\ 1 < 3) /\
  Py.len (windows (Py.len (Fixture.char_encode "abcde")) 3 1)
  <= Py.len (Fixture.char_encode "abcde").
Proof.
  split; [lia|].
  apply (chunk_sizes Fixture.char_encode Fixture.char_decode "abcde" 3 1);
    lia.
Defined.

(** X2.  Whatever the window and the overlap, the chunker returns the
    empty list exactly for a text without tokens. *)
Theorem chunk_text_by_tokens_nil_iff
    (encode : string -> list token) (decode : list token -> string)
    (text : string) (W O : Z) :
  chunk_text_by_tokens encode decode text W O = Some [] <-> encode text = [].
Proof.
  split; [|apply chunk_text_by_tokens_no_tokens].
  intros Hnil. destruct (Z.lt_ge_cases O W) as [Hstep|Hstep].
  - rewrite chunk_text_by_tokens_windows in Hnil by done.
    injection Hnil as Hnil. apply fmap_nil_inv in Hnil.
    assert (Py.len (windows (Py.len (encode text)) W O) = 0) as Hlen
      by by rewrite Hnil.
    rewrite windows_length, chunk_count_ceil in Hlen
      by (done || apply len_nonneg).
    destruct (Z.eqb_spec (Py.len (encode text)) 0) as [Hz|Hnz].
    + unfold Py.len in Hz. by apply length_zero_iff_nil; lia.
    + pose proof (ceil_div_pos (Py.len (encode text)) (W - O) ltac:(lia)
                    ltac:(pose proof (len_nonneg (encode text)); lia)).
      lia.
  - destruct (encode text) as [|t ts] eqn:Htok; [done|].
    unfold chunk_text_by_tokens, chunk_text_by_tokens_fuel in Hnil.
    rewrite chunk_loop_hangs in Hnil; [done | lia | lia | by rewrite Htok].
Qed.

Lemma chunk_text_by_tokens_nil_iff_witness :
  Fixture.char_encode "" = [] /\
  chunk_text_by_tokens Fixture.char_encode Fixture.char_decode "" 1 1
  = Some [].
Proof.
  split; [reflexivity|].
  apply (proj2 (chunk_text_by_tokens_nil_iff Fixture.char_encode
                  Fixture.char_decode "" 1 1)).
  reflexivity.
Defined.

(** X3.  Without a negative overlap, a text of at most
    max_tokens - overlap tokens (and at least one) gives exactly one chunk,
    decoded from all its tokens. *)
Theorem chunk_text_by_tokens_single
    (encode : string -> list token) (decode : list token -> string)
    (text : string) (W O : Z) :
  0 <= O -> 0 < Py.len (encode text) <= W - O ->
  chunk_text_by_tokens encode decode text W O = Some [decode (encode text)].
Proof.
  intros HO HT. rewrite chunk_text_by_tokens_windows by lia.
  unfold windows, chunk_count.
  rewrite (ceil_div_unique (Py.len (encode text)) (W - O) 1) by lia.
  change (seqZ 0 (Z.max 0 1)) with [0]. simpl.
  unfold chunk_of, window. cbn [fst snd]. do 3 f_equal.
  rewrite slice_nonneg by lia. rewrite drop_0.
  apply take_ge. unfold Py.len in HT. lia.
Qed.

Lemma chunk_text_by_tokens_single_witness :
  (0 <= 1 /\ 0 < Py.len (Fixture.char_encode "abc") <= 4 - 1) /\
  chunk_text_by_tokens Fixture.char_encode Fixture.char_decode "abc" 4 1
  = Some [Fixture.char_decode (Fixture.char_encode "abc")].
Proof.
  split; [split; [lia | by vm_compute]|].
  apply (chunk_text_by_tokens_single Fixture.char_encode Fixture.char_decode
           "abc" 4 1); [lia | by vm_compute].
Defined.

(** X4.  Without a negative overlap nothing is lost: the first
    max_tokens - overlap tokens of the slices of the chunks, concatenated in
    order, are the token stream. *)
Theorem chunks_lossless
    (encode : string -> list token) (decode : list token -> string)
    (text : string) (W O : Z) :
  0 <= O < W ->
  chunk_text_by_tokens encode decode text W O
  = Some (chunk_of decode (encode text) <$> windows (Py.len (encode text)) W O)
  /\ concat ((fun w => Py.slice (Py.slice (encode text) w.1 w.2) 0 (W - O))
             <$> windows (Py.len (encode text)) W O)
     = encode text.
Proof.
  intros [HO Hstep]. split; [apply chunk_text_by_tokens_windows; lia|].
  transitivity (concat (batches (encode text) (W - O)
                          (batch_starts (encode text) (W - O))));
    [|apply batches_concat; lia].
  f_equal. unfold windows, chunk_count, batches, batch_starts.
  rewrite seqZ_max_0, <- !list_fmap_compose.
  apply list_fmap_ext. intros n k Hk. simpl.
  apply list_elem_of_lookup_2, elem_of_seqZ in Hk.
  rewrite slice_slice by nia. f_equal; lia.
Qed.

Lemma chunks_lossless_witness :
  0 <= 1 < 3 /\
  concat ((fun w => Py.slice (Py.slice (Fixture.char_encode "abcde") w.1 w.2)
                      0 (3 - 1))
          <$> windows (Py.len (Fixture.char_encode "abcde")) 3 1)
  = Fixture.char_encode "abcde".
Proof.
  split; [lia|].
  apply (chunks_lossless Fixture.char_encode Fixture.char_decode "abcde" 3 1).
  lia.
Defined.

Lemma windows_lookup T W O (k : nat) w :
  windows T W O !! k = Some w -> w = window W O (Z.of_nat k).
Proof.
  unfold windows. intros Hk.
  apply list_lookup_fmap_Some in Hk as (i & -> & Hi).
  apply lookup_seqZ in Hi as [-> _]. f_equal; lia.
Qed.

(** X5.  Without a negative overlap, for every two consecutive chunks the
    chunker returns, the tokens of the earlier chunk from position
    max_tokens - overlap on are the first [overlap] tokens of the later
    chunk, and there are min(overlap, totalTokens - start of the later
    chunk) of them. *)
Theorem chunks_overlap_tokens
    (encode : string -> list token) (decode : list token -> string)
    (text : string) (W O : Z) :
  0 <= O < W ->
  chunk_text_by_tokens encode decode text W O
  = Some (chunk_of decode (encode text) <$> windows (Py.len (encode text)) W O)
  /\ forall (k : nat) (w1 w2 : Z * Z),
       windows (Py.len (encode text)) W O !! k = Some w1 ->
       windows (Py.len (encode text)) W O !! S k = Some w2 ->
       Py.slice (Py.slice (encode text) w1.1 w1.2) (W - O) W
       = Py.slice (Py.slice (encode text) w2.1 w2.2) 0 O
       /\ Py.len (Py.slice (Py.slice (encode text) w2.1 w2.2) 0 O)
          = Z.min O (Py.len (encode text) - w2.1).
Proof.
  intros [HO Hstep]. split; [apply chunk_text_by_tokens_windows; lia|].
  intros k w1 w2 Hw1 Hw2.
  pose proof (len_nonneg (encode text)) as HT.
  assert (w2 ∈ windows (Py.len (encode text)) W O) as Hin
    by by eapply list_elem_of_lookup_2.
  apply windows_in_range in Hin as (k2 & Hk2 & Hk2pos & Hk2T); [|lia..].
  apply windows_lookup in Hw1 as ->. apply windows_lookup in Hw2 as ->.
  assert (k2 = Z.of_nat (S k)) as ->.
  { unfold window in Hk2. injection Hk2 as Hk2 _. nia. }
  clear Hk2. unfold window. cbn [fst snd].
  rewrite !slice_slice by nia. split; [f_equal; lia|].
  rewrite slice_len, !adjust_nonneg by nia. lia.
Qed.

Lemma chunks_overlap_tokens_witness :
  0 <= 2 < 4 /\
  chunk_text_by_tokens Fixture.char_encode Fixture.char_decode "abcdefgh" 4 2
  = Some (chunk_of Fixture.char_decode (Fixture.char_encode "abcdefgh")
          <$> windows (Py.len (Fixture.char_encode "abcdefgh")) 4 2).
Proof.
  split; [lia|].
  apply (chunks_overlap_tokens Fixture.char_encode Fixture.char_decode
           "abcdefgh" 4 2).
  lia.
Defined.

(** ** Extraction and ingestion *)

Lemma str_app_cons (c : Ascii.ascii) (s t : string) :
  String c s +:+ t = String c (s +:+ t).
Proof. reflexivity. Qed.

Lemma str_app_nil_l (s : string) : "" +:+ s = s.
Proof. reflexivity. Qed.

Lemma str_app_nil_r (s : string) : s +:+ "" = s.
Proof.
  induction s as [|c s IH]; [done|]. by rewrite str_app_cons, IH.
Qed.

Lemma str_app_assoc (s1 s2 s3 : string) :
  (s1 +:+ s2) +:+ s3 = s1 +:+ (s2 +:+ s3).
Proof.
  induction s1 as [|c s1 IH]; [done|]. by rewrite !str_app_cons, IH.
Qed.

Lemma str_take_cons (n : nat) (c : Ascii.ascii) (s : string) :
  Py.str_take n (String c s)
  = if Py.continuation c then String c (Py.str_take n s)
    else match n with
         | O => ""
         | S n' => String c (Py.str_take n' s)
         end.
Proof. by destruct n. Qed.

Lemma str_take_code_points (n : nat) (s : string) :
  Py.code_points (Py.str_take n s) = Nat.min n (Py.code_points s).
Proof.
  revert n. induction s as [|c s IH]; intros n.
  - change (Py.str_take n "") with EmptyString. simpl. lia.
  - rewrite str_take_cons. cbn [Py.code_points].
    destruct (Py.continuation c) eqn:Hc.
    + cbn [Py.code_points]. rewrite Hc. apply IH.
    + destruct n as [|n]; [done|].
      cbn [Py.code_points]. rewrite Hc, IH. lia.
Qed.

Lemma str_take_len (n : nat) (s : string) :
  Py.str_len (Py.str_take n s) = Z.min (Z.of_nat n) (Py.str_len s).
Proof. unfold Py.str_len. rewrite str_take_code_points. lia. Qed.

Lemma str_take_prefix (n : nat) (s : string) :
  exists rest, s = Py.str_take n s +:+ rest.
Proof.
  revert n. induction s as [|c s IH]; intros n; [by exists ""|].
  rewrite str_take_cons. destruct (Py.continuation c).
  - destruct (IH n) as [rest Hrest]. exists rest.
    rewrite str_app_cons. by f_equal.
  - destruct n as [|n]; [by eexists|].
    destruct (IH n) as [rest Hrest]. exists rest.
    rewrite str_app_cons. by f_equal.
Qed.

(** A string of at most [n] code points is its own prefix of [n] code
    points. *)
Lemma str_take_all (n : nat) (s : string) :
  (Py.code_points s <= n)%nat -> Py.str_take n s = s.
Proof.
  revert n. induction s as [|c s IH]; intros n Hn; [done|].
  rewrite str_take_cons. cbn [Py.code_points] in Hn.
  destruct (Py.continuation c).
  - f_equal. by apply IH.
  - destruct n as [|n]; [lia|]. f_equal. apply IH. lia.
Qed.

(** Code points, not bytes, are counted: a chunk of 301 times the letter
    e with an acute accent, two bytes each, has length 301, and its first
    300 characters are 600 bytes; a chunk of 200 of them has length 200. *)
Example str_len_code_points :
  let chunk := String.concat "" (replicate 301 "é") in
  String.length chunk = 602%nat
  /\ Py.str_len chunk = 301
  /\ Py.str_take 300 chunk = String.concat "" (replicate 300 "é")
  /\ Py.str_len (String.concat "" (replicate 200 "é")) = 200
  /\ Py.str_take 2 "déjà vu" = "dé".
Proof. vm_compute. by split_and!. Qed.

Lemma join_empty_cons (s : string) (l : list string) :
  Py.join "" (s :: l) = s +:+ Py.join "" l.
Proof. destruct l; simpl; [by rewrite str_app_nil_r | done]. Qed.

Lemma join_pages_foldl (acc : string) (pages : list string) :
  foldl (fun text page_text =>
           if Py.truthy page_text
           then text +:+ (page_text +:+ Py.newline) else text)
        acc pages
  = acc +:+ vector_db.join_pages pages.
Proof.
  unfold vector_db.join_pages. revert acc.
  induction pages as [|p pages IH]; intros acc; simpl.
  - by rewrite str_app_nil_r.
  - rewrite IH. rewrite (IH (if Py.truthy p then _ else _)).
    destruct (Py.truthy p); [|done]. simpl. by rewrite str_app_assoc.
Qed.

(** X6.  The text of a document before it is stripped is the text of its
    pages in order, each page with text followed by a newline and nothing
    for a page without text: one page with text gives that text and a
    newline, the text of a concatenation of page lists is the concatenation
    of their texts, and so the text is the concatenation, in order, of
    [page + "\n"] over the pages with text.  It is empty exactly when no
    page has text. *)
Theorem join_pages_pages (pages1 pages2 : list string) (page : string) :
  vector_db.join_pages [page]
  = (if Py.truthy page then page +:+ Py.newline else "")
  /\ vector_db.join_pages (pages1 ++ pages2)
     = vector_db.join_pages pages1 +:+ vector_db.join_pages pages2
  /\ vector_db.join_pages pages1
     = Py.join "" ((fun p => p +:+ Py.newline) <$> List.filter Py.truthy pages1)
  /\ vector_db.join_pages (List.filter Py.truthy pages1)
     = vector_db.join_pages pages1
  /\ (vector_db.join_pages pages1 = "" <-> Forall (fun p => p = "") pages1).
Proof.
  split_and!.
  - unfold vector_db.join_pages. simpl. by destruct (Py.truthy page).
  - unfold vector_db.join_pages at 1. rewrite foldl_app.
    fold (vector_db.join_pages pages1). apply join_pages_foldl.
  - induction pages1 as [|p pages IH]; [done|].
    unfold vector_db.join_pages. cbn [foldl List.filter].
    rewrite join_pages_foldl, IH.
    destruct (Py.truthy p); [|done].
    rewrite fmap_cons, join_empty_cons. by rewrite str_app_nil_l.
  - induction pages1 as [|p pages IH]; [done|].
    cbn [List.filter]. unfold vector_db.join_pages in *.
    destruct (Py.truthy p) eqn:Hp; simpl; rewrite ?Hp; [|done].
    rewrite !join_pages_foldl. unfold vector_db.join_pages. by rewrite IH.
  - induction pages1 as [|p pages IH]; [done|].
    unfold vector_db.join_pages in *. simpl.
    destruct p as [|c p]; simpl.
    + rewrite IH. split; [by constructor | by inversion 1].
    + rewrite join_pages_foldl. simpl. split; [discriminate | by inversion 1].
Qed.

Section IngestionMore.

Context (E : Env).

Lemma embed_chunk_ingestion_event filename chunks ic acc w :
  Forall ingestion_event
    (trace (vector_db.embed_chunk E filename chunks ic acc w)).
Proof.
  destruct ic as [idx chunk]. rewrite embed_chunk_run.
  destruct (co_embed E [chunk] "embed-english-v3.0" "search_document" w)
    as [[[|emb embs]|e] w1]; simpl;
    repeat (apply Forall_cons; split; [simpl; eauto|]); done.
Qed.

Lemma process_file_ingestion_event max path acc w :
  Forall ingestion_event (trace (vector_db.process_file E max path acc w)).
Proof.
  rewrite process_file_run. simpl.
  destruct (fitz_get_text E path w) as [[pages|e0] w1]; simpl;
    [|repeat constructor].
  destruct (Py.truthy (str_strip E (vector_db.join_pages pages))); simpl;
    [|repeat constructor].
  destruct (encode_raises E (str_strip E (vector_db.join_pages pages)));
    simpl; [repeat constructor|].
  destruct (chunk_text_by_tokens (encode E) (decode E)
              (str_strip E (vector_db.join_pages pages)) max
              default_overlap) as [chunks|]; simpl; [|repeat constructor].
  repeat (apply Forall_cons; split; [done|]).
  apply (for_trace (Forall ingestion_event));
    [done | intros t1 t2 H1 H2; by apply Forall_app | ].
  intros ic acc' w' _. apply embed_chunk_ingestion_event.
Qed.

(** The chunk a record was made from. *)
Lemma record_from_chunk (max : Z) (t : list (event (float E)))
    (path : string) (v : vector (float E)) :
  record_from E max t path v ->
  exists pages chunks chunk,
    FitzRead path (Ok pages) ∈ t
    /\ chunk_text_by_tokens (encode E) (decode E)
         (str_strip E (vector_db.join_pages pages)) max default_overlap
       = Some chunks
    /\ chunks !! Z.to_nat (md_chunk_index (vec_metadata v)) = Some chunk
    /\ md_content_preview (vec_metadata v) = Py.str_take 300 chunk
    /\ md_char_count (vec_metadata v) = Py.str_len chunk
    /\ md_type (vec_metadata v) = "policy".
Proof.
  intros (pages & chunks & ic & Hread & Hchunks & Hic & Hkey).
  apply elem_of_enumerate in Hic as [_ Hchunk].
  unfold record_key, vector_db.make_vector in Hkey.
  cbv zeta in Hkey. cbn [vec_id vec_metadata] in Hkey.
  injection Hkey as _ Hmd.
  exists pages, chunks, ic.2. rewrite Hmd.
  cbn [md_chunk_index md_content_preview md_char_count md_type].
  by split_and!.
Qed.

End IngestionMore.

(** X7.  An ingestion run never calls the index: besides printing and
    reading files it only calls the embedding service, each time with
    exactly one text and the model [embed-english-v3.0]. *)
Theorem ingestion_only_embeds (E : Env) (pattern : string) (max : Z)
    (w : world E) :
  Forall ingestion_event
    (trace (vector_db.process_pdfs_to_vectors E pattern max w))
  /\ upserts (trace (vector_db.process_pdfs_to_vectors E pattern max w)) = [].
Proof.
  assert (Forall ingestion_event
            (trace (vector_db.process_pdfs_to_vectors E pattern max w))) as H.
  { rewrite process_pdfs_to_vectors_run.
    destruct (glob_glob E pattern w) as [|p ps]; cbv zeta; cbn [trace];
      [repeat constructor|].
    apply Forall_cons. split; [done|].
    apply (for_trace (Forall ingestion_event));
      [done | intros t1 t2 H1 H2; by apply Forall_app | ].
    intros path acc w' _. apply process_file_ingestion_event. }
  split; [done|].
  induction H as [|ev t Hev Ht IH]; [done|].
  destruct ev; try done. 
Qed.

(** X8.  When no file found has text, because it cannot be read or because
    its stripped text is empty, the run returns no record and never calls
    the embedding service or the index, whatever the window. *)
Theorem ingestion_without_text (E : Env) (pattern : string) (max : Z)
    (w : world E) :
  (forall path w',
     path ∈ glob_glob E pattern w ->
     match fitz_get_text E path w' with
     | (Err _, _) => True
     | (Ok pages, _) =>
         Py.truthy (str_strip E (vector_db.join_pages pages)) = false
     end) ->
  out (vector_db.process_pdfs_to_vectors E pattern max w) = Returns []
  /\ network_calls (trace (vector_db.process_pdfs_to_vectors E pattern max w))
     = [].
Proof.
  intros Hno. rewrite process_pdfs_to_vectors_run.
  destruct (glob_glob E pattern w) as [|p ps] eqn:Hglob; [done|].
  cbv zeta. cbn [out trace]. unfold network_calls. cbn [List.filter is_network_call].
  generalize (p :: ps), w, Hno. clear.
  intros files. induction files as [|path files IH]; intros w Hno; [done|].
  rewrite for_cons_run, process_file_run. cbv zeta.
  pose proof (Hno path w ltac:(left)) as Hpath.
  destruct (fitz_get_text E path w) as [[pages|e] w1].
  - rewrite Hpath. cbn [out trace final].
    destruct (IH w1) as [Hout Hnet]; [intros; apply Hno; by right|].
    split; [done|]. rewrite List.filter_app. by rewrite Hnet.
  - cbn [out trace final].
    destruct (IH w1) as [Hout Hnet]; [intros; apply Hno; by right|].
    split; [done|]. rewrite List.filter_app. by rewrite Hnet.
Qed.

Lemma ingestion_without_text_witness :
  out (vector_db.process_pdfs_to_vectors Fixture.no_text_env "scans/*.pdf"
         6000 0%nat) = Returns []
  /\ network_calls
       (trace (vector_db.process_pdfs_to_vectors Fixture.no_text_env
                 "scans/*.pdf" 6000 0%nat)) = [].
Proof.
  apply (ingestion_without_text Fixture.no_text_env "scans/*.pdf" 6000 0%nat).
  intros path w' Hpath.
  change (glob_glob Fixture.no_text_env "scans/*.pdf" 0%nat)
    with ["scans/broken.pdf"; "scans/blank.pdf"] in Hpath.
  apply elem_of_cons in Hpath as [->|Hpath]; [exact I|].
  apply list_elem_of_singleton in Hpath as ->. reflexivity.
Defined.

(** X9.  Every record of an ingestion run has type [policy]; its
    char_count is the number of characters (code points) of the chunk at
    its chunk index among the chunks of its document, and its preview is
    the first 300 characters of that chunk: a prefix of the chunk of
    min(300, char_count) characters, the whole chunk when it has at most
    300. *)
Theorem record_preview_of_chunk (E : Env) (pattern : string) (max : Z)
    (w : world E) (vs : list (vector (float E))) (v : vector (float E)) :
  out (vector_db.process_pdfs_to_vectors E pattern max w) = Returns vs ->
  v ∈ vs ->
  md_type (vec_metadata v) = "policy"
  /\ Py.str_len (md_content_preview (vec_metadata v))
     = Z.min 300 (md_char_count (vec_metadata v))
  /\ exists path pages chunks chunk rest,
       path ∈ glob_glob E pattern w
       /\ FitzRead path (Ok pages)
            ∈ trace (vector_db.process_pdfs_to_vectors E pattern max w)
       /\ chunk_text_by_tokens (encode E) (decode E)
            (str_strip E (vector_db.join_pages pages)) max default_overlap
          = Some chunks
       /\ chunks !! Z.to_nat (md_chunk_index (vec_metadata v)) = Some chunk
       /\ md_char_count (vec_metadata v) = Py.str_len chunk
       /\ md_content_preview (vec_metadata v) = Py.str_take 300 chunk
       /\ chunk = md_content_preview (vec_metadata v) +:+ rest
       /\ (md_char_count (vec_metadata v) <= 300 ->
           md_content_preview (vec_metadata v) = chunk).
Proof.
  intros Hout Hv.
  destruct (process_pdfs_to_vectors_records E pattern max w vs v Hout Hv)
    as (path & Hpath & Hrec).
  apply record_from_chunk in Hrec
    as (pages & chunks & chunk & Hread & Hchunks & Hchunk & Hprev & Hcount
        & Htype).
  split_and!; [done | by rewrite Hprev, Hcount, str_take_len |].
  destruct (str_take_prefix 300 chunk) as [rest Hrest].
  exists path, pages, chunks, chunk, rest. rewrite Hprev.
  split_and!; [done.. |].
  rewrite Hcount. unfold Py.str_len. intros Hle. apply str_take_all. lia.
Qed.

Lemma record_preview_of_chunk_witness :
  (out (vector_db.process_pdfs_to_vectors Fixture.three_files_env
          "policies/*.pdf" 6000 0%nat)
   = Returns [Fixture.refunds_record; Fixture.delivery_record]
   /\ Fixture.refunds_record
      ∈ [Fixture.refunds_record; Fixture.delivery_record])
  /\ md_type (vec_metadata Fixture.refunds_record) = "policy".
Proof.
  assert (out (vector_db.process_pdfs_to_vectors Fixture.three_files_env
                 "policies/*.pdf" 6000 0%nat)
          = Returns [Fixture.refunds_record; Fixture.delivery_record]) as Hout
    by (vm_compute; reflexivity).
  assert (Fixture.refunds_record
          ∈ [Fixture.refunds_record; Fixture.delivery_record]) as Hin
    by left.
  split; [by split|].
  apply (proj1 (record_preview_of_chunk Fixture.three_files_env
                  "policies/*.pdf" 6000 0%nat _ _ Hout Hin)).
Defined.

(** ** Upsert: batch sizes and accounting *)

Lemma range_negative_step (n step : Z) :
  0 <= n -> step < 0 -> Py.range 0 n step = Some [].
Proof.
  intros Hn Hstep. unfold Py.range.
  destruct (Z.eqb_spec step 0) as [?|_]; [lia|].
  destruct (Z.ltb_spec 0 step) as [?|_]; [lia|].
  rewrite seqZ_nil; [done|].
  apply ceil_div_nonpos; lia.
Qed.

Lemma upsert_negative_batch_size_run (E : Env)
    (vectors : list (vector (float E))) (batch_size : Z) (w : world E) :
  vectors <> [] -> batch_size < 0 ->
  vector_db.upsert_to_pinecone E vectors batch_size w
  = Ran [Print ("Upserting " +:+ pretty (Py.len vectors)
                +:+ " vectors in batches of " +:+ pretty batch_size);
         Print ("✓ Successfully inserted " +:+ pretty (Py.len vectors)
                +:+ " policy chunks")]
        w (Returns tt).
Proof.
  intros Hne Hbs. unfold vector_db.upsert_to_pinecone.
  destruct vectors as [|v vs] eqn:Hvs; [done|]. rewrite <- Hvs.
  by rewrite range_negative_step by (apply len_nonneg || lia).
Qed.



(** Records written by a list of calls on non-empty batches. *)
Lemma written_of_calls {F} (brs : list (list (vector F) * reply unit)) :
  Forall (fun br => 0 < Py.len br.1) brs ->
  let written :=
    foldr (fun br n => match br.2 with
                       | Ok _ => Py.len br.1 + n
                       | Err _ => n
                       end) 0 brs in
  0 <= written <= Py.len (concat brs.*1)
  /\ (written = Py.len (concat brs.*1) <-> Forall (fun br => accepted br.2) brs).
Proof.
  induction 1 as [|[b r] brs Hb Hbrs IH]; [done|].
  cbn [foldr fmap list_fmap concat fst snd] in *.
  destruct IH as [Hrange Hiff].
  unfold Py.len in *. rewrite length_app.
  destruct r as [u|e]; cbn [accepted snd].
  - split; [lia|]. rewrite Forall_cons. cbn [snd accepted].
    split; [intros; split; [done | apply Hiff; lia] | intros [_ Hall]].
    apply Hiff in Hall. lia.
  - split; [lia|]. rewrite Forall_cons. cbn [snd accepted].
    split; [lia | by intros [[] _]].
Qed.

(** X11.  For a positive batch size and a non-empty list, the index is
    called ceil(len(vectors) / batch_size) times; the records of the
    accepted batches are at most all the records, and they are all the
    records exactly when no call failed. *)
Theorem upsert_accounting (E : Env) (vectors : list (vector (float E)))
    (batch_size : Z) (w : world E) :
  0 < batch_size -> vectors <> [] ->
  let r := vector_db.upsert_to_pinecone E vectors batch_size w in
  Py.len (upserts (trace r)) = Py.ceil_div (Py.len vectors) batch_size
  /\ 0 <= records_written (trace r) <= Py.len vectors
  /\ (records_written (trace r) = Py.len vectors
      <-> Forall (fun br => accepted br.2) (upserts (trace r))).
Proof.
  intros Hbs Hne r.
  destruct (upsert_to_pinecone_run E vectors batch_size w Hbs Hne)
    as (replies & w' & Hlen & Hr).
  fold r in Hr.
  assert (upserts (trace r)
          = zip (batches vectors batch_size (batch_starts vectors batch_size))
                replies) as Hups.
  { rewrite Hr. cbn [trace]. rewrite !upserts_app.
    rewrite upserts_batch_events by done. simpl. by rewrite app_nil_r. }
  assert (length (batches vectors batch_size (batch_starts vectors batch_size))
          = length replies) as Hlen'.
  { unfold batches. by rewrite length_fmap. }
  assert ((upserts (trace r)).*1
          = batches vectors batch_size (batch_starts vectors batch_size))
    as Hfst.
  { rewrite Hups. apply fst_zip. lia. }
  assert (Forall (fun br => 0 < Py.len br.1) (upserts (trace r))) as Hpos.
  { assert (Forall (fun b : list (vector (float E)) => 0 < Py.len b)
              (upserts (trace r)).*1) as Hpos.
    { rewrite Hfst. eapply Forall_impl; [by apply batches_size|].
      simpl. lia. }
    apply Forall_forall. intros br Hbr.
    eapply Forall_forall in Hpos; [exact Hpos|].
    apply list_elem_of_fmap. by exists br. }
  pose proof (written_of_calls (upserts (trace r)) Hpos) as Hw.
  cbv zeta in Hw. rewrite Hfst, batches_concat in Hw by done.
  split; [|exact Hw].
  rewrite Hups. unfold Py.len. rewrite length_zip_with, <- Hlen', Nat.min_id.
  unfold batches, batch_starts. rewrite !length_fmap, length_seqZ.
  pose proof (ceil_div_pos (Py.len vectors) batch_size Hbs) as Hc.
  destruct vectors; [done|]. unfold Py.len in *. simpl in *. lia.
Qed.

Lemma upsert_accounting_witness :
  (0 < 2 /\ Fixture.three_vectors <> []) /\
  Py.len (upserts (trace (vector_db.upsert_to_pinecone Fixture.rejecting_env
                            Fixture.three_vectors 2 0%nat)))
  = Py.ceil_div (Py.len Fixture.three_vectors) 2.
Proof.
  split; [split; [lia | discriminate]|].
  apply (proj1 (upsert_accounting Fixture.rejecting_env
                  Fixture.three_vectors 2 0%nat eq_refl
                  ltac:(discriminate))).
Defined.

(** X12.  For a non-empty list and a batch size other than 0 the call
    returns, and its last line is the line that reports all the records as
    inserted, whatever the index replied. *)
Theorem upsert_always_reports_success (E : Env)
    (vectors : list (vector (float E))) (batch_size : Z) (w : world E) :
  vectors <> [] -> batch_size <> 0 ->
  out (vector_db.upsert_to_pinecone E vectors batch_size w) = Returns tt
  /\ last (trace (vector_db.upsert_to_pinecone E vectors batch_size w))
     = Some (Print ("✓ Successfully inserted " +:+ pretty (Py.len vectors)
                    +:+ " policy chunks")).
Proof.
  intros Hne Hbs. destruct (Z.lt_ge_cases 0 batch_size) as [Hpos|Hneg].
  - destruct (upsert_to_pinecone_run E vectors batch_size w Hpos Hne)
      as (replies & w' & _ & ->).
    cbn [out trace]. split; [done|].
    rewrite (assoc_L (++)). apply last_snoc.
  - by rewrite upsert_negative_batch_size_run by (done || lia).
Qed.

Lemma upsert_always_reports_success_witness :
  (Fixture.three_vectors <> [] /\ 2 <> 0) /\
  last (trace (vector_db.upsert_to_pinecone Fixture.rejecting_env
                 Fixture.three_vectors 2 0%nat))
  = Some (Print ("✓ Successfully inserted "
                 +:+ pretty (Py.len Fixture.three_vectors)
                 +:+ " policy chunks")).
Proof.
  split; [split; discriminate|].
  apply (proj2 (upsert_always_reports_success Fixture.rejecting_env
                  Fixture.three_vectors 2 0%nat ltac:(discriminate)
                  ltac:(discriminate))).
Defined.

(** ** Retrieval: outcomes of the entry points *)

(** X13.  [search_policies] always returns.  When a service call fails it
    returns the empty list, as for a query without matches, after printing
    the line of the error; otherwise it returns the matches of the index
    unchanged. *)
Theorem search_policies_total (E : Env) (query : string) (top_k : Z)
    (w : world E) :
  let r := vector_db.search_policies E query top_k w in
  match failures (trace r) with
  | [] =>
      exists vec ms,
        IndexQuery vec top_k true (Ok ms) ∈ trace r /\ out r = Returns ms
  | e :: _ =>
      out r = Returns []
      /\ Print ("Error searching: " +:+ Py.str e) ∈ trace r
  end.
Proof.
  unfold vector_db.search_policies, try_except, bind.
  rewrite embed_query_run. unfold call_query, ret, print.
  destruct (co_embed E [query] "embed-english-v3.0" "search_query" w)
    as [[[|emb embs]|e] w1]; simpl.
  - split; [done|]. do 2 right. by left.
  - destruct (index_query E emb top_k true w1) as [[ms|e] w2]; simpl.
    + exists emb, ms. split; [right; by left | done].
    + split; [done|]. do 2 right. by left.
  - split; [done|]. do 2 right. by left.
Qed.

(** X14.  The handler of [api_server] never hangs.  When a service call
    fails with [e] it raises [HTTPException(500, str(e))] and nothing else;
    otherwise it returns one result for each match of the index, in order,
    with [top_k] passed on as given. *)
Theorem api_server_outcomes (E : Env) (search_query : api_server.SearchQuery)
    (w : world E) :
  let r := api_server.search_faq E search_query w in
  match failures (trace r) with
  | [] =>
      exists vec ms,
        IndexQuery vec (api_server.top_k search_query) true (Ok ms) ∈ trace r
        /\ out r = Returns (api_server.format_match E <$> ms)
  | e :: _ => out r = Raises (HTTPException 500 (Py.str e))
  end.
Proof.
  unfold api_server.search_faq.
  retrieval_cases E (api_server.query search_query)
    (api_server.top_k search_query) w; try done.
  exists emb, ms. rewrite foldl_snoc_fmap. split; [right; by left | done].
Qed.

(** X15.  The handler of [api_vercel] never hangs.  It raises
    [HTTPException] 400 exactly for the empty query, without any call, and
    [HTTPException(500, "Error: " + str(e))] when a service call fails with
    [e].  Otherwise it returns a response with [success] true, one result
    for each match of an index query for 3 results, and a message that
    counts the results. *)
Theorem api_vercel_outcomes (E : Env) (query : api_vercel.SearchQuery)
    (w : world E) :
  let r := api_vercel.search_faq E query w in
  if Py.truthy (api_vercel.query query) then
    match failures (trace r) with
    | [] =>
        exists vec ms,
          IndexQuery vec 3 true (Ok ms) ∈ trace r
          /\ out r
             = Returns
                 {| api_vercel.success := true;
                    api_vercel.results := api_vercel.format_match E <$> ms;
                    api_vercel.message :=
                      match ms with
                      | [] => "No results found."
                      | _ => "Found " +:+ pretty (Py.len ms) +:+ " results."
                      end |}
    | e :: _ => out r = Raises (HTTPException 500 ("Error: " +:+ Py.str e))
    end
  else
    api_vercel.query query = ""
    /\ r = Ran [] w (Raises (HTTPException 400 "Missing 'query' parameter")).
Proof.
  unfold api_vercel.search_faq.
  destruct (api_vercel.query query) as [|c q] eqn:Hq; [done|].
  cbn [Py.truthy negb]. cbv iota.
  retrieval_cases E (String c q) 3 w; try done.
  exists emb, ms. rewrite foldl_snoc_fmap. split; [right; by left|].
  simpl. do 2 f_equal.
  - by destruct ms.
  - destruct ms as [|m ms]; [done|]. simpl.
    do 3 f_equal. unfold Py.len. cbn [length]. do 2 f_equal.
    apply length_fmap.
Qed.

(** X16.  The tool handlers of [faq.py] and [faq2.py] are the same
    function.  For a tool other than [search_faq] they raise the
    [ValueError] of the unknown tool without any call; for [search_faq]
    they never raise and return exactly one text content: the error of the
    missing query, the error of a failed service call, or the formatted
    matches. *)
Theorem call_tool_outcomes (E : Env) (name : string)
    (arguments : gmap string string) (w : world E) :
  faq2.call_tool E name arguments w = faq.call_tool E name arguments w
  /\ (name <> "search_faq" ->
      faq.call_tool E name arguments w
      = Ran [] w (Raises (Py.ValueError ("Unknown tool: " +:+ name))))
  /\ (name = "search_faq" ->
      exists text,
        out (faq.call_tool E name arguments w)
        = Returns [ {| tc_type := "text"; tc_text := text |} ]
        /\ match failures (trace (faq.call_tool E name arguments w)) with
           | [] => True
           | e :: _ => text = "Error: " +:+ Py.str e
           end).
Proof.
  split_and!.
  - reflexivity.
  - intros Hname. unfold faq.call_tool.
    by apply String.eqb_neq in Hname as ->.
  - intros ->. unfold faq.call_tool. rewrite String.eqb_refl.
    cbn [negb]. cbv iota.
    destruct (default "" (arguments !! "query")) as [|c q];
      [by eexists|].
    cbn [Py.truthy negb]. cbv iota.
    retrieval_cases E (String c q) 3 w; by eexists.
Qed.

Lemma call_tool_outcomes_witness :
  "search" <> "search_faq" /\
  faq.call_tool Fixture.accepting_env "search" ∅ 0%nat
  = Ran [] 0%nat (Raises (Py.ValueError ("Unknown tool: " +:+ "search"))).
Proof.
  split; [discriminate|].
  apply (proj1 (proj2 (call_tool_outcomes Fixture.accepting_env "search" ∅
                         0%nat))).
  discriminate.
Defined.

(** X17.  [openai_agent.search_faq] always returns a string.  When a
    service call fails with [e] it is the JSON of the one dictionary
    [{"error": str(e)}]; otherwise it is the JSON, indented by 2, of the
    list of one dictionary for each match. *)
Theorem openai_agent_search_faq_total (E : Env) (query : string) (top_k : Z)
    (w : world E) :
  let r := openai_agent.search_faq E query top_k w in
  match failures (trace r) with
  | [] =>
      exists vec ms,
        IndexQuery vec top_k true (Ok ms) ∈ trace r
        /\ out r
           = Returns (json_dumps E
                        (JList (openai_agent.format_match E <$> ms)) (Some 2))
  | e :: _ =>
      out r
      = Returns (json_dumps E (JDict {["error" := VStr (Py.str e)]}) None)
  end.
Proof.
  unfold openai_agent.search_faq.
  retrieval_cases E query top_k w; try done.
  exists emb, ms. rewrite foldl_snoc_fmap. split; [right; by left | done].
Qed.

(** X18.  Every retrieval entry point deals with the services in the same
    way: an embedding call for the query and then, when an embedding came
    back, one index query, so at most two calls.  The handler of
    [api_server], the function of [openai_agent] and (besides its printed
    lines) [search_policies] have the trace and the final state of
    [search_helper.search_faq]; for a non-empty query so have the handler
    of [api_vercel] and the tool handler, with [top_k = 3]. *)
Theorem retrieval_entry_points_agree (E : Env) (query : string) (top_k : Z)
    (w : world E) :
  let r := search_helper.search_faq E query top_k w in
  (length (trace r) <= 2)%nat
  /\ network_calls (trace r) = trace r
  /\ (trace (api_server.search_faq E
               {| api_server.query := query; api_server.top_k := top_k |} w)
      = trace r
      /\ final (api_server.search_faq E
                  {| api_server.query := query; api_server.top_k := top_k |} w)
         = final r)
  /\ (trace (openai_agent.search_faq E query top_k w) = trace r
      /\ final (openai_agent.search_faq E query top_k w) = final r)
  /\ (network_calls (trace (vector_db.search_policies E query top_k w))
      = trace r
      /\ final (vector_db.search_policies E query top_k w) = final r)
  /\ (query <> "" ->
      let r3 := search_helper.search_faq E query 3 w in
      (trace (api_vercel.search_faq E {| api_vercel.query := query |} w)
       = trace r3
       /\ final (api_vercel.search_faq E {| api_vercel.query := query |} w)
          = final r3)
      /\ (trace (faq.call_tool E "search_faq" {["query" := query]} w)
          = trace r3
          /\ final (faq.call_tool E "search_faq" {["query" := query]} w)
             = final r3)).
Proof.
  split_and!.
  - unfold search_helper.search_faq.
    retrieval_cases E query top_k w; simpl; lia.
  - unfold search_helper.search_faq.
    retrieval_cases E query top_k w; done.
  - unfold search_helper.search_faq, api_server.search_faq.
    cbn [api_server.query api_server.top_k].
    retrieval_cases E query top_k w; done.
  - unfold search_helper.search_faq, api_server.search_faq.
    cbn [api_server.query api_server.top_k].
    retrieval_cases E query top_k w; done.
  - unfold search_helper.search_faq, openai_agent.search_faq.
    retrieval_cases E query top_k w; done.
  - unfold search_helper.search_faq, openai_agent.search_faq.
    retrieval_cases E query top_k w; done.
  - unfold vector_db.search_policies, try_except, bind.
    rewrite embed_query_run. unfold search_helper.search_faq.
    retrieval_cases E query top_k w; done.
  - unfold vector_db.search_policies, try_except, bind.
    rewrite embed_query_run. unfold search_helper.search_faq.
    retrieval_cases E query top_k w; done.
  - intros Hq. destruct query as [|c q]; [done|].
    unfold api_vercel.search_faq, faq.call_tool, search_helper.search_faq.
    rewrite String.eqb_refl, lookup_singleton_eq.
    cbn [api_vercel.query negb default from_option id Py.truthy].
    cbv iota zeta.
    retrieval_cases E (String c q) 3 w; done.
Qed.

Lemma retrieval_entry_points_agree_witness :
  "refund?" <> "" /\
  trace (api_vercel.search_faq Fixture.accepting_env
           {| api_vercel.query := "refund?" |} 0%nat)
  = trace (search_helper.search_faq Fixture.accepting_env "refund?" 3 0%nat).
Proof.
  split; [discriminate|].
  apply (proj1 (proj1 (proj2 (proj2 (proj2 (proj2 (proj2
           (retrieval_entry_points_agree Fixture.accepting_env "refund?" 3
              0%nat))))) ltac:(discriminate)))).
Defined.

(** ** The usage examples *)

Section ScriptFacts.

Context (E : Env).

Lemma bind_run_returns {A B} (m : M E A) (f : A -> M E B) (w : world E)
    (a : A) :
  out (m w) = Returns a ->
  bind m f w
  = Ran (trace (m w) ++ trace (f a (final (m w))))
        (final (f a (final (m w)))) (out (f a (final (m w)))).
Proof. intros Hout. unfold bind. by rewrite Hout. Qed.

Lemma bind_run_raises {A B} (m : M E A) (f : A -> M E B) (w : world E)
    (e : exn) :
  out (m w) = Raises e ->
  bind m f w = Ran (trace (m w)) (final (m w)) (Raises e).
Proof. intros Hout. unfold bind. by rewrite Hout. Qed.

(** With a window above the default overlap the ingestion run does not
    hang, and the only exception that escapes it is one of the tokenizer. *)
Lemma process_pdfs_to_vectors_ends pattern max w :
  default_overlap < max ->
  match out (vector_db.process_pdfs_to_vectors E pattern max w) with
  | Returns _ => True
  | Raises e => exists text, encode_raises E text = Some e
  | Hangs => False
  end.
Proof.
  intros Hmax. rewrite process_pdfs_to_vectors_run.
  destruct (glob_glob E pattern w) as [|p ps]; [done|].
  cbv zeta. cbn [out].
  destruct (out (for_ (p :: ps) (vector_db.process_file E max) [] w))
    as [vs|e|] eqn:Hout; [done | |].
  - apply process_files_raises in Hout as (path & pages & _ & _ & Htok).
    by eexists.
  - by apply process_files_no_hang in Hout.
Qed.

Lemma ingestion_event_no_upsert (t : list (event (float E))) :
  Forall ingestion_event t -> upserts t = [].
Proof.
  induction 1 as [|ev t Hev Ht IH]; [done|]. by destruct ev.
Qed.

Lemma process_pdfs_to_vectors_no_upserts pattern max w :
  upserts (trace (vector_db.process_pdfs_to_vectors E pattern max w)) = [].
Proof.
  apply ingestion_event_no_upsert.
  rewrite process_pdfs_to_vectors_run.
  destruct (glob_glob E pattern w) as [|p ps]; cbv zeta; cbn [trace];
    [repeat constructor|].
  apply Forall_cons. split; [done|].
  apply (for_trace (Forall ingestion_event));
    [done | intros t1 t2 H1 H2; by apply Forall_app | ].
  intros path acc w' _. apply process_file_ingestion_event.
Qed.

Lemma search_policies_returns query top_k w :
  exists ms,
    out (vector_db.search_policies E query top_k w) = Returns ms
    /\ upserts (trace (vector_db.search_policies E query top_k w)) = [].
Proof.
  unfold vector_db.search_policies, try_except, bind.
  rewrite embed_query_run. unfold call_query, ret, print.
  destruct (co_embed E [query] "embed-english-v3.0" "search_query" w)
    as [[[|emb embs]|e] w1]; simpl; [by eexists | | by eexists].
  destruct (index_query E emb top_k true w1) as [[ms|e] w2]; simpl;
    by eexists.
Qed.

(** The batches sent by an upsert with a positive batch size. *)
Lemma upsert_calls_batches (vectors : list (vector (float E))) batch_size w :
  0 < batch_size -> vectors <> [] ->
  out (vector_db.upsert_to_pinecone E vectors batch_size w) = Returns tt
  /\ (upserts (trace (vector_db.upsert_to_pinecone E vectors batch_size w))).*1
     = batches vectors batch_size (batch_starts vectors batch_size).
Proof.
  intros Hbs Hne.
  destruct (upsert_to_pinecone_run E vectors batch_size w Hbs Hne)
    as (replies & w' & Hlen & ->).
  cbn [out trace]. split; [done|].
  rewrite !upserts_app, upserts_batch_events by done. simpl.
  rewrite app_nil_r. apply fst_zip.
  unfold batches. rewrite length_fmap. lia.
Qed.

Lemma upserts_print (line : string) :
  upserts [Print (F := float E) line] = [].
Proof. reflexivity. Qed.

Lemma print_match_run (i : Z) (m : query_match (float E)) w :
  vector_db_main.print_match E (i, m) tt w
  = let line := Py.newline +:+ pretty i +:+ ". Score: "
                +:+ format_4f E (score m) in
    match metadata m !! "source", metadata m !! "content_preview" with
    | None, _ => Ran [Print line] w (Raises (PyException "KeyError" "'source'"))
    | Some source, None =>
        Ran [Print line; Print ("   Source: " +:+ source)] w
            (Raises (PyException "KeyError" "'content_preview'"))
    | Some source, Some content_preview =>
        Ran [Print line; Print ("   Source: " +:+ source);
             Print ("   Preview: " +:+ Py.str_take 150 content_preview
                    +:+ "...")]
            w (Returns tt)
    end.
Proof.
  unfold vector_db_main.print_match, vector_db_main.getitem. unfold_run.
  destruct (metadata m !! "source") as [source|];
    destruct (metadata m !! "content_preview") as [content_preview|]; done.
Qed.

(** The loop that prints the matches. *)
Lemma print_matches_run (ims : list (Z * query_match (float E))) w :
  let r := for_ ims (vector_db_main.print_match E) tt w in
  final r = w
  /\ upserts (trace r) = []
  /\ network_calls (trace r) = []
  /\ ((Forall printable ims.*2
       /\ out r = Returns tt
       /\ length (trace r) = (3 * length ims)%nat)
      \/ (~ Forall printable ims.*2
          /\ exists key,
               (key = "source" \/ key = "content_preview")
               /\ out r = Raises (PyException "KeyError"
                                    ("'" +:+ key +:+ "'")))).
Proof.
  induction ims as [|[i m] ims IH]; cbv zeta.
  - split_and!; [done..|]. left. by split_and!.
  - rewrite for_cons_run, print_match_run. cbv zeta.
    destruct (metadata m !! "source") as [source|] eqn:Hsrc.
    + destruct (metadata m !! "content_preview") as [preview|] eqn:Hprev.
      * cbn [out trace final]. cbv zeta in IH.
        destruct IH as (Hfinal & Hups & Hnet & Hcases).
        split_and!; [done | done | done |].
        destruct Hcases as [(Hall & Hout & Hlen)|(Hnot & key & Hkey & Hout)].
        -- left. split_and!; [|done|].
           ++ cbn [fmap list_fmap snd]. apply Forall_cons.
              split; [unfold printable; by rewrite Hsrc, Hprev | done].
           ++ rewrite length_app, Hlen. simpl. lia.
        -- right. split; [|by exists key].
           cbn [fmap list_fmap snd]. rewrite Forall_cons. by intros [_ ?].
      * cbn [out trace final]. split_and!; [done..|]. right. split.
        -- cbn [fmap list_fmap snd]. rewrite Forall_cons.
           unfold printable. rewrite Hprev. intros [[_ []] _]. done.
        -- exists "content_preview". by split; [right|].
    + cbn [out trace final]. split_and!; [done..|]. right. split.
      * cbn [fmap list_fmap snd]. rewrite Forall_cons.
        unfold printable. rewrite Hsrc. intros [[[] _] _]. done.
      * exists "source". by split; [left|].
Qed.



End ScriptFacts.



(** X20.  When the ingestion run of the usage example of [vector_db.py]
    returns, the example sends to the index exactly the records the run
    returned: in order, each once, in batches of at most 100 records, and
    in no call at all when the run returned none.  The run does not hang;
    when it raises, the exception is one of the tokenizer, it ends the
    example, and nothing is sent to the index. *)
Theorem main_upserts_every_record (E : Env) (w : world E) :
  match out (vector_db.process_pdfs_to_vectors E "policies/*.pdf"
               default_max_chunk_tokens w) with
  | Returns vs =>
      concat (upserts (trace (vector_db_main.main E w))).*1 = vs
      /\ Forall (fun b => 0 < Py.len b <= default_batch_size)
           (upserts (trace (vector_db_main.main E w))).*1
  | Raises e =>
      out (vector_db_main.main E w) = Raises e
      /\ upserts (trace (vector_db_main.main E w)) = []
      /\ exists text, encode_raises E text = Some e
  | Hangs => False
  end.
Proof.
  pose proof (process_pdfs_to_vectors_ends E "policies/*.pdf"
                default_max_chunk_tokens w eq_refl) as Hends.
  destruct (out (vector_db.process_pdfs_to_vectors E "policies/*.pdf"
                   default_max_chunk_tokens w)) as [vs|e|] eqn:Hvs;
    [| |done].
  2:{ unfold vector_db_main.main.
      rewrite (bind_run_returns E (print _) _ w tt eq_refl).
      cbn [print final trace].
      rewrite (bind_run_raises E (vector_db.process_pdfs_to_vectors E _ _) _ w
                 e Hvs).
      cbn [out trace]. rewrite !upserts_app, process_pdfs_to_vectors_no_upserts.
      by split_and!. }
  unfold vector_db_main.main.
  rewrite (bind_run_returns E (print _) _ w tt eq_refl). cbn [print final trace].
  rewrite (bind_run_returns E (vector_db.process_pdfs_to_vectors E _ _) _ w vs
             Hvs).
  cbn [trace]. rewrite !upserts_app, process_pdfs_to_vectors_no_upserts.
  cbn [upserts omap app].
  destruct vs as [|v vs'] eqn:Hvs'; [done|]. rewrite <- Hvs' in *.
  assert (vs <> []) as Hne by (rewrite Hvs'; discriminate). clear Hvs'.
  set (w1 := final (vector_db.process_pdfs_to_vectors E "policies/*.pdf"
                      default_max_chunk_tokens w)).
  rewrite (bind_run_returns E (print _) _ w1 tt eq_refl).
  cbn [print final trace].
  destruct (upsert_calls_batches E vs default_batch_size w1 eq_refl Hne)
    as [Hout2 Hbatches].
  rewrite (bind_run_returns E (vector_db.upsert_to_pinecone E vs _) _ w1 tt
             Hout2).
  set (w2 := final (vector_db.upsert_to_pinecone E vs default_batch_size w1)).
  rewrite (bind_run_returns E (print _) _ w2 tt eq_refl).
  cbn [print final trace].
  destruct (search_policies_returns E "What is the refund policy?" 3 w2)
    as (ms & Hout3 & Hups3).
  rewrite (bind_run_returns E (vector_db.search_policies E _ _) _ w2 ms Hout3).
  set (w3 := final (vector_db.search_policies E "What is the refund policy?"
                      3 w2)).
  rewrite (bind_run_returns E (print _) _ w3 tt eq_refl).
  cbn [print final trace].
  destruct (print_matches_run E (enumerate_from 1 ms) w3) as (_ & Hups4 & _).
  cbv zeta in Hups4.
  rewrite !upserts_app, Hups3, Hups4, !upserts_print.
  rewrite !app_nil_r, !app_nil_l, Hbatches.
  split; [by apply batches_concat | by apply batches_size].
Qed.

Section SearchHelperScript.

Context (E : Env) (str_float : float E -> string).

Lemma search_helper_run query top_k w :
  search_helper.search_faq E query top_k w
  = match co_embed E [query] "embed-english-v3.0" "search_query" w with
    | (Ok (emb :: embs), w1) =>
        match index_query E emb top_k true w1 with
        | (Ok ms, w2) =>
            Ran [CoEmbed [query] "embed-english-v3.0" "search_query"
                   (Ok (emb :: embs));
                 IndexQuery emb top_k true (Ok ms)]
                w2 (Returns (search_helper.format_match E <$> ms))
        | (Err e, w2) =>
            Ran [CoEmbed [query] "embed-english-v3.0" "search_query"
                   (Ok (emb :: embs));
                 IndexQuery emb top_k true (Err e)]
                w2 (Returns [ {["error" := VStr (Py.str e)]} ])
        end
    | (Ok [], w1) =>
        Ran [CoEmbed [query] "embed-english-v3.0" "search_query" (Ok [])]
            w1 (Returns [ {["error" := VStr (Py.str Py.IndexError)]} ])
    | (Err e, w1) =>
        Ran [CoEmbed [query] "embed-english-v3.0" "search_query" (Err e)]
            w1 (Returns [ {["error" := VStr (Py.str e)]} ])
    end.
Proof.
  unfold search_helper.search_faq.
  retrieval_cases E query top_k w; try done.
  by rewrite foldl_snoc_fmap.
Qed.

Lemma print_result_error (i : Z) (s : string) w :
  search_helper_main.print_result E str_float
    (i, {["error" := VStr s]}) tt w
  = Ran [Print ("Error: " +:+ s)] w (Returns tt).
Proof.
  unfold search_helper_main.print_result, search_helper_main.getitem.
  by rewrite !lookup_singleton_eq.
Qed.

Lemma format_match_lookups (m : query_match (float E)) :
  search_helper.format_match E m !! "error" = None
  /\ search_helper.format_match E m !! "score" = Some (VFloat (score m))
  /\ search_helper.format_match E m !! "source"
     = Some (VStr (default "Unknown" (metadata m !! "source")))
  /\ search_helper.format_match E m !! "content_preview"
     = Some (VStr (Py.str_take 300
                     (default "" (metadata m !! "content_preview")))).
Proof.
  unfold search_helper.format_match. split_and!.
  - by rewrite !lookup_insert_ne by done.
  - by rewrite lookup_insert_eq.
  - rewrite lookup_insert_ne by done. by rewrite lookup_insert_eq.
  - rewrite !lookup_insert_ne by done. by rewrite lookup_insert_eq.
Qed.

Lemma print_result_match (i : Z) (m : query_match (float E)) w :
  search_helper_main.print_result E str_float
    (i, search_helper.format_match E m) tt w
  = Ran [Print (Py.newline +:+ "Result " +:+ pretty i +:+ ":");
         Print ("Score: " +:+ format_4f E (score m));
         Print ("Source: " +:+ default "Unknown" (metadata m !! "source"));
         Print ("Preview: "
                +:+ Py.str_take 300
                      (default "" (metadata m !! "content_preview")))]
        w (Returns tt).
Proof.
  destruct (format_match_lookups m) as (Herr & Hscore & Hsrc & Hprev).
  unfold search_helper_main.print_result, search_helper_main.getitem.
  by rewrite Herr, Hscore, Hsrc, Hprev.
Qed.

Lemma enumerate_from_cons {A} (start : Z) (x : A) (l : list A) :
  enumerate_from start (x :: l) = (start, x) :: enumerate_from (Z.succ start) l.
Proof.
  unfold enumerate_from.
  replace (Py.len (x :: l)) with (Z.succ (Py.len l))
    by (unfold Py.len; simpl; lia).
  rewrite seqZ_cons by (pose proof (len_nonneg l); lia).
  by rewrite Z.pred_succ.
Qed.

Lemma print_results_matches (ms : list (query_match (float E))) start w :
  let r := for_ (enumerate_from start (search_helper.format_match E <$> ms))
             (search_helper_main.print_result E str_float) tt w in
  out r = Returns tt /\ final r = w
  /\ length (trace r) = (4 * length ms)%nat.
Proof.
  revert start. induction ms as [|m ms IH]; intros start; [done|].
  cbv zeta. rewrite fmap_cons, enumerate_from_cons, for_cons_run.
  rewrite print_result_match. cbn [out trace final].
  destruct (IH (Z.succ start)) as (Hout & Hfinal & Hlen).
  split_and!; [done | done |].
  rewrite length_app, Hlen. simpl. lia.
Qed.

End SearchHelperScript.

(** X21.  The usage example of [search_helper.py] never raises: every
    dictionary it gets from [search_faq] has the keys it reads.  When a
    service call fails with [e] it prints the one line [Error: str(e)];
    otherwise it prints four lines for each match.  It makes no call of its
    own. *)
Theorem search_helper_main_total (E : Env) (str_float : float E -> string)
    (w : world E) :
  let r := search_helper.search_faq E "What is the refund policy?" 3 w in
  let m := search_helper_main.main E str_float w in
  out m = Returns tt
  /\ final m = final r
  /\ match failures (trace r) with
     | [] =>
         exists vec ms,
           IndexQuery vec 3 true (Ok ms) ∈ trace r
           /\ length (trace m) = (length (trace r) + 4 * length ms)%nat
     | e :: _ => trace m = trace r ++ [Print ("Error: " +:+ Py.str e)]
     end.
Proof.
  cbv zeta. unfold search_helper_main.main, bind.
  rewrite search_helper_run.
  destruct (co_embed E ["What is the refund policy?"] "embed-english-v3.0"
              "search_query" w) as [[[|emb embs]|e] w1].
  - cbn [out trace final]. rewrite enumerate_from_cons, for_cons_run.
    rewrite print_result_error. by cbn [out trace final for_].
  - destruct (index_query E emb 3 true w1) as [[ms|e] w2].
    + cbn [out trace final].
      destruct (print_results_matches E str_float ms 1 w2)
        as (Hout & Hfinal & Hlen).
      split_and!; [done | done |].
      exists emb, ms. split; [right; by left|].
      rewrite length_app, Hlen. done.
    + cbn [out trace final]. rewrite enumerate_from_cons, for_cons_run.
      rewrite print_result_error. by cbn [out trace final for_].
  - cbn [out trace final]. rewrite enumerate_from_cons, for_cons_run.
    rewrite print_result_error. by cbn [out trace final for_].
Qed.
